(** * jobhog: borrowing jobserver tokens for an unrelated command

    A shallow embedding of [jobhog.c] and the properties of its token
    life cycle.  The program is a sequence of system calls, so the
    embedding is a state-and-halt monad over two records: the [kernel]
    (the jobserver pipe, the auxiliary pipe, the plan of injected faults
    and the log of system calls) and the calling process [proc] (its
    descriptor table, its environment, [errno] and the two globals [rfd]
    and [wfd]).  The C functions are translated one by one in the order
    of the source file. *)

From Stdlib Require Import ZArith Lia Ascii String.
From stdpp Require Import gmap strings list fin_maps.

Local Open Scope string_scope.
Local Open Scope Z_scope.

(** ** C integers and constants *)

Module C.

(** [unsigned int] and [int] are 32 bits wide. *)
Definition to_uint (x : Z) : Z := x mod 2 ^ 32.
Definition to_int (x : Z) : Z := (x + 2 ^ 31) mod 2 ^ 32 - 2 ^ 31.
(** [long] is 64 bits wide; [strtol] saturates. *)
Definition clamp_long (x : Z) : Z := Z.max (- 2 ^ 63) (Z.min (2 ^ 63 - 1) x).

(** <sysexits.h> *)
Definition EX_OK : Z := 0.
Definition EX_USAGE : Z := 64.
Definition EX_OSERR : Z := 71.

(** <errno.h> (Linux) *)
Definition ENOENT : Z := 2.
Definition EINTR : Z := 4.
Definition EBADF : Z := 9.
Definition EAGAIN : Z := 11.

(** <fcntl.h> (Linux) *)
Definition O_RDONLY : Z := 0.
Definition O_WRONLY : Z := 1.
Definition O_NONBLOCK : Z := 2048.
Definition O_CLOEXEC : Z := 524288.

End C.

(** ** The pieces of libc the program calls on strings *)

Module Libc.

Definition code (c : ascii) : Z := Z.of_N (N_of_ascii c).

Definition chr (n : Z) : ascii := ascii_of_N (Z.to_N n).

Definition isspace (c : ascii) : bool :=
  (code c =? 32) || ((9 <=? code c) && (code c <=? 13)).

Definition isdigit (c : ascii) : bool :=
  (48 <=? code c) && (code c <=? 57).

(** A [char *] into a string is the offset of the byte it points to. *)
Fixpoint str_drop (n : nat) (s : string) : string :=
  match n, s with
  | O, _ => s
  | S n', String _ s' => str_drop n' s'
  | S _, EmptyString => EmptyString
  end.

(** [strstr(hay, needle)]: offset of the first occurrence. *)
Fixpoint strstr (hay needle : string) : option nat :=
  if String.prefix needle hay then Some O
  else match hay with
       | EmptyString => None
       | String _ hay' => S <$> strstr hay' needle
       end.

(** [strchr(s, c)]: offset of the first [c]. *)
Fixpoint strchr (s : string) (c : ascii) : option nat :=
  match s with
  | EmptyString => None
  | String d s' => if Ascii.eqb d c then Some O else S <$> strchr s' c
  end.

(** [strncmp(s, t, strlen(t)) == 0] *)
Definition starts_with (s t : string) : bool := String.prefix t s.

(** *** [sscanf(s, "=%d,%d", &a, &b)] *)

Fixpoint skip_space (s : string) : string :=
  match s with
  | String c s' => if isspace c then skip_space s' else s
  | EmptyString => s
  end.

Fixpoint scan_digits (s : string) (acc : Z) : Z * string :=
  match s with
  | String c s' =>
      if isdigit c then scan_digits s' (10 * acc + (code c - 48)) else (acc, s)
  | EmptyString => (acc, s)
  end.

Inductive scan := Conv (v : Z) (rest : string) | NoMatch | InputEnd.

(** The conversion [%d]: white space is skipped, then an optional sign
    and at least one digit; the value goes through [strtol] and is
    stored in an [int]. *)
Definition scan_d (s : string) : scan :=
  match skip_space s with
  | EmptyString => InputEnd
  | String c t as s0 =>
      let '(neg, s1) :=
        if Ascii.eqb c "-"%char then (true, t)
        else if Ascii.eqb c "+"%char then (false, t) else (false, s0) in
      match s1 with
      | String d _ =>
          if isdigit d
          then let '(v, rest) := scan_digits s1 0 in
               Conv (C.to_int (C.clamp_long (if neg : bool then - v else v))) rest
          else NoMatch
      | EmptyString => NoMatch
      end
  end.

(** An ordinary character of the format matches itself. *)
Definition scan_lit (c : ascii) (s : string) : option string :=
  match s with
  | String d s' => if Ascii.eqb d c then Some s' else None
  | EmptyString => None
  end.

(** Returns the value of [sscanf] (the number of conversions stored, or
    [EOF = -1] when the input ends before the first one) and what was
    stored through the two pointers. *)
Definition sscanf_eq_d_comma_d (s : string) : Z * option Z * option Z :=
  match scan_lit "="%char s with
  | None => ((if s is EmptyString then -1 else 0), None, None)
  | Some s1 =>
      match scan_d s1 with
      | InputEnd => (-1, None, None)
      | NoMatch => (0, None, None)
      | Conv a s2 =>
          match scan_lit ","%char s2 with
          | None => (1, Some a, None)
          | Some s3 =>
              match scan_d s3 with
              | Conv b _ => (2, Some a, Some b)
              | _ => (1, Some a, None)
              end
          end
      end
  end.

(** *** [snprintf(buf, size, "%u", x)] *)

Fixpoint utoa_aux (fuel : nat) (x : Z) (acc : list ascii) : list ascii :=
  match fuel with
  | O => acc
  | S fuel' =>
      let acc' := chr (48 + x mod 10) :: acc in
      if x / 10 =? 0 then acc' else utoa_aux fuel' (x / 10) acc'
  end.

(** A 32-bit value has at most ten decimal digits. *)
Definition utoa (x : Z) : list ascii := utoa_aux 10 x [].

Definition NUL : ascii := Ascii.zero.

(** The buffer receives at most [size - 1] characters and a
    terminator; the value returned is the length of the full text. *)
Definition snprintf_u (size : nat) (x : Z) : list ascii * Z :=
  let txt := utoa x in
  ((take (pred size) txt ++ [NUL])%list, Z.of_nat (length txt)).

(** *** Byte buffers *)

Definition cbuf (s : string) : list ascii :=
  (list_ascii_of_string s ++ [NUL])%list.

(** The C string held by a buffer: the bytes before the first NUL. *)
Fixpoint cstr (b : list ascii) : string :=
  match b with
  | [] => EmptyString
  | c :: b' => if Ascii.eqb c NUL then EmptyString else String c (cstr b')
  end.

(** Overwrite [data] at offset [pos]. *)
Definition poke (b : list ascii) (pos : nat) (data : list ascii) : list ascii :=
  (take pos b ++ data ++ drop (pos + length data) b)%list.

(** [memcpy(b + dst, src, n)] *)
Definition memcpy (b : list ascii) (dst : nat) (src : list ascii) (n : nat)
  : list ascii :=
  poke b dst (take n src).

(** [memmove(b + dst, b + src, n)]: the source is read whole first. *)
Definition memmove (b : list ascii) (dst src n : nat) : list ascii :=
  poke b dst (take n (drop src b)).

End Libc.

(** ** The kernel and the process *)

(** What a descriptor is open on: the two ends of the jobserver pipe, the
    two ends of the auxiliary pipe made by [create_child], or something
    that is not a pipe (the terminal, /dev/null). *)
Inductive fkind := KJobR | KJobW | KAuxR | KAuxW | KNull.

Record file := File { f_kind : fkind; f_flags : Z; f_cloexec : bool }.

Definition nonblocking (f : file) : bool :=
  negb (Z.land (f_flags f) C.O_NONBLOCK =? 0).

Definition is_auxw (f : file) : bool :=
  match f_kind f with KAuxW => true | _ => false end.

Inductive who := Main | Watcher.

#[global] Instance who_eq_dec : EqDecision who.
Proof. solve_decision. Defined.

Record proc := Proc {
  pid : who;
  environ : gmap string string;
  fds : gmap Z file;
  errno : Z;
  rfd : Z;                      (* static int rfd = -1 *)
  wfd : Z;                      (* static int wfd = -1 *)
}.

(** The result of one system call: a value, [-1] with an [errno], or the
    caller is suspended and nothing will wake it up. *)
Inductive sysret := Ret (r : Z) | Err (e : Z) | Block.

Inductive event :=
| EvFcntl (fd : Z) (r : sysret)
| EvOpen (procfd flags : Z) (r : sysret)
| EvRead (fd count : Z) (r : sysret)
| EvWrite (fd count : Z) (r : sysret)
| EvPipe (pipefd : Z * Z) (r : sysret)
| EvFork (r : sysret)
| EvClose (fd : Z) (r : sysret)
| EvUnsetenv (name : string)
| EvExecvp (path : string) (argv : list string) (r : sysret)
| EvError (status errnum : Z) (msg : string)
| EvExit (status : Z).

(** What the other clients of the jobserver do between two of our reads:
    they take or give back tokens, the read is interrupted, or the last
    writer goes away. *)
Inductive js_ev := JsOthers (d : Z) | JsFault (e : Z) | JsHangup.

(** What a write to the jobserver meets: room for [n] bytes or an error.
    With the script used up the pipe stays full. *)
Inductive wr_ev := WrRoom (n : Z) | WrFault (e : Z).

(** What happens while the watcher sleeps in [read]: a signal, a holder
    of the write end writes a byte, releases its descriptor or duplicates
    it. *)
Inductive aux_ev := AuxSignal | AuxWrite | AuxRelease | AuxDup.

Record jspipe := JsPipe {
  js_avail : Z;                 (* tokens queued *)
  js_noise : list js_ev;
  js_room : list wr_ev;
}.

Record auxpipe := AuxPipe {
  aux_writers : nat;            (* descriptors open on the write end *)
  aux_buf : Z;
  aux_script : list aux_ev;
}.

Record plan := Plan {
  fail_open : option Z;
  fail_pipe : option Z;
  fail_fork : option Z;
  fail_exec : option Z;
  child_pid : Z;
}.

(** A forked child that has not run yet: its copy of the process and of
    the locals of [create_child]. *)
Record child := Child { c_proc : proc; c_tokens : Z; c_pipefd : Z * Z }.

Record kernel := Kernel {
  js : jspipe;
  aux : auxpipe;
  faults : plan;
  spawned : option child;
  trace : list (who * event);
}.

Definition set_errno (e : Z) (p : proc) : proc :=
  Proc (pid p) (environ p) (fds p) e (rfd p) (wfd p).
Definition set_fds (t : gmap Z file) (p : proc) : proc :=
  Proc (pid p) (environ p) t (errno p) (rfd p) (wfd p).
Definition set_environ (e : gmap string string) (p : proc) : proc :=
  Proc (pid p) e (fds p) (errno p) (rfd p) (wfd p).
Definition set_rfd (v : Z) (p : proc) : proc :=
  Proc (pid p) (environ p) (fds p) (errno p) v (wfd p).
Definition set_wfd (v : Z) (p : proc) : proc :=
  Proc (pid p) (environ p) (fds p) (errno p) (rfd p) v.
Definition set_pid (w : who) (p : proc) : proc :=
  Proc w (environ p) (fds p) (errno p) (rfd p) (wfd p).

Definition set_js (j : jspipe) (k : kernel) : kernel :=
  Kernel j (aux k) (faults k) (spawned k) (trace k).
Definition set_aux (a : auxpipe) (k : kernel) : kernel :=
  Kernel (js k) a (faults k) (spawned k) (trace k).
Definition set_spawned (c : option child) (k : kernel) : kernel :=
  Kernel (js k) (aux k) (faults k) c (trace k).
Definition add_event (e : who * event) (k : kernel) : kernel :=
  Kernel (js k) (aux k) (faults k) (spawned k) (trace k ++ [e])%list.
Definition set_writers (n : nat) (k : kernel) : kernel :=
  set_aux (AuxPipe n (aux_buf (aux k)) (aux_script (aux k))) k.

(** *** Descriptor tables *)

Definition count_auxw (t : gmap Z file) : nat :=
  length (List.filter (fun kv => is_auxw (snd kv)) (map_to_list t)).

(** A descriptor above all those of the table. *)
Definition above_all (t : gmap Z file) : Z :=
  foldr (fun n m => Z.max (Z.succ n) m) 0 (elements (dom t)).

(** The lowest descriptor that is not open.  It is found among the first
    [size t + 1] numbers; [above_all] is there to make the definition
    total. *)
Definition alloc_fd (t : gmap Z file) : Z :=
  default (above_all t)
    (List.find (fun n => bool_decide (t !! n = None))
               (seqZ 0 (Z.of_nat (S (size t))))).

(** *** Pipes *)

Definition js_read (nb : bool) (count : Z) (j : jspipe) : sysret * jspipe :=
  let '(ev, rest) :=
    match js_noise j with [] => (JsOthers 0, []) | e :: r => (e, r) end in
  match ev with
  | JsFault e => (Err e, JsPipe (js_avail j) rest (js_room j))
  | JsHangup =>
      let n := Z.max 0 (Z.min (js_avail j) count) in
      (Ret n, JsPipe (js_avail j - n) rest (js_room j))
  | JsOthers d =>
      let a := Z.max 0 (js_avail j + d) in
      if 0 <? a
      then let n := Z.min a count in (Ret n, JsPipe (a - n) rest (js_room j))
      else if nb then (Err C.EAGAIN, JsPipe 0 rest (js_room j))
           else (Block, JsPipe 0 rest (js_room j))
  end.

Definition js_write (count : Z) (j : jspipe) : sysret * jspipe :=
  match js_room j with
  | [] => (Block, j)
  | WrFault e :: rest => (Err e, JsPipe (js_avail j) (js_noise j) rest)
  | WrRoom n :: rest =>
      let m := Z.max 0 (Z.min n count) in
      (Ret m, JsPipe (js_avail j + m) (js_noise j) rest)
  end.

(** A blocking read of the auxiliary pipe: data if there is some, end of
    file once no descriptor is open on the write end, and otherwise
    sleep until the next thing happens. *)
Fixpoint aux_wait (script : list aux_ev) (writers : nat) (buf count : Z)
  : sysret * auxpipe :=
  if 0 <? buf
  then let n := Z.min buf count in (Ret n, AuxPipe writers (buf - n) script)
  else match writers with
       | O => (Ret 0, AuxPipe O buf script)
       | S w' =>
           match script with
           | [] => (Block, AuxPipe writers buf [])
           | AuxSignal :: s => (Err C.EINTR, AuxPipe writers buf s)
           | AuxWrite :: s => aux_wait s writers (buf + 1) count
           | AuxRelease :: s => aux_wait s w' buf count
           | AuxDup :: s => aux_wait s (S writers) buf count
           end
       end.

Definition aux_read (count : Z) (a : auxpipe) : sysret * auxpipe :=
  aux_wait (aux_script a) (aux_writers a) (aux_buf a) count.

(** ** The monad of a running process *)

Inductive halt :=
| Exited (status : Z)
| Execed (path : string) (argv : list string)
| Aborted (what : string)
| Blocked
| Diverged.

Inductive res (A : Type) :=
| Val (a : A) (k : kernel) (p : proc)
| Halt (h : halt) (k : kernel) (p : proc).
Arguments Val {A} a k p.
Arguments Halt {A} h k p.

Definition M (A : Type) : Type := kernel -> proc -> res A.

#[global] Instance M_ret : MRet M := fun A a k p => Val a k p.
#[global] Instance M_bind : MBind M := fun A B f m k p =>
  match m k p with
  | Val a k' p' => f a k' p'
  | Halt h k' p' => Halt h k' p'
  end.

Definition res_kernel {A} (r : res A) : kernel :=
  match r with Val _ k _ | Halt _ k _ => k end.
Definition res_proc {A} (r : res A) : proc :=
  match r with Val _ _ p | Halt _ _ p => p end.

Definition get_proc : M proc := fun k p => Val p k p.
Definition stop {A} (h : halt) : M A := fun k p => Halt h k p.

(** [assert(b)] *)
Definition assert (b : bool) (what : string) : M unit :=
  if b then mret tt else stop (Aborted what).

(** Log the call and hand its result to the C code. *)
Definition deliver (ev : sysret -> event) (r : sysret) : M Z :=
  fun k p =>
    let k' := add_event (pid p, ev r) k in
    match r with
    | Ret v => Val v k' p
    | Err e => Val (-1) k' (set_errno e p)
    | Block => Halt Blocked k' p
    end.

(** ** System calls *)

Definition sys_fcntl_getfl (fd : Z) : M Z :=
  fun k p =>
    match fds p !! fd with
    | Some f => deliver (EvFcntl fd) (Ret (f_flags f)) k p
    | None => deliver (EvFcntl fd) (Err C.EBADF) k p
    end.

(** Opening /proc/self/fd/N on a pipe gives a new open file description
    on the same pipe, with the access mode and flags asked for. *)
Definition reopen_kind (kd : fkind) : fkind :=
  match kd with
  | KJobR | KJobW => KJobR
  | KAuxR | KAuxW => KAuxR
  | KNull => KNull
  end.

Definition sys_open_proc_self_fd (n flags : Z) : M Z :=
  fun k p =>
    match fail_open (faults k) with
    | Some e => deliver (EvOpen n flags) (Err e) k p
    | None =>
        match fds p !! n with
        | None => deliver (EvOpen n flags) (Err C.ENOENT) k p
        | Some f =>
            let fd := alloc_fd (fds p) in
            let f' := File (reopen_kind (f_kind f))
                           (Z.land flags (C.O_CLOEXEC - 1))
                           (negb (Z.land flags C.O_CLOEXEC =? 0)) in
            deliver (EvOpen n flags) (Ret fd) k (set_fds (<[fd := f']> (fds p)) p)
        end
    end.

Definition sys_read (fd count : Z) : M Z :=
  fun k p =>
    match fds p !! fd with
    | None => deliver (EvRead fd count) (Err C.EBADF) k p
    | Some f =>
        match f_kind f with
        | KJobR =>
            let '(r, j) := js_read (nonblocking f) count (js k) in
            deliver (EvRead fd count) r (set_js j k) p
        | KAuxR =>
            let '(r, a) := aux_read count (aux k) in
            deliver (EvRead fd count) r (set_aux a k) p
        | KNull => deliver (EvRead fd count) (Ret 0) k p
        | KJobW | KAuxW => deliver (EvRead fd count) (Err C.EBADF) k p
        end
    end.

Definition sys_write (fd count : Z) : M Z :=
  fun k p =>
    match fds p !! fd with
    | None => deliver (EvWrite fd count) (Err C.EBADF) k p
    | Some f =>
        match f_kind f with
        | KJobW =>
            let '(r, j) := js_write count (js k) in
            deliver (EvWrite fd count) r (set_js j k) p
        | KNull => deliver (EvWrite fd count) (Ret count) k p
        | KJobR | KAuxR | KAuxW => deliver (EvWrite fd count) (Err C.EBADF) k p
        end
    end.

Definition sys_close (fd : Z) : M Z :=
  fun k p =>
    match fds p !! fd with
    | None => deliver (EvClose fd) (Err C.EBADF) k p
    | Some f =>
        let k' := if is_auxw f
                  then set_writers (Nat.pred (aux_writers (aux k))) k else k in
        deliver (EvClose fd) (Ret 0) k' (set_fds (delete fd (fds p)) p)
    end.

(** [pipe(pipefd)]: a new pipe with one descriptor on each end. *)
Definition sys_pipe : M (Z * (Z * Z)) :=
  fun k p =>
    match fail_pipe (faults k) with
    | Some e => (r ← deliver (EvPipe (0, 0)) (Err e); mret (r, (0, 0))) k p
    | None =>
        let r0 := alloc_fd (fds p) in
        let t0 := <[r0 := File KAuxR C.O_RDONLY false]> (fds p) in
        let w0 := alloc_fd t0 in
        let t1 := <[w0 := File KAuxW C.O_WRONLY false]> t0 in
        (r ← deliver (EvPipe (r0, w0)) (Ret 0); mret (r, (r0, w0)))
          (set_aux (AuxPipe 1 0 (aux_script (aux k))) k) (set_fds t1 p)
    end.

(** [fork()], as the parent sees it.  The child gets a copy of the
    process, so every descriptor of the parent is open once more; it
    resumes from the call with the value 0 when it is scheduled
    ([run_child] below). *)
Definition sys_fork (tokens : Z) (pipefd : Z * Z) : M Z :=
  fun k p =>
    match fail_fork (faults k) with
    | Some e => deliver EvFork (Err e) k p
    | None =>
        let c := Child (set_pid Watcher p) tokens pipefd in
        let k' := set_writers (aux_writers (aux k) + count_auxw (fds p))%nat
                    (set_spawned (Some c) k) in
        deliver EvFork (Ret (Z.max 1 (child_pid (faults k)))) k' p
    end.

(** The process ends and all its descriptors are closed. *)
Definition sys_exit {A} (status : Z) : M A :=
  fun k p =>
    let k' := set_writers (aux_writers (aux k) - count_auxw (fds p))%nat k in
    Halt (Exited status) (add_event (pid p, EvExit status) k') (set_fds ∅ p).

(** [execvp] returns only when it fails; otherwise the descriptors marked
    close-on-exec are closed and the process goes on as the command. *)
Definition sys_execvp (path : string) (argv : list string) : M Z :=
  fun k p =>
    match fail_exec (faults k) with
    | Some e => deliver (EvExecvp path argv) (Err e) k p
    | None =>
        let t := filter (fun kv => negb (f_cloexec (snd kv)) = true) (fds p) in
        let k' := set_writers
                    (aux_writers (aux k) - (count_auxw (fds p) - count_auxw t))%nat
                    k in
        Halt (Execed path argv)
             (add_event (pid p, EvExecvp path argv (Ret 0)) k') (set_fds t p)
    end.

(** ** libc calls that touch the process *)

Definition getenv (name : string) : M (option string) :=
  fun k p => Val (environ p !! name) k p.

Definition unsetenv (name : string) : M Z :=
  fun k p =>
    Val 0 (add_event (pid p, EvUnsetenv name) k)
        (set_environ (delete name (environ p)) p).

(** [error(status, errnum, msg)] prints and, for a non-zero status,
    calls [exit(status)]. *)
Definition error (status errnum : Z) (msg : string) : M unit :=
  fun k p =>
    let k' := add_event (pid p, EvError status errnum msg) k in
    if status =? 0 then Val tt k' p else sys_exit status k' p.

(** ** The program *)

Definition store_fds (a b : option Z) : M unit :=
  fun k p =>
    let p1 := match a with Some v => set_rfd v p | None => p end in
    let p2 := match b with Some v => set_wfd v p1 | None => p1 end in
    Val tt k p2.

Definition first_jobserver_option (env : string) : option nat :=
  match Libc.strstr env "--jobserver-auth=" with
  | Some o => Some o
  | None => Libc.strstr env "--jobserver-fds="
  end.

Definition parse_env : M Z :=
  env ← getenv "MAKEFLAGS";
  match env with
  | None => mret (-1)
  | Some env =>
      match first_jobserver_option env with
      | None => mret (-1)
      | Some o =>
          let s := Libc.str_drop o env in
          match Libc.strchr s "="%char with
          | None => stop (Aborted "s")
          | Some o' =>
              let '(n, a, b) := Libc.sscanf_eq_d_comma_d (Libc.str_drop o' s) in
              store_fds a b;;
              if n =? 2 then mret 0 else mret (-1)
          end
      end
  end.

(** The loop of [put_tokens].  Every turn either moves the script of the
    jobserver pipe forward or writes at least one byte elsewhere, so the
    fuel given by [put_tokens] is never used up. *)
Fixpoint put_tokens_loop (fuel : nat) (tokens : Z) : M unit :=
  if tokens =? 0 then mret tt
  else match fuel with
       | O => stop Diverged
       | S fuel' =>
           let w := C.to_int (if 8 <? tokens then 8 else tokens) in
           p ← get_proc;
           r ← sys_write (wfd p) w;
           if r <? 0
           then p ← get_proc;
                if (errno p =? C.EAGAIN) || (errno p =? C.EINTR)
                then put_tokens_loop fuel' tokens
                else mret tt
           else put_tokens_loop fuel' (C.to_uint (tokens - r))
       end.

Definition put_tokens (tokens : Z) : M unit :=
  fun k p =>
    put_tokens_loop (S (length (js_room (js k)) + Z.to_nat tokens)) tokens k p.

(** [while (read(pipefd[0], &d, 1) < 0) ;] *)
Fixpoint wait_loop (fuel : nat) (fd : Z) : M unit :=
  match fuel with
  | O => stop Diverged
  | S fuel' =>
      r ← sys_read fd 1;
      if r <? 0 then wait_loop fuel' fd else mret tt
  end.

(** [create_child] from the return of [fork] on.  The parent runs it with
    the value [fork] gave it, the child with 0. *)
Definition after_fork (tokens : Z) (pipefd : Z * Z) (child : Z) : M Z :=
  if child <? 0
  then sys_close (fst pipefd);;
       sys_close (snd pipefd);;
       put_tokens tokens;;
       mret 0
  else if child =? 0
  then sys_close (snd pipefd);;
       (fun k p =>
          wait_loop (S (length (aux_script (aux k)) + length (js_noise (js k))))
                    (fst pipefd) k p);;
       put_tokens tokens;;
       sys_exit C.EX_OK
  else sys_close (fst pipefd);;
       mret (C.to_int tokens).

Definition create_child (tokens : Z) : M Z :=
  '(r, pipefd) ← sys_pipe;
  if r <? 0
  then put_tokens tokens;;
       mret 0
  else child ← sys_fork tokens pipefd;
       after_fork tokens pipefd child.

(** [while (tokens < 500) { r = read(fd, buf, 8); if (r <= 0) break;
    tokens += r; }] *)
Fixpoint drain (fuel : nat) (fd tokens : Z) : M Z :=
  if tokens <? 500
  then match fuel with
       | O => stop Diverged
       | S fuel' =>
           r ← sys_read fd 8;
           if r <=? 0 then mret tokens
           else drain fuel' fd (C.to_uint (tokens + r))
       end
  else mret tokens.

(** [get_tokens] from the loop on, once [fd] is chosen. *)
Definition get_tokens_from (fd : Z) : M Z :=
  tokens ← drain 500 fd 0;
  p ← get_proc;
  (if fd =? rfd p then mret 0 else sys_close fd);;
  if tokens =? 0 then mret tokens
  else r ← create_child tokens; mret (C.to_uint r).

Definition get_tokens : M Z :=
  r ← parse_env;
  if r <? 0 then mret 0
  else
    p ← get_proc;
    flags ← sys_fcntl_getfl (rfd p);
    if flags <? 0 then mret 0
    else if Z.land flags C.O_NONBLOCK =? 0
    then fd ← sys_open_proc_self_fd (rfd p)
              (Z.lor (Z.lor C.O_RDONLY C.O_NONBLOCK) C.O_CLOEXEC);
         if fd <? 0 then mret 0 else get_tokens_from fd
    else get_tokens_from (rfd p).

(** The pointer returned is the index of the argument and the offset of
    the marker in it. *)
Fixpoint find_hashes (argv : list string) : option (nat * nat) :=
  match argv with
  | [] => None
  | a :: rest =>
      match Libc.strstr a "###" with
      | Some o => Some (O, o)
      | None => (fun h => (S (fst h), snd h)) <$> find_hashes rest
      end
  end.

(** [main], lines 183-186: the checks on the command line.  [error] does
    not return here, its status is not zero. *)
Definition check_args (argv : list string) : M (nat * nat) :=
  let argc := Z.of_nat (length argv) in
  (if argc <? 2 then error C.EX_USAGE 0 "missing command" else mret tt);;
  match (if argc <? 3 then None else find_hashes (drop 2 argv)) with
  | None => error C.EX_USAGE 0 "missing ### argument";; mret (O, O)
  | Some h => mret (2 + fst h, snd h)%nat
  end.

(** The two copies of lines 198 and 203 on the buffer of the argument:
    [x] is printed over the marker at offset [o] and the rest of the
    string, with its terminator, is moved next to it. *)
Definition rewrite_arg (arg : string) (o : nat) (x : Z) : string :=
  let buf := fst (Libc.snprintf_u 4 x) in
  let p := Z.to_nat (snd (Libc.snprintf_u 4 x)) in
  let len := S (String.length arg - o) in
  let b1 := Libc.memcpy (Libc.cbuf arg) o buf p in
  let b2 := Libc.memmove b1 (o + p) (o + 3) (len - 3) in
  Libc.cstr b2.

(** [main], lines 190-203. *)
Definition rewrite (argv : list string) (h : nat * nat) (tokens : Z)
  : M (list string) :=
  let arg := default "" (argv !! fst h) in
  let o := snd h in
  assert (tokens <? 999) "tokens < 999";;
  assert (Libc.starts_with (Libc.str_drop o arg) "###")
         "strncmp(h, ###, strlen(###)) == 0";;
  let p := snd (Libc.snprintf_u 4 (C.to_uint (tokens + 1))) in
  assert (p <=? 3) "p <= 3";;
  let len := S (String.length arg - o) in
  assert (4 <=? Z.of_nat len) "len >= 4";;
  mret (<[fst h := rewrite_arg arg o (C.to_uint (tokens + 1))]> argv).

(** [main], lines 205-213. *)
Definition launch (argv : list string) : M Z :=
  unsetenv "MAKEFLAGS";;
  pr ← get_proc;
  (if 0 <=? rfd pr then sys_close (rfd pr) else mret 0);;
  pr ← get_proc;
  (if 0 <=? wfd pr then sys_close (wfd pr) else mret 0);;
  let cmd := default "" (argv !! 1%nat) in
  sys_execvp cmd (drop 1 argv);;
  pr ← get_proc;
  error C.EX_OSERR (errno pr) ("execvp(" +:+ cmd +:+ ") failed");;
  mret 0.

Definition main (argv : list string) : M Z :=
  h ← check_args argv;
  tokens ← get_tokens;
  argv' ← rewrite argv h tokens;
  launch argv'.

(** ** Running the two processes *)

(** The forked child resumes in [create_child] with [fork() == 0]. *)
Definition run_child (k : kernel) : option (res Z) :=
  match spawned k with
  | None => None
  | Some c =>
      Some (after_fork (c_tokens c) (c_pipefd c) 0 (set_spawned None k) (c_proc c))
  end.

(** The main process runs until it ends, blocks or becomes the command;
    then the watcher runs, woken up by what the command and its
    descendants do to the auxiliary pipe. *)
Definition system (argv : list string) (k : kernel) (p : proc)
  : res Z * option (res Z) :=
  let m := main argv k p in (m, run_child (res_kernel m)).

(** Bytes read by process [w], whatever the descriptor. *)
Fixpoint read_total (w : who) (tr : list (who * event)) : Z :=
  match tr with
  | [] => 0
  | (w', EvRead _ _ (Ret r)) :: tr' =>
      (if bool_decide (w' = w) then r else 0) + read_total w tr'
  | _ :: tr' => read_total w tr'
  end.

(** Bytes written by process [w] to descriptor [fd]. *)
Fixpoint written (w : who) (fd : Z) (tr : list (who * event)) : Z :=
  match tr with
  | [] => 0
  | (w', EvWrite fd' _ (Ret r)) :: tr' =>
      (if bool_decide (w' = w) && (fd' =? fd) then r else 0) + written w fd tr'
  | _ :: tr' => written w fd tr'
  end.

(** ** Vocabulary of the statements *)

Definition res_value {A} (r : res A) : option A :=
  match r with Val a _ _ => Some a | Halt _ _ _ => None end.

Definition res_halt {A} (r : res A) : option halt :=
  match r with Val _ _ _ => None | Halt h _ _ => Some h end.

(** What process [w] did, in order. *)
Definition events_of (w : who) (tr : list (who * event)) : list event :=
  snd <$> List.filter (fun e => bool_decide (fst e = w)) tr.

(** A C string holds no NUL. *)
Definition nul_free (s : string) : Prop := Libc.NUL ∉ list_ascii_of_string s.

(** The descriptor pair a MAKEFLAGS value announces: what [parse_env]
    finds when it returns 0. *)
Definition advertised (env : string) : option (Z * Z) :=
  match first_jobserver_option env with
  | None => None
  | Some o1 =>
      match Libc.strchr (Libc.str_drop o1 env) "="%char with
      | None => None
      | Some o2 =>
          match Libc.sscanf_eq_d_comma_d (Libc.str_drop o2 (Libc.str_drop o1 env)) with
          | (n, Some a, Some b) => if n =? 2 then Some (a, b) else None
          | _ => None
          end
      end
  end.

(** No channel: MAKEFLAGS is not set, holds neither option, or [sscanf]
    does not convert two integers after the [=]. *)
Definition no_channel (env : option string) : Prop :=
  env = None \/
  (exists e, env = Some e /\ first_jobserver_option e = None) \/
  (exists e o1 o2,
      env = Some e /\ first_jobserver_option e = Some o1 /\
      Libc.strchr (Libc.str_drop o1 e) "="%char = Some o2 /\
      fst (fst (Libc.sscanf_eq_d_comma_d (Libc.str_drop o2 (Libc.str_drop o1 e)))) <> 2).

(** A run in which no [assert] fails and whose value satisfies [Q]. *)
Definition safe {A} (Q : A -> Prop) (r : res A) : Prop :=
  match r with
  | Val a _ _ => Q a
  | Halt h _ _ => forall w, h <> Aborted w
  end.

Abbreviation any := (fun _ => True).

(** What a call leaves alone in the process ([errno] apart) and in the
    kernel (the jobserver pipe and the log apart). *)
Definition proc_frame (p p' : proc) : Prop :=
  pid p' = pid p /\ environ p' = environ p /\ fds p' = fds p /\
  rfd p' = rfd p /\ wfd p' = wfd p.

Definition kernel_frame (k k' : kernel) (tr : list (who * event)) : Prop :=
  aux k' = aux k /\ faults k' = faults k /\ spawned k' = spawned k /\
  trace k' = (trace k ++ tr)%list.

(** Stretches of the log: reads of [count] bytes from [fd] by [w]; writes
    of 1 to 8 bytes to [fd] by [w]; writes by [w]; no [close]; neither a
    write nor a fork; neither a read, a write nor a fork. *)
Definition reads_of (w : who) (fd count : Z) (tr : list (who * event)) : Prop :=
  Forall (fun e => exists r, e = (w, EvRead fd count r)) tr.

Definition writes_of (w : who) (fd : Z) (tr : list (who * event)) : Prop :=
  Forall (fun e => exists c r, e = (w, EvWrite fd c r) /\ 0 < c <= 8) tr.

Definition all_writes (w : who) (tr : list (who * event)) : Prop :=
  Forall (fun e => exists fd c r, e = (w, EvWrite fd c r)) tr.

Definition is_write (e : who * event) : Prop :=
  exists fd c x, snd e = EvWrite fd c x.

Definition no_close (tr : list (who * event)) : Prop :=
  Forall (fun e => forall fd r, snd e <> EvClose fd r) tr.

Definition quiet (tr : list (who * event)) : Prop :=
  Forall (fun e => forall fd c x, snd e <> EvWrite fd c x /\ snd e <> EvFork x) tr.

Definition silent (tr : list (who * event)) : Prop :=
  Forall (fun e => forall fd c x, snd e <> EvRead fd c x /\ snd e <> EvWrite fd c x /\
                                  snd e <> EvFork x) tr.

(** No hard failure: the only errors a write meets are EAGAIN and EINTR. *)
Definition soft (ev : wr_ev) : Prop :=
  match ev with
  | WrRoom _ => True
  | WrFault e => e = C.EAGAIN \/ e = C.EINTR
  end.

(** The bytes the jobserver pipe will take from writes of at most 8. *)
Fixpoint room_for (room : list wr_ev) : Z :=
  match room with
  | [] => 0
  | WrRoom n :: rest => Z.max 0 (Z.min n 8) + room_for rest
  | WrFault _ :: rest => room_for rest
  end.

(** The script of the auxiliary pipe lets a reader through: a byte
    arrives or the last descriptor on the write end is released. *)
Fixpoint aux_wakes (script : list aux_ev) (writers : nat) (buf : Z) : bool :=
  if 0 <? buf then true
  else match writers with
       | O => true
       | S w' =>
           match script with
           | [] => false
           | AuxSignal :: s => aux_wakes s writers buf
           | AuxWrite :: s => aux_wakes s writers (buf + 1)
           | AuxRelease :: s => aux_wakes s w' buf
           | AuxDup :: s => aux_wakes s (S writers) buf
           end
       end.

(** The calls logged by a usage error, by the parent in [create_child],
    by the watcher, by [create_child] when it falls back, and by [main]
    from a failing [execvp] on. *)
Definition usage_trace (w : who) (msg : string) : list (who * event) :=
  [(w, EvError C.EX_USAGE 0 msg); (w, EvExit C.EX_USAGE)].

Definition parent_trace (w : who) (pf : Z * Z) (pid : Z) : list (who * event) :=
  [(w, EvPipe pf (Ret 0)); (w, EvFork (Ret pid)); (w, EvClose (fst pf) (Ret 0))].

Definition watcher_trace (w : who) (pf : Z * Z) (reads writes : list (who * event))
  : list (who * event) :=
  ([(w, EvClose (snd pf) (Ret 0))] ++ reads ++ writes ++ [(w, EvExit C.EX_OK)])%list.

Definition fallback_trace (w : who) (e : Z) (pf : option (Z * Z)) : list (who * event) :=
  match pf with
  | None => [(w, EvPipe (0, 0) (Err e))]
  | Some pf => [(w, EvPipe pf (Ret 0)); (w, EvFork (Err e));
                (w, EvClose (fst pf) (Ret 0)); (w, EvClose (snd pf) (Ret 0))]
  end.

Definition exec_failure_trace (w : who) (cmd : string) (argv : list string) (e : Z)
  : list (who * event) :=
  [(w, EvExecvp cmd argv (Err e));
   (w, EvError C.EX_OSERR e ("execvp(" +:+ cmd +:+ ") failed"));
   (w, EvExit C.EX_OSERR)].

(** ** A make that passes descriptors 3 and 4 *)

Definition tty : file := File KNull 2 false.

Definition make_fds (rflags : Z) : gmap Z file :=
  <[0 := tty]> (<[1 := tty]> (<[2 := tty]>
  (<[3 := File KJobR rflags false]> (<[4 := File KJobW C.O_WRONLY false]> ∅)))).

Definition makeflags : gmap string string :=
  {["MAKEFLAGS" := " -j --jobserver-auth=3,4"]}.

(** The process as [main] starts, and as it is once [parse_env] has run. *)
Definition proc0 (env : gmap string string) : proc :=
  Proc Main env (make_fds C.O_RDONLY) 0 (-1) (-1).

Definition proc34 (rflags : Z) : proc :=
  Proc Main ∅ (make_fds rflags) 0 3 4.

(** A kernel with [t] tokens queued and no auxiliary pipe yet. *)
Definition kernel0 (t : Z) (noise : list js_ev) (room : list wr_ev)
  (script : list aux_ev) (pl : plan) : kernel :=
  Kernel (JsPipe t noise room) (AuxPipe 0 0 script) pl None [].

Definition no_faults : plan := Plan None None None None 1000.

Definition exec_fails (e : Z) : plan := Plan None None None (Some e) 1000.

Definition room2 : list wr_ev := [WrRoom 100; WrRoom 100].

Definition argv_ok : list string := ["jobhog"; "mybuild"; "-j###"; "--flag"].

(** ** Vocabulary of the further properties *)

(** The decimal text of a number, as make writes it in MAKEFLAGS and as
    [snprintf] prints it. *)
Definition decimal (x : Z) : string := string_of_list_ascii (Libc.utoa x).

(** The text does not go on with a digit. *)
Definition ends_number (s : string) : Prop :=
  match s with
  | String c _ => Libc.isdigit c = false
  | EmptyString => True
  end.

Definition digits_value (ds : list ascii) (a : Z) : Z :=
  foldl (fun a c => 10 * a + (Libc.code c - 48)) a ds.

(** The log ends with a write that failed for good. *)
Definition hard_stop (w : who) (fd : Z) (tr : list (who * event)) : Prop :=
  exists tr' c e, tr = (tr' ++ [(w, EvWrite fd c (Err e))])%list /\
                  e <> C.EAGAIN /\ e <> C.EINTR.

(** What a call leaves alone in the kernel besides the jobserver pipe. *)
Definition same_aux (k k' : kernel) : Prop :=
  aux k' = aux k /\ faults k' = faults k /\ spawned k' = spawned k.

(** No call of the log was left blocked in [read]. *)
Definition no_blocked_read (tr : list (who * event)) : Prop :=
  Forall (fun e => forall fd c, snd e <> EvRead fd c Block) tr.

(** One event that is neither a read nor a write. *)
Definition plain (e : who * event) : Prop :=
  (forall fd c x, snd e <> EvRead fd c x) /\ ~ is_write e.

Definition all_closes (w : who) (tr : list (who * event)) : Prop :=
  Forall (fun e => exists fd x, e = (w, EvClose fd x)) tr.

(** The two ends of the auxiliary pipe as [pipe] makes them. *)
Definition auxw_file : file := File KAuxW C.O_WRONLY false.
Definition auxr_file : file := File KAuxR C.O_RDONLY false.

(** The descriptor table [main] leaves to [execvp]: the two advertised
    descriptors are closed when they are not negative. *)
Definition closed_for_exec (p : proc) : gmap Z file :=
  let t1 := if 0 <=? rfd p then delete (rfd p) (fds p) else fds p in
  if 0 <=? wfd p then delete (wfd p) t1 else t1.

(** The watcher as [fork] leaves it in the example of the header: the
    jobserver on 3 and 4, the auxiliary pipe on 5 and 6. *)
Definition watcher_proc : proc :=
  Proc Watcher ∅
       (<[6 := File KAuxW C.O_WRONLY false]>
          (<[5 := File KAuxR C.O_RDONLY false]> (make_fds C.O_RDONLY))) 0 3 4.

Definition watcher_kernel (script : list aux_ev) : kernel :=
  Kernel (JsPipe 0 [] room2) (AuxPipe 2 0 script) no_faults None [].

(** * Properties *)

Example strstr_ex : Libc.strstr "-j### x" "###" = Some 2%nat.
Proof. reflexivity. Qed.

Example sscanf_ex1 : Libc.sscanf_eq_d_comma_d "=3,4 -j" = (2, Some 3, Some 4).
Proof. reflexivity. Qed.

Example sscanf_ex2 : Libc.sscanf_eq_d_comma_d "=abc" = (0, None, None).
Proof. reflexivity. Qed.

Example utoa_ex : Libc.utoa 508 = ["5"; "0"; "8"]%char.
Proof. reflexivity. Qed.

(** ** Strings *)

Lemma prefix_app (n s : string) : String.prefix n (n +:+ s) = true.
Proof.
  induction n as [|c n IH]; simpl; [by destruct s|].
  destruct (ascii_dec c c); [exact IH | congruence].
Qed.

Lemma prefix_split (n s : string) :
  String.prefix n s = true -> exists rest, s = n +:+ rest.
Proof.
  revert s. induction n as [|c n IH]; intros s H; simpl in *.
  - by exists s.
  - destruct s as [|d s]; simpl in H; [discriminate|].
    destruct (ascii_dec c d) as [->|]; [|discriminate].
    destruct (IH _ H) as [rest ->]. by exists rest.
Qed.

Lemma str_drop_app (a b : string) : Libc.str_drop (String.length a) (a +:+ b) = b.
Proof. induction a; simpl; [by destruct b | done]. Qed.

Lemma strstr_nil (n : string) :
  Libc.strstr "" n = if String.prefix n "" then Some O else None.
Proof. reflexivity. Qed.

Lemma strstr_cons (c : ascii) (h n : string) :
  Libc.strstr (String c h) n =
  if String.prefix n (String c h) then Some O else S <$> Libc.strstr h n.
Proof. reflexivity. Qed.

Lemma strstr_Some (h n : string) (o : nat) :
  Libc.strstr h n = Some o ->
  exists pre suf, h = pre +:+ n +:+ suf /\ String.length pre = o.
Proof.
  revert o. induction h as [|c h IH]; intros o.
  - rewrite strstr_nil. destruct (String.prefix n "") eqn:E; [|discriminate].
    intros [= <-]. apply prefix_split in E as [rest E].
    exists "", rest. by split.
  - rewrite strstr_cons. destruct (String.prefix n (String c h)) eqn:E.
    + intros [= <-]. apply prefix_split in E as [rest E].
      exists "", rest. by split.
    + destruct (Libc.strstr h n) as [o'|] eqn:E'; [|discriminate].
      intros [= <-]. destruct (IH _ eq_refl) as (pre & suf & -> & <-).
      exists (String c pre), suf. by split.
Qed.

Lemma strstr_first (h n : string) (o : nat) :
  Libc.strstr h n = Some o ->
  forall o', (o' < o)%nat -> String.prefix n (Libc.str_drop o' h) = false.
Proof.
  revert o. induction h as [|c h IH]; intros o.
  - rewrite strstr_nil. destruct (String.prefix n ""); [|discriminate].
    intros [= <-]; lia.
  - rewrite strstr_cons. destruct (String.prefix n (String c h)) eqn:E.
    + intros [= <-]; lia.
    + destruct (Libc.strstr h n) as [o1|] eqn:E'; [|discriminate].
      intros [= <-] [|o'] Hlt; simpl; [done|]. apply (IH o1); [done|lia].
Qed.

Lemma strstr_None (h n : string) :
  Libc.strstr h n = None -> forall pre suf, h <> pre +:+ n +:+ suf.
Proof.
  intros H pre. revert h H. induction pre as [|c pre IH]; intros h H suf ->.
  - assert (Libc.strstr (n +:+ suf) n = Some O) as E;
      [|change ("" +:+ n +:+ suf) with (n +:+ suf) in H; congruence].
    destruct (n +:+ suf) eqn:E.
    + by rewrite strstr_nil, <- E, prefix_app.
    + by rewrite strstr_cons, <- E, prefix_app.
  - change (String c pre +:+ n +:+ suf) with (String c (pre +:+ n +:+ suf)) in H.
    rewrite strstr_cons in H. destruct (String.prefix n _); [discriminate|].
    destruct (Libc.strstr (pre +:+ n +:+ suf) n) eqn:E; [discriminate|].
    by eapply IH.
Qed.

Section Monad.
Context {A B : Type}.

Lemma bind_eq (m : M A) (f : A -> M B) k p :
  (m ≫= f) k p =
  match m k p with
  | Val a k' p' => f a k' p'
  | Halt h k' p' => Halt h k' p'
  end.
Proof. reflexivity. Qed.

Lemma bind_val (m : M A) (f : A -> M B) k p a k' p' :
  m k p = Val a k' p' -> (m ≫= f) k p = f a k' p'.
Proof. intros H. by rewrite bind_eq, H. Qed.

Lemma bind_halt (m : M A) (f : A -> M B) k p h k' p' :
  m k p = Halt h k' p' -> (m ≫= f) k p = Halt h k' p'.
Proof. intros H. by rewrite bind_eq, H. Qed.
End Monad.

Lemma find_hashes_None (l : list string) :
  find_hashes l = None <-> Forall (fun a => Libc.strstr a "###" = None) l.
Proof.
  induction l as [|a l IH]; simpl; [by split|].
  destruct (Libc.strstr a "###") eqn:E.
  - split; [discriminate|]. intros H. inversion H; congruence.
  - destruct (find_hashes l) eqn:E'; simpl; split; try done.
    + intros H. inversion H as [|? ? _ H']. apply IH in H'. discriminate.
    + intros _. constructor; [done|by apply IH].
Qed.

Lemma find_hashes_Some (l : list string) (i o : nat) :
  find_hashes l = Some (i, o) ->
  exists a, l !! i = Some a /\ Libc.strstr a "###" = Some o /\
            forall j b, (j < i)%nat -> l !! j = Some b -> Libc.strstr b "###" = None.
Proof.
  revert i. induction l as [|a l IH]; intros i; simpl; [discriminate|].
  destruct (Libc.strstr a "###") as [o'|] eqn:E.
  - intros [= <- <-]. exists a. repeat split; [done|]. intros; lia.
  - destruct (find_hashes l) as [[i' o']|] eqn:E'; simpl; [|discriminate].
    intros [= <- <-]. destruct (IH _ eq_refl) as (b & Hb & Ho & Hfirst).
    exists b. repeat split; [done..|].
    intros [|j] c Hj; simpl; [congruence|]. apply Hfirst. lia.
Qed.

(** C7. With no command, or with no [###] in any argument after the
    command name, [main] reports a usage error and exits with EX_USAGE;
    the only calls logged are that report and the exit: nothing was read
    from the jobserver, no process was forked, and the environment and
    the two globals are as they were. *)
Theorem C7_usage_error_has_no_side_effect (argv : list string) (k : kernel) (p : proc) :
  (length argv < 2)%nat \/
  (forall a pre suf, a ∈ drop 2 argv -> a <> pre +:+ "###" +:+ suf) ->
  exists msg k' p',
    main argv k p = Halt (Exited C.EX_USAGE) k' p' /\
    trace k' = (trace k ++ usage_trace (pid p) msg)%list /\
    js k' = js k /\ spawned k' = spawned k /\
    environ p' = environ p /\ rfd p' = rfd p /\ wfd p' = wfd p.
Proof.
  intros H.
  assert (exists msg, check_args argv k p =
           sys_exit C.EX_USAGE (add_event (pid p, EvError C.EX_USAGE 0 msg) k) p)
    as [msg Hc].
  { unfold check_args. rewrite bind_eq.
    destruct (Z.of_nat (length argv) <? 2) eqn:E2.
    - by eexists.
    - assert ((if Z.of_nat (length argv) <? 3 then None
               else find_hashes (drop 2 argv)) = None) as ->.
      { destruct (Z.of_nat (length argv) <? 3); [done|].
        destruct H as [H|H]; [lia|].
        apply find_hashes_None, Forall_forall. intros a Ha.
        destruct (Libc.strstr a "###") as [o|] eqn:E; [|done].
        apply strstr_Some in E as (pre & suf & -> & _).
        exfalso. by eapply H. }
      by eexists. }
  exists msg. eexists _, _. split.
  - unfold main. erewrite bind_halt; [reflexivity|]. rewrite Hc. reflexivity.
  - destruct k as [j a f s t], p; simpl. unfold usage_trace. rewrite <- app_assoc.
    by repeat split.
Qed.

(** ** Rewriting the marker *)

Lemma list_ascii_app (a b : string) :
  list_ascii_of_string (a +:+ b) =
  (list_ascii_of_string a ++ list_ascii_of_string b)%list.
Proof. induction a; simpl; [done | by f_equal]. Qed.

Lemma string_of_list_app (a b : list ascii) :
  string_of_list_ascii (a ++ b) = string_of_list_ascii a +:+ string_of_list_ascii b.
Proof. induction a as [|c a IH]; simpl; [done | by rewrite IH]. Qed.

Lemma length_list_ascii (s : string) :
  length (list_ascii_of_string s) = String.length s.
Proof. induction s; simpl; [done | by f_equal]. Qed.

Lemma cstr_app_nul (l rest : list ascii) :
  Libc.NUL ∉ l -> Libc.cstr (l ++ Libc.NUL :: rest) = string_of_list_ascii l.
Proof.
  induction l as [|c l IH]; intros H; simpl; [done|].
  apply not_elem_of_cons in H as [Hc Hl].
  destruct (Ascii.eqb_spec c Libc.NUL) as [->|]; [done|]. by rewrite IH.
Qed.

Lemma poke_app (a b d : list ascii) :
  Libc.poke (a ++ b) (length a) d = (a ++ d ++ drop (length d) b)%list.
Proof. unfold Libc.poke. by rewrite take_app_length, drop_app_add. Qed.

Lemma digit_not_nul (x : Z) : Libc.NUL <> Libc.chr (48 + x mod 10).
Proof.
  assert (0 <= x mod 10 < 10) as H by (apply Z.mod_pos_bound; lia).
  assert (x mod 10 = 0 \/ x mod 10 = 1 \/ x mod 10 = 2 \/ x mod 10 = 3 \/
          x mod 10 = 4 \/ x mod 10 = 5 \/ x mod 10 = 6 \/ x mod 10 = 7 \/
          x mod 10 = 8 \/ x mod 10 = 9) as Hc by lia.
  repeat destruct Hc as [-> | Hc]; try rewrite Hc; discriminate.
Qed.

Lemma utoa_short (x : Z) :
  0 <= x < 1000 ->
  (1 <= length (Libc.utoa x) <= 3)%nat /\ Libc.NUL ∉ Libc.utoa x.
Proof.
  intros Hx. unfold Libc.utoa. simpl.
  pose proof (digit_not_nul x). pose proof (digit_not_nul (x / 10)).
  pose proof (digit_not_nul (x / 10 / 10)).
  assert (x / 10 / 10 / 10 = 0) as E by (Z.div_mod_to_equations; lia).
  destruct (x / 10 =? 0); [|destruct (x / 10 / 10 =? 0); [|rewrite E]].
  all: simpl; split; [lia|].
  all: rewrite ?not_elem_of_cons; repeat split; auto; apply not_elem_of_nil.
Qed.

Lemma rewrite_buf (lp ls d : list ascii) :
  (1 <= length d <= 3)%nat ->
  Libc.NUL ∉ lp -> Libc.NUL ∉ ls -> Libc.NUL ∉ d ->
  let b := (lp ++ list_ascii_of_string "###" ++ ls ++ [Libc.NUL])%list in
  let b1 := Libc.memcpy b (length lp) (take 3 d ++ [Libc.NUL]) (length d) in
  Libc.cstr (Libc.memmove b1 (length lp + length d) (length lp + 3) (S (length ls)))
  = string_of_list_ascii (lp ++ d ++ ls).
Proof.
  intros Hlen Hp Hs Hd b b1. subst b b1. unfold Libc.memcpy, Libc.memmove.
  assert (take (length d) (take 3 d ++ [Libc.NUL]) = d) as ->.
  { rewrite take_app_le by (rewrite length_take; lia).
    rewrite take_take. apply take_ge. lia. }
  rewrite poke_app.
  assert (exists junk,
    drop (length d) (list_ascii_of_string "###" ++ ls ++ [Libc.NUL]) =
    (junk ++ ls ++ [Libc.NUL])%list /\ (length d + length junk = 3)%nat)
    as (junk & -> & Hj).
  { destruct d as [|a [|b [|c [|]]]]; simpl in Hlen; try lia; simpl.
    - by exists ["#"; "#"]%char.
    - by exists ["#"]%char.
    - by exists []. }
  rewrite (app_assoc lp d), (app_assoc (lp ++ d) junk).
  rewrite drop_app_length' by (rewrite !length_app; lia).
  rewrite take_ge by (rewrite length_app; simpl; lia).
  rewrite <- (app_assoc (lp ++ d) junk).
  replace (length lp + length d)%nat with (length (lp ++ d)) by apply length_app.
  rewrite poke_app.
  set (rest := drop _ _).
  replace ((lp ++ d) ++ (ls ++ [Libc.NUL]) ++ rest)%list
    with ((lp ++ d ++ ls) ++ Libc.NUL :: rest)%list
    by (by rewrite <- !app_assoc).
  apply cstr_app_nul. rewrite !not_elem_of_app. by repeat split.
Qed.

Lemma rewrite_arg_spec (pre suf : string) (x : Z) :
  0 <= x < 1000 -> nul_free pre -> nul_free suf ->
  rewrite_arg (pre +:+ "###" +:+ suf) (String.length pre) x =
  pre +:+ string_of_list_ascii (Libc.utoa x) +:+ suf.
Proof.
  intros Hx Hpre Hsuf. unfold rewrite_arg, Libc.snprintf_u.
  destruct (utoa_short x Hx) as [Hlen Hnul].
  cbn [fst snd]. rewrite Nat2Z.id.
  unfold Libc.cbuf. rewrite <- !length_list_ascii, !list_ascii_app.
  rewrite <- !app_assoc.
  replace (S (length (list_ascii_of_string pre ++ list_ascii_of_string "###" ++
                      list_ascii_of_string suf) - length (list_ascii_of_string pre)) - 3)%nat
    with (S (length (list_ascii_of_string suf))) by (rewrite !length_app; simpl; lia).
  change (Init.Nat.pred 4) with 3%nat.
  rewrite rewrite_buf by done.
  by rewrite !string_of_list_app, !string_of_list_ascii_of_string.
Qed.

Lemma to_uint_small (x : Z) : 0 <= x < 2 ^ 32 -> C.to_uint x = x.
Proof. intros H. unfold C.to_uint. by apply Z.mod_small. Qed.

Lemma to_int_small (x : Z) : - 2 ^ 31 <= x < 2 ^ 31 -> C.to_int x = x.
Proof. intros H. unfold C.to_int. rewrite Z.mod_small; lia. Qed.

Lemma length_append (a b : string) :
  String.length (a +:+ b) = (String.length a + String.length b)%nat.
Proof. by rewrite <- !length_list_ascii, list_ascii_app, length_app. Qed.

Lemma rewrite_val (argv : list string) (i : nat) (pre suf : string) (tokens : Z) k p :
  argv !! i = Some (pre +:+ "###" +:+ suf) -> 0 <= tokens < 999 ->
  rewrite argv (i, String.length pre) tokens k p =
  Val (<[i := rewrite_arg (pre +:+ "###" +:+ suf) (String.length pre) (tokens + 1)]> argv)
      k p.
Proof.
  intros Hi Ht. unfold rewrite. cbn [fst snd]. rewrite Hi. cbn [from_option id].
  rewrite to_uint_small by lia.
  assert ((tokens <? 999) = true) as -> by lia.
  unfold Libc.starts_with. rewrite str_drop_app, prefix_app.
  destruct (utoa_short (tokens + 1) ltac:(lia)) as [Hlen _].
  unfold Libc.snprintf_u. cbn [snd].
  assert ((Z.of_nat (length (Libc.utoa (tokens + 1))) <=? 3) = true) as -> by lia.
  rewrite !length_append.
  assert ((4 <=? Z.of_nat (S (String.length pre +
            (String.length "###" + String.length suf) - String.length pre))) = true)
    as ->.
  { replace (String.length "###") with 3%nat by reflexivity. apply Z.leb_le. lia. }
  reflexivity.
Qed.

Lemma check_args_val (argv : list string) (i o : nat) k p :
  find_hashes (drop 2 argv) = Some (i, o) ->
  check_args argv k p = Val (2 + i, o)%nat k p.
Proof.
  intros H. unfold check_args.
  assert (3 <= length argv)%nat as Hlen.
  { destruct argv as [|? [|? [|? ?]]]; simpl in *; try discriminate; lia. }
  rewrite bind_eq.
  assert ((Z.of_nat (length argv) <? 2) = false) as -> by lia.
  assert ((Z.of_nat (length argv) <? 3) = false) as -> by lia.
  by rewrite H.
Qed.

Lemma marker_rewritten
  (argv : list string) (i o : nat) (tokens : Z) (k : kernel) (p : proc) :
  find_hashes (drop 2 argv) = Some (i, o) ->
  0 <= tokens < 999 ->
  Forall nul_free argv ->
  exists arg pre suf,
    let dec := string_of_list_ascii (Libc.utoa (tokens + 1)) in
    argv !! (2 + i)%nat = Some arg /\
    arg = pre +:+ "###" +:+ suf /\ String.length pre = o /\
    (forall j b pre' suf', (2 <= j < 2 + i)%nat -> argv !! j = Some b ->
                           b <> pre' +:+ "###" +:+ suf') /\
    (forall pre' suf', arg = pre' +:+ "###" +:+ suf' ->
                       (String.length pre <= String.length pre')%nat) /\
    check_args argv k p = Val (2 + i, o)%nat k p /\
    rewrite argv (2 + i, o)%nat tokens k p =
      Val (<[(2 + i)%nat := pre +:+ dec +:+ suf]> argv) k p /\
    Z.of_nat (String.length (pre +:+ dec +:+ suf)) =
      Z.of_nat (String.length arg) + (Z.of_nat (String.length dec) - 3).
Proof.
  intros Hf Ht Hnul.
  destruct (find_hashes_Some _ _ _ Hf) as (arg & Harg & Ho & Hfirst).
  rewrite lookup_drop in Harg.
  destruct (strstr_Some _ _ _ Ho) as (pre & suf & -> & <-).
  pose proof (proj1 (Forall_lookup _ _) Hnul _ _ Harg) as Hn.
  unfold nul_free in Hn. rewrite !list_ascii_app, !not_elem_of_app in Hn.
  destruct Hn as (Hpre & _ & Hsuf).
  exists (pre +:+ "###" +:+ suf), pre, suf. cbn zeta.
  split; [done|]. split; [done|]. split; [done|]. split; [|split; [|split; [|split]]].
  - intros j b pre' suf' Hj Hb. apply (strstr_None b "###").
    apply (Hfirst (j - 2)%nat); [lia|]. rewrite lookup_drop.
    replace (2 + (j - 2))%nat with j by lia. done.
  - intros pre' suf' E. apply Nat.nlt_ge. intros Hlt.
    pose proof (strstr_first _ _ _ Ho _ Hlt) as Hp.
    rewrite E, str_drop_app, prefix_app in Hp. discriminate.
  - by apply check_args_val.
  - rewrite (rewrite_val argv _ pre suf) by done.
    by rewrite rewrite_arg_spec by (done || lia).
  - rewrite !length_append. replace (String.length "###") with 3%nat by reflexivity.
    lia.
Qed.

(** C6. [find_hashes] returns the first argument after the command name
    that contains [###] and the offset of its first [###]; [main] writes
    the decimal text of the token count plus one over that marker and
    moves the rest of the argument next to it, so that the argument
    becomes what was before the marker, the number, and what was after
    it, byte for byte, further [#] included; its length changes by the
    length of the number minus 3. *)
Theorem C6_placeholder_rewritten_in_place
  (argv : list string) (i o : nat) (tokens : Z) (k : kernel) (p : proc) :
  find_hashes (drop 2 argv) = Some (i, o) ->
  0 <= tokens < 999 ->
  Forall nul_free argv ->
  exists arg pre suf,
    let dec := string_of_list_ascii (Libc.utoa (tokens + 1)) in
    argv !! (2 + i)%nat = Some arg /\
    arg = pre +:+ "###" +:+ suf /\ String.length pre = o /\
    (forall j b pre' suf', (2 <= j < 2 + i)%nat -> argv !! j = Some b ->
                           b <> pre' +:+ "###" +:+ suf') /\
    (forall pre' suf', arg = pre' +:+ "###" +:+ suf' ->
                       (String.length pre <= String.length pre')%nat) /\
    check_args argv k p = Val (2 + i, o)%nat k p /\
    rewrite argv (2 + i, o)%nat tokens k p =
      Val (<[(2 + i)%nat := pre +:+ dec +:+ suf]> argv) k p /\
    Z.of_nat (String.length (pre +:+ dec +:+ suf)) =
      Z.of_nat (String.length arg) + (Z.of_nat (String.length dec) - 3).
Proof. apply marker_rewritten. Qed.

(** ** No assertion fails *)

Section Safe.
Context {A B : Type}.

Lemma safe_bind (Q1 : A -> Prop) (Q2 : B -> Prop) (m : M A) (f : A -> M B) k p :
  safe Q1 (m k p) ->
  (forall a k' p', Q1 a -> safe Q2 (f a k' p')) ->
  safe Q2 ((m ≫= f) k p).
Proof. rewrite bind_eq. destruct (m k p); simpl; auto. Qed.

Lemma safe_weaken (Q1 Q2 : A -> Prop) (r : res A) :
  safe Q1 r -> (forall a, Q1 a -> Q2 a) -> safe Q2 r.
Proof. destruct r; simpl; auto. Qed.
End Safe.

Lemma safe_deliver ev r k p :
  safe (fun v => match r with Ret x => v = x | _ => v = -1 end) (deliver ev r k p).
Proof. destruct r; simpl; done. Qed.

Lemma safe_true_deliver ev r k p : safe (fun _ => True) (deliver ev r k p).
Proof. destruct r; simpl; done. Qed.

Lemma js_read_bound nb count j n j' :
  0 <= count -> js_read nb count j = (Ret n, j') -> 0 <= n <= count.
Proof.
  intros Hc. unfold js_read.
  destruct (js_noise j) as [|[d|e|] rest]; try (intros [= <- _]; lia).
  all: destruct (0 <? _) eqn:E; [|destruct nb]; intros [= <- _]; lia.
Qed.

Lemma aux_wait_bound script writers buf count n a :
  0 <= count -> aux_wait script writers buf count = (Ret n, a) -> 0 <= n <= count.
Proof.
  intros Hc. revert writers buf.
  induction script as [|ev s IH]; intros writers buf; simpl.
  - destruct (0 <? buf) eqn:E; [intros [= <- _]; lia|].
    destruct writers; [intros [= <- _]; lia | discriminate].
  - destruct (0 <? buf) eqn:E; [intros [= <- _]; lia|].
    destruct writers; [intros [= <- _]; lia|].
    destruct ev; [discriminate | apply IH..].
Qed.

Lemma sys_read_val fd count k p r k' p' :
  0 <= count -> sys_read fd count k p = Val r k' p' -> -1 <= r <= count.
Proof.
  intros Hc. unfold sys_read.
  destruct (fds p !! fd) as [f|]; [|simpl; intros [= <- _ _]; lia].
  destruct (f_kind f); try (simpl; intros [= <- _ _]; lia).
  - destruct (js_read _ _ _) as [[n|e|] j] eqn:E; simpl; intros [= <- _ _]; try lia.
    apply js_read_bound in E; lia.
  - unfold aux_read.
    destruct (aux_wait _ _ _ _) as [[n|e|] a] eqn:E; simpl; intros [= <- _ _]; try lia.
    apply aux_wait_bound in E; lia.
Qed.

Lemma deliver_halt ev r k p h k' p' :
  deliver ev r k p = Halt h k' p' -> h = Blocked.
Proof. destruct r; simpl; congruence. Qed.

Lemma sys_read_halt fd count k p h k' p' :
  sys_read fd count k p = Halt h k' p' -> h = Blocked.
Proof.
  unfold sys_read. repeat case_match; apply deliver_halt.
Qed.

Lemma drain_eq fuel fd tokens :
  drain fuel fd tokens =
  if tokens <? 500
  then match fuel with
       | O => stop Diverged
       | S fuel' =>
           r ← sys_read fd 8;
           if r <=? 0 then mret tokens
           else drain fuel' fd (C.to_uint (tokens + r))
       end
  else mret tokens.
Proof. by destruct fuel. Qed.

Lemma drain_bounded fuel fd tokens k p :
  0 <= tokens <= 507 -> 500 - tokens <= Z.of_nat fuel ->
  match drain fuel fd tokens k p with
  | Val t _ _ => tokens <= t <= 507
  | Halt h _ _ => h = Blocked
  end.
Proof.
  revert tokens k p. induction fuel as [|fuel IH]; intros tokens k p Ht Hf.
  all: rewrite drain_eq; destruct (tokens <? 500) eqn:E; [|simpl; lia].
  - lia.
  - rewrite bind_eq. destruct (sys_read fd 8 k p) as [r k' p'|h k' p'] eqn:Er.
    + apply sys_read_val in Er; [|lia].
      destruct (r <=? 0) eqn:E0; [simpl; lia|].
      rewrite to_uint_small by lia.
      specialize (IH (tokens + r) k' p' ltac:(lia) ltac:(lia)).
      destruct (drain fuel fd (tokens + r) k' p'); [lia|done].
    + by apply sys_read_halt in Er.
Qed.

Lemma safe_any_bind {A B} (Q : B -> Prop) (m : M A) (f : A -> M B) k p :
  safe any (m k p) -> (forall a k' p', safe Q (f a k' p')) -> safe Q ((m ≫= f) k p).
Proof. intros H1 H2. eapply safe_bind; [exact H1|]. intros; apply H2. Qed.

Lemma safe_any {A} (Q : A -> Prop) (r : res A) : safe Q r -> safe any r.
Proof. intros H. eapply safe_weaken; [exact H|done]. Qed.

Lemma safe_sys_exit {A} (Q : A -> Prop) status k p : safe Q (sys_exit status k p).
Proof. done. Qed.

Lemma safe_error status errnum msg k p : safe any (error status errnum msg k p).
Proof. unfold error. by destruct (status =? 0). Qed.

Lemma safe_sys_fcntl fd k p : safe any (sys_fcntl_getfl fd k p).
Proof. unfold sys_fcntl_getfl. case_match; apply safe_true_deliver. Qed.

Lemma safe_sys_open n flags k p : safe any (sys_open_proc_self_fd n flags k p).
Proof. unfold sys_open_proc_self_fd. repeat case_match; apply safe_true_deliver. Qed.

Lemma safe_sys_read fd count k p : safe any (sys_read fd count k p).
Proof. unfold sys_read. repeat case_match; apply safe_true_deliver. Qed.

Lemma safe_sys_write fd count k p : safe any (sys_write fd count k p).
Proof. unfold sys_write. repeat case_match; apply safe_true_deliver. Qed.

Lemma safe_sys_close fd k p : safe any (sys_close fd k p).
Proof. unfold sys_close. repeat case_match; apply safe_true_deliver. Qed.

Lemma safe_sys_pipe k p : safe any (sys_pipe k p).
Proof. unfold sys_pipe. by case_match. Qed.

Lemma safe_sys_fork t pf k p : safe any (sys_fork t pf k p).
Proof. unfold sys_fork. case_match; apply safe_true_deliver. Qed.

Lemma safe_sys_execvp path argv k p : safe any (sys_execvp path argv k p).
Proof. unfold sys_execvp. case_match; [apply safe_true_deliver|done]. Qed.

Lemma safe_put_tokens_loop fuel tokens k p : safe any (put_tokens_loop fuel tokens k p).
Proof.
  revert tokens k p. induction fuel as [|fuel IH]; intros tokens k p; simpl.
  - by destruct (tokens =? 0).
  - destruct (tokens =? 0); [done|].
    apply safe_any_bind; [done|]. intros pr k1 p1.
    apply safe_any_bind; [apply safe_sys_write|]. intros r k2 p2.
    destruct (r <? 0); [|apply IH].
    apply safe_any_bind; [done|]. intros pr' k3 p3.
    destruct (_ || _); [apply IH|done].
Qed.

Lemma safe_put_tokens tokens k p : safe any (put_tokens tokens k p).
Proof. apply safe_put_tokens_loop. Qed.

Lemma safe_wait_loop fuel fd k p : safe any (wait_loop fuel fd k p).
Proof.
  revert k p. induction fuel as [|fuel IH]; intros k p; simpl; [done|].
  apply safe_any_bind; [apply safe_sys_read|]. intros r k1 p1.
  destruct (r <? 0); [apply IH|done].
Qed.

Lemma safe_after_fork tokens pf child k p :
  safe (fun r => r = 0 \/ r = C.to_int tokens) (after_fork tokens pf child k p).
Proof.
  unfold after_fork. destruct (child <? 0); [|destruct (child =? 0)].
  - apply safe_any_bind; [apply safe_sys_close|]. intros ? ? ?.
    apply safe_any_bind; [apply safe_sys_close|]. intros ? ? ?.
    apply safe_any_bind; [apply safe_put_tokens|]. intros ? ? ?. simpl; auto.
  - apply safe_any_bind; [apply safe_sys_close|]. intros ? ? ?.
    apply safe_any_bind; [apply safe_wait_loop|]. intros ? ? ?.
    apply safe_any_bind; [apply safe_put_tokens|]. intros ? ? ?. done.
  - apply safe_any_bind; [apply safe_sys_close|]. intros ? ? ?. simpl; auto.
Qed.

Lemma safe_create_child tokens k p :
  safe (fun r => r = 0 \/ r = C.to_int tokens) (create_child tokens k p).
Proof.
  unfold create_child.
  apply safe_any_bind; [apply safe_sys_pipe|]. intros [r pf] k1 p1.
  destruct (r <? 0).
  - apply safe_any_bind; [apply safe_put_tokens|]. intros ? ? ?. simpl; auto.
  - apply safe_any_bind; [apply safe_sys_fork|]. intros ? ? ?.
    apply safe_after_fork.
Qed.

Lemma safe_get_tokens_from fd k p :
  safe (fun t => 0 <= t <= 507) (get_tokens_from fd k p).
Proof.
  unfold get_tokens_from.
  apply (safe_bind (fun t => 0 <= t <= 507)).
  { pose proof (drain_bounded 500 fd 0 k p ltac:(lia) ltac:(lia)) as H.
    destruct (drain 500 fd 0 k p); simpl; [lia|]. by intros w ->. }
  intros t k1 p1 Ht.
  apply safe_any_bind; [done|]. intros pr k2 p2.
  apply safe_any_bind.
  { destruct (fd =? rfd pr); [done|apply safe_sys_close]. }
  intros ? k3 p3. destruct (t =? 0) eqn:E; [simpl; lia|].
  eapply safe_bind; [apply safe_create_child|].
  intros r k4 p4 [->| ->]; simpl; [by rewrite to_uint_small by lia|].
  rewrite to_int_small, to_uint_small; lia.
Qed.

Lemma strstr_prefix (h n : string) (o : nat) :
  Libc.strstr h n = Some o -> exists suf, Libc.str_drop o h = n +:+ suf.
Proof.
  intros H. destruct (strstr_Some _ _ _ H) as (pre & suf & -> & <-).
  exists suf. apply str_drop_app.
Qed.

Lemma option_has_equals (env : string) (o : nat) :
  first_jobserver_option env = Some o ->
  exists o', Libc.strchr (Libc.str_drop o env) "="%char = Some o'.
Proof.
  unfold first_jobserver_option.
  destruct (Libc.strstr env "--jobserver-auth=") as [o1|] eqn:E1.
  - intros [= <-]. apply strstr_prefix in E1 as [suf ->]. by eexists.
  - intros E2. apply strstr_prefix in E2 as [suf ->]. by eexists.
Qed.

Lemma safe_parse_env k p : safe any (parse_env k p).
Proof.
  unfold parse_env. apply safe_any_bind; [done|]. intros [env|] k1 p1; [|done].
  destruct (first_jobserver_option env) as [o|] eqn:E; [|done].
  destruct (option_has_equals _ _ E) as [o' ->].
  destruct (Libc.sscanf_eq_d_comma_d _) as [[n a] b].
  apply safe_any_bind; [done|]. intros ? ? ?. by destruct (n =? 2).
Qed.

Lemma safe_get_tokens k p : safe (fun t => 0 <= t <= 507) (get_tokens k p).
Proof.
  unfold get_tokens. apply safe_any_bind; [apply safe_parse_env|]. intros r k1 p1.
  destruct (r <? 0); [simpl; lia|].
  apply safe_any_bind; [done|]. intros pr k2 p2.
  apply safe_any_bind; [apply safe_sys_fcntl|]. intros flags k3 p3.
  destruct (flags <? 0); [simpl; lia|].
  destruct (Z.land flags C.O_NONBLOCK =? 0); [|apply safe_get_tokens_from].
  apply safe_any_bind; [apply safe_sys_open|]. intros fd k4 p4.
  destruct (fd <? 0); [simpl; lia|apply safe_get_tokens_from].
Qed.

Lemma safe_launch argv k p : safe any (launch argv k p).
Proof.
  unfold launch. apply safe_any_bind; [done|]. intros ? ? ?.
  apply safe_any_bind; [done|]. intros pr ? ?.
  apply safe_any_bind.
  { destruct (0 <=? rfd pr); [apply safe_sys_close|done]. }
  intros ? ? ?. apply safe_any_bind; [done|]. intros pr' ? ?.
  apply safe_any_bind.
  { destruct (0 <=? wfd pr'); [apply safe_sys_close|done]. }
  intros ? ? ?. apply safe_any_bind; [apply safe_sys_execvp|]. intros ? ? ?.
  apply safe_any_bind; [done|]. intros ? ? ?.
  apply safe_any_bind; [apply safe_error|]. done.
Qed.

Lemma safe_error_fatal status errnum msg k p :
  status <> 0 -> safe (fun _ => False) (error status errnum msg k p).
Proof. intros H. unfold error. by destruct (Z.eqb_spec status 0). Qed.

Lemma safe_check_args argv k p :
  safe (fun h => exists i o, h = (2 + i, o)%nat /\
                             find_hashes (drop 2 argv) = Some (i, o))
       (check_args argv k p).
Proof.
  unfold check_args. apply safe_any_bind.
  { destruct (_ <? 2); [apply safe_error|done]. }
  intros ? k1 p1.
  destruct (if _ <? 3 then None else find_hashes (drop 2 argv)) as [[i o]|] eqn:E.
  - destruct (_ <? 3); [discriminate|]. simpl. by exists i, o.
  - eapply safe_bind; [by apply safe_error_fatal|]. done.
Qed.

Lemma safe_rewrite argv i o tokens k p :
  find_hashes (drop 2 argv) = Some (i, o) -> 0 <= tokens <= 507 ->
  safe any (rewrite argv (2 + i, o)%nat tokens k p).
Proof.
  intros Hf Ht.
  destruct (find_hashes_Some _ _ _ Hf) as (arg & Harg & Ho & _).
  rewrite lookup_drop in Harg.
  destruct (strstr_Some _ _ _ Ho) as (pre & suf & -> & <-).
  by rewrite (rewrite_val argv _ pre suf) by (done || lia).
Qed.

Lemma safe_main argv k p : safe any (main argv k p).
Proof.
  unfold main. eapply safe_bind; [apply safe_check_args|].
  intros h k1 p1 (i & o & -> & Hf).
  eapply safe_bind; [apply safe_get_tokens|]. intros t k2 p2 Ht.
  apply safe_any_bind; [by apply safe_rewrite|]. intros argv' k3 p3.
  apply safe_launch.
Qed.

(** C10. Whatever the kernel and the other clients of the jobserver do
    (a [read] of 8 bytes returns at most 8), the loop of [get_tokens]
    ends with at most 507 tokens (it runs while the count is below 500
    and one read adds at most 8); so does
    [get_tokens]; the decimal text of the count plus one has at most
    three characters and fits [buf], terminator included; and no
    [assert] of the program fails. *)
Theorem C10_token_count_fits_the_marker (argv : list string) (k : kernel) (p : proc) :
  (forall fd, match drain 500 fd 0 k p with
              | Val t _ _ => 0 <= t <= 507
              | Halt h _ _ => h = Blocked
              end) /\
  match get_tokens k p with
  | Val t _ _ =>
      0 <= t <= 507 /\
      snd (Libc.snprintf_u 4 (C.to_uint (t + 1))) <= 3 /\
      (length (fst (Libc.snprintf_u 4 (C.to_uint (t + 1)))) <= 4)%nat
  | Halt h _ _ => forall w, h <> Aborted w
  end /\
  (forall w k' p', main argv k p <> Halt (Aborted w) k' p').
Proof.
  split; [|split].
  - intros fd. apply drain_bounded; lia.
  - pose proof (safe_get_tokens k p) as H.
    destruct (get_tokens k p) as [t k' p'|]; [|exact H]. simpl in H.
    split; [done|]. rewrite to_uint_small by lia.
    destruct (utoa_short (t + 1) ltac:(lia)) as [Hlen _].
    unfold Libc.snprintf_u. cbv zeta. cbn [fst snd]. split; [lia|].
    rewrite length_app, length_take. change (length [Libc.NUL]) with 1%nat. lia.
  - intros w k' p' E. pose proof (safe_main argv k p) as H.
    rewrite E in H. by apply (H w).
Qed.

(** ** What a call leaves alone *)

Lemma proc_frame_refl p : proc_frame p p.
Proof. done. Qed.

Lemma proc_frame_trans p1 p2 p3 :
  proc_frame p1 p2 -> proc_frame p2 p3 -> proc_frame p1 p3.
Proof. unfold proc_frame. intros (?&?&?&?&?) (?&?&?&?&?). repeat split; congruence. Qed.

Lemma proc_frame_errno e p : proc_frame p (set_errno e p).
Proof. done. Qed.

Lemma kernel_frame_trans k1 k2 k3 tr1 tr2 :
  kernel_frame k1 k2 tr1 -> kernel_frame k2 k3 tr2 ->
  kernel_frame k1 k3 (tr1 ++ tr2).
Proof.
  unfold kernel_frame. intros (?&?&?&E1) (?&?&?&E2).
  repeat split; try congruence. by rewrite E2, E1, app_assoc.
Qed.

Lemma sys_read_quiet fd f k p :
  fds p !! fd = Some f -> f_kind f = KJobR -> nonblocking f = true ->
  js_noise (js k) = [] -> 0 <= js_avail (js k) ->
  let a := js_avail (js k) in
  sys_read fd 8 k p =
  if 0 <? a
  then Val (Z.min a 8)
           (add_event (pid p, EvRead fd 8 (Ret (Z.min a 8)))
              (set_js (JsPipe (a - Z.min a 8) [] (js_room (js k))) k)) p
  else Val (-1)
           (add_event (pid p, EvRead fd 8 (Err C.EAGAIN))
              (set_js (JsPipe 0 [] (js_room (js k))) k)) (set_errno C.EAGAIN p).
Proof.
  intros Hfd Hk Hnb Hn Ha a. unfold sys_read, js_read. rewrite Hfd, Hk, Hnb, Hn.
  replace (Z.max 0 (js_avail (js k) + 0)) with a by (subst a; lia).
  by destruct (0 <? a).
Qed.

Lemma drain_quiet fuel fd f tokens k p :
  fds p !! fd = Some f -> f_kind f = KJobR -> nonblocking f = true ->
  js_noise (js k) = [] -> 0 <= js_avail (js k) ->
  0 <= tokens <= 504 -> (tokens mod 8 = 0 \/ js_avail (js k) = 0) ->
  512 - tokens < 8 * Z.of_nat fuel ->
  let n := Z.min (js_avail (js k)) (504 - tokens) in
  exists k' p' tr,
    drain fuel fd tokens k p = Val (tokens + n) k' p' /\
    js k' = JsPipe (js_avail (js k) - n) [] (js_room (js k)) /\
    kernel_frame k k' tr /\ reads_of (pid p) fd 8 tr /\
    read_total (pid p) tr = n /\ proc_frame p p'.
Proof.
  revert tokens k p. induction fuel as [|fuel IH];
    intros tokens k p Hfd Hk Hnb Hn Ha Ht Hm Hf n; [lia|].
  rewrite drain_eq. destruct (tokens <? 500) eqn:E.
  - rewrite bind_eq, (sys_read_quiet fd f) by done. cbv zeta.
    destruct (0 <? js_avail (js k)) eqn:E0.
    + assert ((Z.min (js_avail (js k)) 8 <=? 0) = false) as -> by lia.
      rewrite to_uint_small by lia.
      set (r := Z.min (js_avail (js k)) 8).
      set (k1 := add_event _ _).
      assert (js_noise (js k1) = []) as H1 by done.
      assert (0 <= js_avail (js k1)) as H2 by (subst k1 r; simpl; lia).
      assert (0 <= tokens + r <= 504) as H3
        by (subst r; Z.div_mod_to_equations; lia).
      assert ((tokens + r) mod 8 = 0 \/ js_avail (js k1) = 0) as H4
        by (subst k1 r; simpl; Z.div_mod_to_equations; lia).
      assert (512 - (tokens + r) < 8 * Z.of_nat fuel) as H5
        by (subst r; Z.div_mod_to_equations; lia).
      destruct (IH (tokens + r) k1 p Hfd Hk Hnb H1 H2 H3 H4 H5)
        as (k' & p' & tr & Hd & Hjs & Hkf & Hr & Hsum & Hp).
      exists k', p', ((pid p, EvRead fd 8 (Ret r)) :: tr). rewrite Hd.
      split; [f_equal; subst n k1 r; simpl; Z.div_mod_to_equations; lia|].
      split; [rewrite Hjs; subst n k1 r; simpl; f_equal; Z.div_mod_to_equations; lia|].
      split; [|split; [|split; [|done]]].
      * destruct Hkf as (?&?&?&Etr). repeat split; try done.
        rewrite Etr. subst k1. simpl. by rewrite <- app_assoc.
      * constructor; [by eexists|done].
      * cbn [read_total]. rewrite bool_decide_eq_true_2, Hsum by done.
        subst n k1 r. simpl. Z.div_mod_to_equations. lia.
    + assert (js_avail (js k) = 0) as E1 by lia.
      assert (n = 0) as -> by (subst n; lia). rewrite E1, Z.add_0_r.
      eexists _, _, [_]. assert ((-1 <=? 0) = true) as -> by done.
      split; [reflexivity|]. split; [reflexivity|].
      split; [by repeat split|]. split; [|by repeat split].
      constructor; [by eexists|done].
  - assert (n = 0) as -> by (subst n; Z.div_mod_to_equations; lia).
    rewrite Z.add_0_r, Z.sub_0_r.
    exists k, p, []. split; [done|]. split; [|split; [|by split; [constructor|]]].
    + destruct k as [[a no ro] ? ? ? ?]; simpl in *. by subst.
    + repeat split. by rewrite app_nil_r.
Qed.

(** ** Writing tokens back *)

Lemma room_for_nonneg room : 0 <= room_for room.
Proof. induction room as [|[n|e] rest IH]; simpl; lia. Qed.

Lemma written_app w fd tr1 tr2 :
  written w fd (tr1 ++ tr2) = written w fd tr1 + written w fd tr2.
Proof.
  induction tr1 as [|[w' ev] tr1 IH]; simpl; [done|].
  destruct ev; try done. destruct r; try done. lia.
Qed.

Lemma put_tokens_loop_eq fuel tokens :
  put_tokens_loop fuel tokens =
  if tokens =? 0 then mret tt
  else match fuel with
       | O => stop Diverged
       | S fuel' =>
           let w := C.to_int (if 8 <? tokens then 8 else tokens) in
           p ← get_proc;
           r ← sys_write (wfd p) w;
           if r <? 0
           then p ← get_proc;
                if (errno p =? C.EAGAIN) || (errno p =? C.EINTR)
                then put_tokens_loop fuel' tokens
                else mret tt
           else put_tokens_loop fuel' (C.to_uint (tokens - r))
       end.
Proof. by destruct fuel. Qed.

Lemma sys_write_job fd fw count k p :
  fds p !! fd = Some fw -> f_kind fw = KJobW ->
  sys_write fd count k p =
  deliver (EvWrite fd count) (fst (js_write count (js k)))
          (set_js (snd (js_write count (js k))) k) p.
Proof.
  intros Hfd Hk. unfold sys_write. rewrite Hfd, Hk. by destruct (js_write _ _).
Qed.

Lemma put_tokens_loop_spec room : forall fuel tokens k p fw,
  js_room (js k) = room -> Forall soft room ->
  0 <= tokens < 2 ^ 32 -> tokens <= room_for room ->
  (length room < fuel)%nat ->
  fds p !! wfd p = Some fw -> f_kind fw = KJobW ->
  exists k' p' tr,
    put_tokens_loop fuel tokens k p = Val tt k' p' /\
    kernel_frame k k' tr /\ proc_frame p p' /\
    writes_of (pid p) (wfd p) tr /\ written (pid p) (wfd p) tr = tokens /\
    js_avail (js k') = js_avail (js k) + tokens /\
    js_noise (js k') = js_noise (js k).
Proof.
  induction room as [|ev rest IH]; intros fuel tokens k p fw Hr Hs Ht Hc Hf Hfd Hk.
  all: rewrite put_tokens_loop_eq; destruct (Z.eqb_spec tokens 0) as [->|Hne].
  1, 3: exists k, p, []; repeat split; try done; try lia;
        [by rewrite app_nil_r | constructor].
  - simpl in Hc. lia.
  - destruct fuel as [|fuel]; [simpl in Hf; lia|]. cbv zeta.
    assert (C.to_int (if 8 <? tokens then 8 else tokens) = Z.min 8 tokens) as ->.
    { destruct (8 <? tokens) eqn:E; rewrite to_int_small; lia. }
    rewrite bind_eq. cbn [get_proc]. rewrite bind_eq.
    rewrite (sys_write_job _ fw) by done.
    unfold js_write. rewrite Hr.
    inversion Hs as [|? ? Hev Hrest]; subst.
    destruct ev as [n|e]; cbn [fst snd deliver].
    + set (m := Z.max 0 (Z.min n (Z.min 8 tokens))).
      assert ((m <? 0) = false) as -> by lia.
      rewrite to_uint_small by lia.
      set (k1 := add_event _ _).
      assert (tokens - m <= room_for rest) as H1.
      { pose proof (room_for_nonneg rest). subst m. cbn [room_for] in Hc. lia. }
      assert (length rest < fuel)%nat as H2 by (simpl in Hf; lia).
      destruct (IH fuel (tokens - m) k1 p fw eq_refl Hrest ltac:(lia) H1 H2 Hfd Hk)
        as (k' & p' & tr & E & Hkf & Hpf & Hw & Hsum & Hav & Hno).
      exists k', p', ((pid p, EvWrite (wfd p) (Z.min 8 tokens) (Ret m)) :: tr).
      rewrite E. split; [done|]. split; [|split; [done|split; [|split; [|split]]]].
      * destruct Hkf as (?&?&?&Etr). repeat split; try done.
        rewrite Etr. subst k1. simpl. by rewrite <- app_assoc.
      * constructor; [|done]. eexists _, _. split; [done|lia].
      * simpl. rewrite bool_decide_eq_true_2, Z.eqb_refl by done. simpl. lia.
      * rewrite Hav. subst k1. simpl. lia.
      * rewrite Hno. by subst k1.
    + assert ((-1 <? 0) = true) as -> by done.
      rewrite bind_eq. cbn [get_proc set_errno errno].
      assert ((e =? C.EAGAIN) || (e =? C.EINTR) = true) as ->.
      { destruct Hev as [-> | ->]; done. }
      set (k1 := add_event _ _). set (p1 := set_errno e p).
      assert (length rest < fuel)%nat as H2 by (simpl in Hf; lia).
      destruct (IH fuel tokens k1 p1 fw eq_refl Hrest Ht Hc H2 Hfd Hk)
        as (k' & p' & tr & E & Hkf & Hpf & Hw & Hsum & Hav & Hno).
      exists k', p', ((pid p, EvWrite (wfd p) (Z.min 8 tokens) (Err e)) :: tr).
      rewrite E. split; [done|]. split; [|split; [|split; [|split; [|split]]]].
      * destruct Hkf as (?&?&?&Etr). repeat split; try done.
        rewrite Etr. subst k1. simpl. by rewrite <- app_assoc.
      * eapply proc_frame_trans; [|exact Hpf]. apply proc_frame_errno.
      * constructor; [|done]. eexists _, _. split; [done|lia].
      * simpl. done.
      * rewrite Hav. by subst k1.
      * rewrite Hno. by subst k1.
Qed.

Lemma put_tokens_spec tokens k p fw :
  Forall soft (js_room (js k)) ->
  0 <= tokens < 2 ^ 32 -> tokens <= room_for (js_room (js k)) ->
  fds p !! wfd p = Some fw -> f_kind fw = KJobW ->
  exists k' p' tr,
    put_tokens tokens k p = Val tt k' p' /\
    kernel_frame k k' tr /\ proc_frame p p' /\
    writes_of (pid p) (wfd p) tr /\ written (pid p) (wfd p) tr = tokens /\
    js_avail (js k') = js_avail (js k) + tokens /\
    js_noise (js k') = js_noise (js k).
Proof.
  intros Hs Ht Hc Hfd Hk. unfold put_tokens.
  eapply put_tokens_loop_spec; eauto. lia.
Qed.

(** ** The watcher *)

Lemma sys_read_aux fd f count k p :
  fds p !! fd = Some f -> f_kind f = KAuxR ->
  sys_read fd count k p =
  deliver (EvRead fd count) (fst (aux_read count (aux k)))
          (set_aux (snd (aux_read count (aux k))) k) p.
Proof.
  intros Hfd Hk. unfold sys_read. rewrite Hfd, Hk. by destruct (aux_read _ _).
Qed.

Lemma wait_loop_eq fuel fd :
  wait_loop fuel fd =
  match fuel with
  | O => stop Diverged
  | S fuel' => r ← sys_read fd 1; if r <? 0 then wait_loop fuel' fd else mret tt
  end.
Proof. by destruct fuel. Qed.

Lemma aux_wait_cases script : forall writers buf,
  aux_wakes script writers buf = true ->
  (exists n a, aux_wait script writers buf 1 = (Ret n, a) /\ 0 <= n) \/
  (exists a, aux_wait script writers buf 1 = (Err C.EINTR, a) /\
             aux_wakes (aux_script a) (aux_writers a) (aux_buf a) = true /\
             (length (aux_script a) < length script)%nat).
Proof.
  induction script as [|ev s IH]; intros writers buf; simpl.
  - destruct (0 <? buf) eqn:Eb; [left; eexists _, _; split; [done|lia]|].
    destruct writers; [left; eexists _, _; split; [done|lia]|discriminate].
  - destruct (0 <? buf) eqn:Eb; [left; eexists _, _; split; [done|lia]|].
    destruct writers; [left; eexists _, _; split; [done|lia]|].
    destruct ev; intros Hw.
    + right. eexists. split; [done|]. simpl. split; [done|lia].
    + destruct (IH _ _ Hw) as [H|(a & E & Ha & Hl)]; [by left|].
      right. exists a. repeat split; try done. lia.
    + destruct (IH _ _ Hw) as [H|(a & E & Ha & Hl)]; [by left|].
      right. exists a. repeat split; try done. lia.
    + destruct (IH _ _ Hw) as [H|(a & E & Ha & Hl)]; [by left|].
      right. exists a. repeat split; try done. lia.
Qed.

Lemma wait_loop_spec fd f fuel : forall k p,
  aux_wakes (aux_script (aux k)) (aux_writers (aux k)) (aux_buf (aux k)) = true ->
  (length (aux_script (aux k)) < fuel)%nat ->
  fds p !! fd = Some f -> f_kind f = KAuxR ->
  exists k' p' tr,
    wait_loop fuel fd k p = Val tt k' p' /\
    js k' = js k /\ faults k' = faults k /\ spawned k' = spawned k /\
    trace k' = (trace k ++ tr)%list /\ reads_of (pid p) fd 1 tr /\
    proc_frame p p'.
Proof.
  induction fuel as [|fuel IH]; intros k p Hw Hf Hfd Hk; [lia|].
  rewrite wait_loop_eq, bind_eq, (sys_read_aux fd f) by done. unfold aux_read.
  destruct (aux_wait_cases _ _ _ Hw) as [(n & a & -> & Hn)|(a & -> & Ha & Hl)];
    cbn [fst snd deliver].
  - assert ((n <? 0) = false) as -> by lia.
    eexists _, _, [_]. repeat split. constructor; [by eexists|done].
  - assert ((-1 <? 0) = true) as -> by done.
    set (k1 := add_event _ _). set (p1 := set_errno _ _).
    destruct (IH k1 p1 Ha ltac:(subst k1; simpl; lia) Hfd Hk)
      as (k' & p' & tr & E & ? & ? & ? & Etr & Hr & Hp).
    exists k', p', ((pid p, EvRead fd 1 (Err C.EINTR)) :: tr). rewrite E.
    repeat split; try done; try apply Hp.
    + rewrite Etr. subst k1. simpl. by rewrite <- app_assoc.
    + constructor; [by eexists|done].
Qed.

(** ** Descriptors *)

Lemma above_all_gt (l : list Z) (x : Z) :
  x ∈ l -> x < foldr (fun n m => Z.max (Z.succ n) m) 0 l.
Proof.
  induction l as [|y l IH]; intros H; [by apply elem_of_nil in H|].
  apply elem_of_cons in H as [->|H]; simpl; [lia|]. specialize (IH H). lia.
Qed.

Lemma above_all_nonneg (l : list Z) : 0 <= foldr (fun n m => Z.max (Z.succ n) m) 0 l.
Proof. induction l as [|y l IH]; simpl; lia. Qed.

Lemma alloc_fd_fresh (t : gmap Z file) : t !! alloc_fd t = None.
Proof.
  unfold alloc_fd. destruct (List.find _ _) as [n|] eqn:E; simpl.
  - apply List.find_some in E as [_ E]. by apply bool_decide_eq_true in E.
  - apply not_elem_of_dom. intros H. apply elem_of_elements, above_all_gt in H.
    unfold above_all in H. lia.
Qed.

Lemma alloc_fd_nonneg (t : gmap Z file) : 0 <= alloc_fd t.
Proof.
  unfold alloc_fd. destruct (List.find _ _) as [n|] eqn:E; simpl.
  - apply List.find_some in E as [E _]. apply list_elem_of_In, elem_of_seqZ in E. lia.
  - apply above_all_nonneg.
Qed.

Lemma sys_close_open fd f k p :
  fds p !! fd = Some f ->
  sys_close fd k p =
  Val 0 (add_event (pid p, EvClose fd (Ret 0))
           (if is_auxw f then set_writers (Nat.pred (aux_writers (aux k))) k else k))
      (set_fds (delete fd (fds p)) p).
Proof. intros H. unfold sys_close. by rewrite H. Qed.

Lemma sys_pipe_ok k p :
  fail_pipe (faults k) = None ->
  let r0 := alloc_fd (fds p) in
  let t0 := <[r0 := File KAuxR C.O_RDONLY false]> (fds p) in
  let w0 := alloc_fd t0 in
  sys_pipe k p =
  Val (0, (r0, w0))
      (add_event (pid p, EvPipe (r0, w0) (Ret 0))
         (set_aux (AuxPipe 1 0 (aux_script (aux k))) k))
      (set_fds (<[w0 := File KAuxW C.O_WRONLY false]> t0) p).
Proof. intros H. unfold sys_pipe. by rewrite H. Qed.

Lemma pipe_fds_distinct (t : gmap Z file) :
  let r0 := alloc_fd t in
  let w0 := alloc_fd (<[r0 := File KAuxR C.O_RDONLY false]> t) in
  t !! r0 = None /\ t !! w0 = None /\ r0 <> w0.
Proof.
  intros r0 w0. pose proof (alloc_fd_fresh t) as Hr.
  pose proof (alloc_fd_fresh (<[r0 := File KAuxR C.O_RDONLY false]> t)) as Hw.
  fold w0 in Hw. fold r0 in Hr. rewrite lookup_insert in Hw.
  destruct (decide (r0 = w0)); [discriminate|]. done.
Qed.

Lemma create_child_parent tokens k p :
  fail_pipe (faults k) = None -> fail_fork (faults k) = None ->
  let r0 := alloc_fd (fds p) in
  let t0 := <[r0 := File KAuxR C.O_RDONLY false]> (fds p) in
  let w0 := alloc_fd t0 in
  let t1 := <[w0 := File KAuxW C.O_WRONLY false]> t0 in
  let c := Child (set_pid Watcher (set_fds t1 p)) tokens (r0, w0) in
  exists k',
    create_child tokens k p =
      Val (C.to_int tokens) k' (set_fds (<[w0 := File KAuxW C.O_WRONLY false]> (fds p)) p) /\
    js k' = js k /\ faults k' = faults k /\ spawned k' = Some c /\
    aux k' = AuxPipe (1 + count_auxw t1) 0 (aux_script (aux k)) /\
    trace k' = (trace k ++ parent_trace (pid p) (r0, w0)
                              (Z.max 1 (child_pid (faults k))))%list.
Proof.
  intros Hp Hf r0 t0 w0 t1 c. destruct (pipe_fds_distinct (fds p)) as (Hr & Hw & Hne).
  fold r0 t0 w0 in Hr, Hw, Hne.
  unfold create_child. rewrite bind_eq, sys_pipe_ok by done. fold r0 t0 w0 t1.
  cbn [Z.ltb Z.compare]. rewrite bind_eq. unfold sys_fork.
  cbn [faults add_event set_aux]. rewrite Hf. cbn [deliver].
  unfold after_fork.
  assert ((Z.max 1 (child_pid (faults k)) <? 0) = false) as -> by lia.
  assert ((Z.max 1 (child_pid (faults k)) =? 0) = false) as -> by lia.
  rewrite bind_eq. cbn [fst snd].
  erewrite sys_close_open.
  2:{ cbn [fds set_fds]. subst t1. rewrite lookup_insert_ne by done.
      subst t0. apply lookup_insert_eq. }
  cbn [is_auxw f_kind]. eexists. split.
  - cbn [mret M_ret]. f_equal. unfold set_fds. cbn [pid environ fds errno rfd wfd].
    f_equal. subst t1 t0. rewrite delete_insert_ne by done.
    by rewrite delete_insert_eq, delete_id.
  - destruct k as [j a fl sp tr]; cbn. repeat split; try done.
    by rewrite <- !app_assoc.
Qed.

Lemma written_reads w fd w' fd' c tr : reads_of w' fd' c tr -> written w fd tr = 0.
Proof.
  induction 1 as [|e tr [r ->] _ IH]; simpl; [done|]. exact IH.
Qed.

Lemma written_watcher_trace w fd pf reads writes :
  reads_of w (fst pf) 1 reads ->
  written w fd (watcher_trace w pf reads writes) = written w fd writes.
Proof.
  intros Hr. unfold watcher_trace. rewrite !written_app.
  rewrite (written_reads _ _ _ _ _ _ Hr). simpl. lia.
Qed.

Lemma watcher_spec tokens r w k p fw fr fa :
  fds p !! wfd p = Some fw -> f_kind fw = KJobW ->
  fds p !! r = Some fr -> f_kind fr = KAuxR ->
  fds p !! w = Some fa -> f_kind fa = KAuxW ->
  aux_wakes (aux_script (aux k)) (Nat.pred (aux_writers (aux k))) (aux_buf (aux k))
    = true ->
  Forall soft (js_room (js k)) ->
  0 <= tokens < 2 ^ 32 -> tokens <= room_for (js_room (js k)) ->
  exists k' p' reads writes,
    after_fork tokens (r, w) 0 k p = Halt (Exited C.EX_OK) k' p' /\
    trace k' = (trace k ++ watcher_trace (pid p) (r, w) reads writes)%list /\
    reads_of (pid p) r 1 reads /\
    writes_of (pid p) (wfd p) writes /\
    written (pid p) (wfd p) writes = tokens /\
    js_avail (js k') = js_avail (js k) + tokens.
Proof.
  intros Hfw Hkw Hfr Hkr Hfa Hka Hwake Hsoft Ht Hroom.
  assert (w <> wfd p) as Hne1 by (intros ->; congruence).
  assert (w <> r) as Hne2 by (intros ->; congruence).
  unfold after_fork. cbn [Z.ltb Z.eqb Z.compare fst snd].
  rewrite bind_eq, (sys_close_open w fa) by done.
  unfold is_auxw. rewrite Hka.
  set (k1 := add_event _ _). set (p1 := set_fds _ p).
  rewrite bind_eq.
  destruct (wait_loop_spec r fr
              (S (length (aux_script (aux k1)) + length (js_noise (js k1)))) k1 p1)
    as (k2 & p2 & reads & -> & Hjs2 & Hfl2 & Hsp2 & Htr2 & Hreads & Hpf2);
    [done | lia | by (subst p1; cbn; rewrite lookup_delete_ne) | done |].
  rewrite bind_eq.
  destruct Hpf2 as (Hpid2 & Henv2 & Hfds2 & Hrfd2 & Hwfd2).
  destruct (put_tokens_spec tokens k2 p2 fw)
    as (k3 & p3 & writes & -> & Hkf3 & Hpf3 & Hwrites & Hsum & Hav & _);
    [by rewrite Hjs2 | done | by rewrite Hjs2 | | done |].
  { rewrite Hfds2, Hwfd2. subst p1. cbn. by rewrite lookup_delete_ne. }
  destruct Hkf3 as (_ & _ & _ & Htr3). destruct Hpf3 as (Hpid3 & _).
  eexists _, _, reads, writes. split; [reflexivity|].
  rewrite Hpid2, Hwfd2 in Hwrites, Hsum. rewrite Hpid3, Hpid2.
  repeat split; try done.
  - cbn. rewrite Htr3, Htr2. subst k1. cbn. unfold watcher_trace. cbn.
    by rewrite <- !app_assoc.
  - cbn. rewrite Hav, Hjs2. by subst k1.
Qed.

(** C1. When [pipe] and [fork] succeed, [create_child] returns in the
    parent and leaves a child behind.  Whenever that child is run with
    an auxiliary pipe that lets its [read] return (the holders of the
    write end go away) and a jobserver pipe that takes the bytes without
    a hard error, it writes exactly [tokens] bytes to [wfd], in writes of
    at most 8 bytes, retrying after EAGAIN and EINTR, and exits. *)
Theorem C1_watcher_returns_every_token (tokens : Z) (k : kernel) (p : proc) (fw : file) :
  0 < tokens < 2 ^ 32 ->
  fail_pipe (faults k) = None -> fail_fork (faults k) = None ->
  fds p !! wfd p = Some fw -> f_kind fw = KJobW ->
  exists k1 p1 pf,
    create_child tokens k p = Val (C.to_int tokens) k1 p1 /\
    forall k2,
      spawned k2 = spawned k1 ->
      aux_wakes (aux_script (aux k2)) (Nat.pred (aux_writers (aux k2)))
                (aux_buf (aux k2)) = true ->
      Forall soft (js_room (js k2)) ->
      tokens <= room_for (js_room (js k2)) ->
      exists k3 p3 reads writes,
        run_child k2 = Some (Halt (Exited C.EX_OK) k3 p3) /\
        trace k3 = (trace k2 ++ watcher_trace Watcher pf reads writes)%list /\
        reads_of Watcher (fst pf) 1 reads /\
        writes_of Watcher (wfd p) writes /\
        written Watcher (wfd p) writes = tokens /\
        written Watcher (wfd p) (trace k3) = written Watcher (wfd p) (trace k2) + tokens /\
        js_avail (js k3) = js_avail (js k2) + tokens.
Proof.
  intros Ht Hp Hf Hfw Hkw.
  destruct (create_child_parent tokens k p Hp Hf) as (k1 & Hc & _ & _ & Hsp & _).
  destruct (pipe_fds_distinct (fds p)) as (Hr & Hw & Hne).
  set (r0 := alloc_fd (fds p)) in *.
  set (w0 := alloc_fd (<[r0 := File KAuxR C.O_RDONLY false]> (fds p))) in *.
  exists k1, (set_fds (<[w0 := File KAuxW C.O_WRONLY false]> (fds p)) p), (r0, w0).
  split; [exact Hc|]. intros k2 Hsp2 Hwake Hsoft Hroom.
  unfold run_child. rewrite Hsp2, Hsp. cbn [c_tokens c_pipefd c_proc].
  set (pc := set_pid Watcher _).
  destruct (watcher_spec tokens r0 w0 (set_spawned None k2) pc fw
              (File KAuxR C.O_RDONLY false) (File KAuxW C.O_WRONLY false))
    as (k3 & p3 & reads & writes & E & Htr & Hreads & Hwrites & Hsum & Hav);
    try done; try lia.
  - subst pc. cbn. rewrite !lookup_insert_ne by congruence. done.
  - subst pc. cbn. rewrite lookup_insert_ne by done. apply lookup_insert_eq.
  - subst pc. cbn. apply lookup_insert_eq.
  - exists k3, p3, reads, writes. split; [by rewrite E|].
    change (pid pc) with Watcher in *. change (wfd pc) with (wfd p) in *.
    change (trace (set_spawned None k2)) with (trace k2) in Htr.
    change (js (set_spawned None k2)) with (js k2) in Hav.
    repeat split; try done.
    rewrite Htr, written_app, written_watcher_trace by done. by rewrite Hsum.
Qed.

(** C9. When [pipe] or [fork] fails, [create_child] writes the tokens
    back itself, at once, in writes of at most 8 bytes, makes no child,
    and returns 0 to [get_tokens]: the failure is not fatal. *)
Theorem C9_fallback_returns_tokens_at_once
  (tokens e : Z) (k : kernel) (p : proc) (fw : file) :
  0 < tokens < 2 ^ 32 ->
  fail_pipe (faults k) = Some e \/
    (fail_pipe (faults k) = None /\ fail_fork (faults k) = Some e) ->
  fds p !! wfd p = Some fw -> f_kind fw = KJobW ->
  Forall soft (js_room (js k)) -> tokens <= room_for (js_room (js k)) ->
  exists k' p' pf writes,
    create_child tokens k p = Val 0 k' p' /\
    trace k' = (trace k ++ fallback_trace (pid p) e pf ++ writes)%list /\
    (pf = None <-> fail_pipe (faults k) = Some e) /\
    writes_of (pid p) (wfd p) writes /\
    written (pid p) (wfd p) writes = tokens /\
    js_avail (js k') = js_avail (js k) + tokens /\
    spawned k' = spawned k /\ fds p' = fds p /\ pid p' = pid p.
Proof.
  intros Ht [Hp|[Hp Hf]] Hfw Hkw Hsoft Hroom; unfold create_child; rewrite bind_eq.
  - unfold sys_pipe at 1. rewrite Hp. rewrite bind_eq. cbn [deliver mret M_ret].
    cbn [Z.ltb Z.compare]. rewrite bind_eq.
    set (k1 := add_event _ k). set (p1 := set_errno e p).
    destruct (put_tokens_spec tokens k1 p1 fw)
      as (k2 & p2 & writes & -> & Hkf & Hpf & Hw & Hsum & Hav & _); try done; try lia.
    destruct Hkf as (_ & _ & Hsp & Htr). destruct Hpf as (Hpid & _ & Hfds & _).
    exists k2, p2, None, writes. split; [done|].
    repeat split; try done.
    rewrite Htr. subst k1. cbn. by rewrite <- app_assoc.
  - destruct (pipe_fds_distinct (fds p)) as (Hr & Hw & Hne).
    rewrite sys_pipe_ok by done.
    set (r0 := alloc_fd (fds p)) in *.
    set (w0 := alloc_fd (<[r0 := File KAuxR C.O_RDONLY false]> (fds p))) in *.
    cbn [Z.ltb Z.compare]. rewrite bind_eq. unfold sys_fork.
    cbn [faults add_event set_aux]. rewrite Hf. cbn [deliver].
    unfold after_fork. cbn [Z.ltb Z.compare fst snd].
    rewrite bind_eq. erewrite sys_close_open.
    2:{ cbn. rewrite lookup_insert_ne by done. apply lookup_insert_eq. }
    rewrite bind_eq. erewrite sys_close_open.
    2:{ cbn. rewrite lookup_delete_ne by done. apply lookup_insert_eq. }
    cbn [is_auxw f_kind]. rewrite bind_eq.
    set (k1 := add_event _ _). set (p1 := set_fds _ _).
    assert (fds p1 = fds p) as Hfds1.
    { subst p1. cbn [fds set_fds set_errno]. rewrite delete_insert_ne by done.
      rewrite (delete_insert_eq (fds p) r0), (delete_id (fds p) r0) by done.
      by rewrite delete_insert_eq, delete_id. }
    destruct (put_tokens_spec tokens k1 p1 fw)
      as (k2 & p2 & writes & -> & Hkf & Hpf & Hwr & Hsum & Hav & _); try done; try lia.
    { by rewrite Hfds1. }
    destruct Hkf as (_ & _ & Hsp & Htr). destruct Hpf as (Hpid & _ & Hfds & _).
    exists k2, p2, (Some (r0, w0)), writes. split; [done|].
    repeat split; try done; try congruence.
    rewrite Htr. subst k1. cbn. by rewrite <- !app_assoc.
Qed.

(** ** The log of the watcher, whatever happens to it *)

Lemma deliver_shape ev r k p :
  trace (res_kernel (deliver ev r k p)) = (trace k ++ [(pid p, ev r)])%list /\
  proc_frame p (res_proc (deliver ev r k p)).
Proof. by destruct r. Qed.

Lemma sys_read_shape fd c k p :
  exists sr,
    trace (res_kernel (sys_read fd c k p)) = (trace k ++ [(pid p, EvRead fd c sr)])%list /\
    proc_frame p (res_proc (sys_read fd c k p)).
Proof.
  unfold sys_read. destruct (fds p !! fd) as [f|]; [destruct (f_kind f)|].
  all: try (eexists; apply deliver_shape).
  - destruct (js_read _ _ _) as [r j]. exists r. apply (deliver_shape _ r (set_js j k)).
  - destruct (aux_read _ _) as [r a]. exists r. apply (deliver_shape _ r (set_aux a k)).
Qed.

Lemma sys_write_shape fd c k p :
  exists sr,
    trace (res_kernel (sys_write fd c k p)) = (trace k ++ [(pid p, EvWrite fd c sr)])%list /\
    proc_frame p (res_proc (sys_write fd c k p)).
Proof.
  unfold sys_write. destruct (fds p !! fd) as [f|]; [destruct (f_kind f)|].
  all: try (eexists; apply deliver_shape).
  destruct (js_write _ _) as [r j]. exists r. apply (deliver_shape _ r (set_js j k)).
Qed.

Lemma wait_loop_shape fuel fd : forall k p,
  exists tr,
    trace (res_kernel (wait_loop fuel fd k p)) = (trace k ++ tr)%list /\
    reads_of (pid p) fd 1 tr /\
    proc_frame p (res_proc (wait_loop fuel fd k p)).
Proof.
  induction fuel as [|fuel IH]; intros k p; rewrite wait_loop_eq.
  - exists []. cbn. rewrite app_nil_r. split; [done|]. by split; [constructor|].
  - rewrite bind_eq. destruct (sys_read_shape fd 1 k p) as (sr & Htr & Hpf).
    destruct (sys_read fd 1 k p) as [r k1 p1|h k1 p1]; cbn in Htr, Hpf.
    + destruct (r <? 0).
      * destruct (IH k1 p1) as (tr & Htr' & Hr & Hpf').
        exists ((pid p, EvRead fd 1 sr) :: tr). rewrite Htr', Htr, <- app_assoc.
        destruct Hpf as (Hpid & ?). rewrite Hpid in Hr.
        split; [done|]. split; [by constructor; [eexists|]|].
        eapply proc_frame_trans; [|exact Hpf']. by split.
      * exists [(pid p, EvRead fd 1 sr)]. cbn.
        split; [done|]. split; [by constructor; [eexists|]|done].
    + exists [(pid p, EvRead fd 1 sr)]. cbn.
      split; [done|]. split; [by constructor; [eexists|]|done].
Qed.

Lemma put_tokens_loop_shape fuel : forall tokens k p,
  exists tr,
    trace (res_kernel (put_tokens_loop fuel tokens k p)) = (trace k ++ tr)%list /\
    all_writes (pid p) tr /\
    proc_frame p (res_proc (put_tokens_loop fuel tokens k p)).
Proof.
  induction fuel as [|fuel IH]; intros tokens k p; rewrite put_tokens_loop_eq.
  all: destruct (tokens =? 0);
    [exists []; cbn; rewrite app_nil_r; split; [done|]; by split; [constructor|] |].
  - exists []. cbn. rewrite app_nil_r. split; [done|]. by split; [constructor|].
  - cbv zeta. rewrite bind_eq. cbn [get_proc]. rewrite bind_eq.
    set (c := C.to_int _).
    destruct (sys_write_shape (wfd p) c k p) as (sr & Htr & Hpf).
    destruct (sys_write (wfd p) c k p) as [r k1 p1|h k1 p1]; cbn in Htr, Hpf.
    2:{ exists [(pid p, EvWrite (wfd p) c sr)]. cbn.
        split; [done|]. split; [by constructor; [eexists _, _, _|]|done]. }
    assert (forall t', exists tr,
      trace (res_kernel (put_tokens_loop fuel t' k1 p1)) = (trace k ++ tr)%list /\
      all_writes (pid p) tr /\
      proc_frame p (res_proc (put_tokens_loop fuel t' k1 p1))) as Hnext.
    { intros t'. destruct (IH t' k1 p1) as (tr & Htr' & Hr & Hpf').
      exists ((pid p, EvWrite (wfd p) c sr) :: tr). rewrite Htr', Htr, <- app_assoc.
      destruct Hpf as (Hpid & ?). rewrite Hpid in Hr.
      split; [done|]. split; [by constructor; [eexists _, _, _|]|].
      eapply proc_frame_trans; [|exact Hpf']. by split. }
    destruct (r <? 0); [|apply Hnext].
    rewrite bind_eq. cbn [get_proc]. destruct (_ || _); [apply Hnext|].
    exists [(pid p, EvWrite (wfd p) c sr)]. cbn.
    split; [done|]. split; [by constructor; [eexists _, _, _|]|done].
Qed.

Lemma reads_no_close w fd c tr : reads_of w fd c tr -> no_close tr.
Proof. intros H. eapply Forall_impl; [exact H|]. by intros e [r ->]. Qed.

Lemma writes_no_close w tr : all_writes w tr -> no_close tr.
Proof. intros H. eapply Forall_impl; [exact H|]. by intros e (fd & c & r & ->). Qed.

Lemma child_shape tokens r w k p fa :
  fds p !! w = Some fa ->
  let res := after_fork tokens (r, w) 0 k p in
  res_value res = None /\
  exists tr,
    trace (res_kernel res) = (trace k ++ (pid p, EvClose w (Ret 0)) :: tr)%list /\
    no_close tr /\
    ((forall s, res_halt res <> Some (Exited s)) ->
     fds (res_proc res) = delete w (fds p)).
Proof.
  intros Hfa res. subst res. unfold after_fork. cbn [Z.ltb Z.eqb Z.compare fst snd].
  rewrite bind_eq, (sys_close_open w fa) by done.
  set (k1 := add_event _ _). set (p1 := set_fds _ p).
  assert (trace k1 = (trace k ++ [(pid p, EvClose w (Ret 0))])%list) as Hk1
    by (subst k1; by destruct (is_auxw fa)).
  assert (fds p1 = delete w (fds p) /\ pid p1 = pid p) as [Hfds1 Hpid1] by done.
  rewrite bind_eq. set (fuel := S _). clearbody fuel k1 p1.
  destruct (wait_loop_shape fuel r k1 p1) as (tr1 & Htr1 & Hr1 & Hpf1).
  apply reads_no_close in Hr1.
  destruct (wait_loop fuel r k1 p1) as [[] k2 p2|h k2 p2]; cbn in Htr1, Hpf1.
  2:{ split; [done|]. exists tr1. cbn. rewrite Htr1, Hk1, <- app_assoc.
      repeat split; try done. intros _. destruct Hpf1 as (_ & _ & -> & _). done. }
  rewrite bind_eq. unfold put_tokens. set (fuel2 := S _). clearbody fuel2.
  destruct (put_tokens_loop_shape fuel2 tokens k2 p2) as (tr2 & Htr2 & Hr2 & Hpf2).
  apply writes_no_close in Hr2.
  destruct (put_tokens_loop fuel2 tokens k2 p2) as [[] k3 p3|h k3 p3]; cbn in Htr2, Hpf2.
  2:{ split; [done|]. exists (tr1 ++ tr2)%list. cbn.
      rewrite Htr2, Htr1, Hk1, <- !app_assoc.
      repeat split; try done; [by apply Forall_app|].
      intros _. destruct Hpf2 as (_ & _ & -> & _).
      destruct Hpf1 as (_ & _ & -> & _). done. }
  split; [done|]. exists (tr1 ++ tr2 ++ [(pid p3, EvExit C.EX_OK)])%list. cbn.
  rewrite Htr2, Htr1, Hk1, <- !app_assoc. repeat split; try done.
  - apply Forall_app; split; [done|]. apply Forall_app; split; [done|].
    by constructor.
  - intros H. by destruct (H C.EX_OK).
Qed.

(** C4, as the code has it.  After a successful [fork] the parent closes
    its copy of the READ end of the auxiliary pipe and keeps the write
    end open (the command inherits it); the child first closes the write
    end, closes nothing else, and keeps the read end open for as long as
    it lives. *)
Theorem C4_parent_keeps_write_end_child_keeps_read_end
  (tokens : Z) (k : kernel) (p : proc) :
  fail_pipe (faults k) = None -> fail_fork (faults k) = None ->
  exists r w k1 p1 c,
    create_child tokens k p = Val (C.to_int tokens) k1 p1 /\
    trace k1 = (trace k ++ parent_trace (pid p) (r, w)
                              (Z.max 1 (child_pid (faults k))))%list /\
    r <> w /\ fds p !! r = None /\ fds p !! w = None /\
    fds p1 !! r = None /\
    fds p1 !! w = Some (File KAuxW C.O_WRONLY false) /\
    spawned k1 = Some c /\ c_pipefd c = (r, w) /\
    forall k2,
      let res := after_fork (c_tokens c) (c_pipefd c) 0 k2 (c_proc c) in
      exists tr,
        trace (res_kernel res) = (trace k2 ++ (Watcher, EvClose w (Ret 0)) :: tr)%list /\
        no_close tr /\
        ((forall s, res_halt res <> Some (Exited s)) ->
         fds (res_proc res) !! w = None /\
         fds (res_proc res) !! r = Some (File KAuxR C.O_RDONLY false)).
Proof.
  intros Hp Hf.
  destruct (create_child_parent tokens k p Hp Hf) as (k1 & Hc & _ & _ & Hsp & _ & Htr).
  destruct (pipe_fds_distinct (fds p)) as (Hr & Hw & Hne).
  set (r0 := alloc_fd (fds p)) in *.
  set (w0 := alloc_fd (<[r0 := File KAuxR C.O_RDONLY false]> (fds p))) in *.
  eexists r0, w0, k1, _, _. split; [exact Hc|]. split; [exact Htr|].
  split; [done|]. split; [done|]. split; [done|].
  split; [cbn; by rewrite lookup_insert_ne|].
  split; [cbn; apply lookup_insert_eq|].
  split; [exact Hsp|]. split; [done|]. intros k2. cbn [c_tokens c_pipefd c_proc].
  set (pc := set_pid Watcher _).
  destruct (child_shape tokens r0 w0 k2 pc (File KAuxW C.O_WRONLY false))
    as (_ & tr & Htr2 & Hnc & Hfds).
  { subst pc. cbn. apply lookup_insert_eq. }
  exists tr. split; [exact Htr2|]. split; [exact Hnc|].
  intros Hlive. rewrite (Hfds Hlive). subst pc. cbn [fds set_pid set_fds].
  split; [apply lookup_delete_eq|].
  rewrite lookup_delete_ne, lookup_insert_ne by done. apply lookup_insert_eq.
Qed.

(** ** No channel *)

Lemma parse_env_fails k p :
  no_channel (environ p !! "MAKEFLAGS") ->
  exists p', parse_env k p = Val (-1) k p' /\
             environ p' = environ p /\ fds p' = fds p /\ pid p' = pid p.
Proof.
  unfold parse_env, getenv. rewrite bind_eq.
  intros [->|[(e & -> & ->)|(e & o1 & o2 & -> & -> & -> & Hn)]]; [by exists p..|].
  destruct (Libc.sscanf_eq_d_comma_d _) as [[n a] b]. cbn in Hn.
  rewrite bind_eq. unfold store_fds. apply Z.eqb_neq in Hn. rewrite Hn.
  eexists. split; [reflexivity|]. by destruct a, b.
Qed.

Lemma get_tokens_no_channel k p :
  no_channel (environ p !! "MAKEFLAGS") ->
  exists p', get_tokens k p = Val 0 k p' /\
             environ p' = environ p /\ fds p' = fds p /\ pid p' = pid p.
Proof.
  intros H. destruct (parse_env_fails k p H) as (p' & E & Hp').
  exists p'. split; [|exact Hp']. unfold get_tokens. by rewrite bind_eq, E.
Qed.

Lemma sys_close_val fd k p :
  exists r sr k' p',
    sys_close fd k p = Val r k' p' /\ pid p' = pid p /\
    trace k' = (trace k ++ [(pid p, EvClose fd sr)])%list.
Proof.
  unfold sys_close. destruct (fds p !! fd) as [f|]; cbn.
  - eexists _, _, _, _. repeat split. by destruct (is_auxw f).
  - by eexists _, _, _, _.
Qed.

Lemma launch_calls_execvp argv k p :
  exists r tr,
    trace (res_kernel (launch argv k p)) =
      (trace k ++ (pid p, EvUnsetenv "MAKEFLAGS") :: tr)%list /\
    (pid p, EvExecvp (default "" (argv !! 1%nat)) (drop 1 argv) r) ∈ tr /\
    silent tr.
Proof.
  unfold launch. rewrite bind_eq. cbn [unsetenv]. rewrite bind_eq. cbn [get_proc].
  set (k1 := add_event _ k). set (p1 := set_environ _ p).
  assert (trace k1 = (trace k ++ [(pid p, EvUnsetenv "MAKEFLAGS")])%list) as Hk1 by done.
  assert (pid p1 = pid p) as Hp1 by done. rewrite bind_eq.
  assert (exists k2 p2 tr2,
    ((if 0 <=? rfd p1 then sys_close (rfd p1) else mret 0) k1 p1 = Val (fst tr2) k2 p2) /\
    pid p2 = pid p /\ trace k2 = (trace k1 ++ snd tr2)%list /\
    Forall (fun e => exists fd x, e = (pid p, EvClose fd x)) (snd tr2))
    as (k2 & p2 & [v2 tr2] & -> & Hp2 & Hk2 & Hc2).
  { destruct (0 <=? rfd p1).
    - destruct (sys_close_val (rfd p1) k1 p1) as (r & sr & k2 & p2 & E & Hp & Htr).
      exists k2, p2, (r, [(pid p, EvClose (rfd p1) sr)]). rewrite E, Hp, Htr, Hp1.
      repeat split. by constructor; [eexists _, _|].
    - exists k1, p1, (0, []). cbn. rewrite app_nil_r. by repeat split. }
  cbn [fst snd] in *. rewrite bind_eq. cbn [get_proc]. rewrite bind_eq.
  assert (exists k3 p3 tr3,
    ((if 0 <=? wfd p2 then sys_close (wfd p2) else mret 0) k2 p2 = Val (fst tr3) k3 p3) /\
    pid p3 = pid p /\ trace k3 = (trace k2 ++ snd tr3)%list /\
    Forall (fun e => exists fd x, e = (pid p, EvClose fd x)) (snd tr3))
    as (k3 & p3 & [v3 tr3] & -> & Hp3 & Hk3 & Hc3).
  { destruct (0 <=? wfd p2).
    - destruct (sys_close_val (wfd p2) k2 p2) as (r & sr & k3 & p3 & E & Hp & Htr).
      exists k3, p3, (r, [(pid p, EvClose (wfd p2) sr)]). rewrite E, Hp, Htr, Hp2.
      repeat split. by constructor; [eexists _, _|].
    - exists k2, p2, (0, []). cbn. rewrite app_nil_r. by repeat split. }
  cbn [fst snd] in *. cbv zeta. rewrite bind_eq.
  set (cmd := default "" (argv !! 1%nat)).
  assert (silent (tr2 ++ tr3)) as Hcl.
  { apply Forall_app; split; (eapply Forall_impl; [eassumption|]);
      intros e (fd & x & ->); by repeat split. }
  unfold sys_execvp. destruct (fail_exec (faults k3)) as [e|].
  - cbn [deliver]. rewrite bind_eq. cbn [get_proc]. rewrite bind_eq.
    unfold error. cbn [errno set_errno]. cbn [Z.eqb C.EX_OSERR].
    eexists (Err e), (tr2 ++ tr3 ++ [_; _; _])%list. cbn.
    rewrite Hk3, Hk2, Hk1, Hp3, <- !app_assoc. cbn. split; [reflexivity|]. split.
    + rewrite !elem_of_app. right. right. apply list_elem_of_here.
    + rewrite app_assoc. apply Forall_app; split; [done|].
      repeat constructor; done.
  - eexists (Ret 0), (tr2 ++ tr3 ++ [_])%list. cbn.
    rewrite Hk3, Hk2, Hk1, Hp3, <- !app_assoc. cbn. split; [reflexivity|]. split.
    + rewrite !elem_of_app. right. right. apply list_elem_of_here.
    + rewrite app_assoc. apply Forall_app; split; [done|].
      repeat constructor; done.
Qed.

(** C8. Without a usable advertisement (no MAKEFLAGS, neither option in
    it, or no two integers after the [=]) [get_tokens] returns 0 without
    a single system call, and [main] goes on to [execvp] with the marker
    replaced by [1]: no read, no write and no fork is made. *)
Theorem C8_no_channel_means_one_job
  (argv : list string) (i o : nat) (k : kernel) (p : proc) :
  find_hashes (drop 2 argv) = Some (i, o) ->
  Forall nul_free argv ->
  no_channel (environ p !! "MAKEFLAGS") ->
  exists p1 pre suf r tr,
    let argv' := <[(2 + i)%nat := pre +:+ "1" +:+ suf]> argv in
    get_tokens k p = Val 0 k p1 /\
    argv !! (2 + i)%nat = Some (pre +:+ "###" +:+ suf) /\ String.length pre = o /\
    main argv k p = launch argv' k p1 /\
    trace (res_kernel (main argv k p)) =
      (trace k ++ (pid p, EvUnsetenv "MAKEFLAGS") :: tr)%list /\
    (pid p, EvExecvp (default "" (argv' !! 1%nat)) (drop 1 argv') r) ∈ tr /\
    silent tr.
Proof.
  intros Hf Hnul Hno.
  destruct (get_tokens_no_channel k p Hno) as (p1 & Hg & _ & _ & Hpid).
  destruct (marker_rewritten argv i o 0 k p1 Hf ltac:(lia) Hnul)
    as (arg & pre & suf & Harg & -> & Ho & _ & _ & _ & Hrw & _).
  cbv zeta in Hrw. change (string_of_list_ascii (Libc.utoa (0 + 1))) with "1" in Hrw.
  set (argv' := <[(2 + i)%nat := pre +:+ "1" +:+ suf]> argv) in *.
  assert (main argv k p = launch argv' k p1) as Hm.
  { unfold main. rewrite bind_eq, (check_args_val argv i o) by done.
    by rewrite bind_eq, Hg, bind_eq, Hrw. }
  destruct (launch_calls_execvp argv' k p1) as (r & tr & Htr & Hin & Hall).
  rewrite Hpid in Htr, Hin.
  exists p1, pre, suf, r, tr. cbv zeta. fold argv'. rewrite Hm. by repeat split.
Qed.

(** C2, as the code has it.  On a read end in non-blocking mode that
    holds [t] tokens and that nobody else touches, the loop of
    [get_tokens] returns [min t 504] without blocking and leaves the
    other tokens in the pipe: the count is compared with 500 before each
    read of 8 bytes, so the loop stops at the first multiple of 8 that is
    not below 500.  Up to 500 tokens that is all of them. *)
Theorem C2_drain_takes_up_to_504 (t fd : Z) (f : file) (k : kernel) (p : proc) :
  0 <= t -> js_avail (js k) = t -> js_noise (js k) = [] ->
  fds p !! fd = Some f -> f_kind f = KJobR -> nonblocking f = true ->
  exists k' p' tr,
    drain 500 fd 0 k p = Val (Z.min t 504) k' p' /\
    js_avail (js k') = t - Z.min t 504 /\
    trace k' = (trace k ++ tr)%list /\ reads_of (pid p) fd 8 tr /\
    read_total (pid p) tr = Z.min t 504 /\
    (t <= 500 -> Z.min t 504 = Z.min t 500).
Proof.
  intros Ht Ha Hn Hfd Hk Hnb.
  destruct (drain_quiet 500 fd f 0 k p)
    as (k' & p' & tr & E & Hjs & Hkf & Hr & Hsum & _); try done; try lia.
  { by left. }
  rewrite Ha in *. exists k', p', tr. rewrite E, Hjs, Hsum. cbn.
  replace (504 - 0) with 504 by lia. rewrite Z.add_0_l.
  repeat split; try done; [apply Hkf | lia].
Qed.

(** ** A well-formed advertisement *)

(** The descriptor pair a MAKEFLAGS value announces. *)

(** The calls of a process that neither write nor fork. *)

Lemma parse_env_ok k p env r0 w0 :
  environ p !! "MAKEFLAGS" = Some env -> advertised env = Some (r0, w0) ->
  parse_env k p = Val 0 k (set_wfd w0 (set_rfd r0 p)).
Proof.
  intros He Ha. unfold parse_env, getenv. rewrite bind_eq, He.
  unfold advertised in Ha.
  destruct (first_jobserver_option env) as [o1|]; [|discriminate].
  destruct (Libc.strchr _ _) as [o2|]; [|discriminate].
  destruct (Libc.sscanf_eq_d_comma_d _) as [[n [a|]] [b|]]; try discriminate.
  destruct (n =? 2); [|discriminate]. by injection Ha as -> ->.
Qed.

Lemma read_total_app w tr1 tr2 :
  read_total w (tr1 ++ tr2) = read_total w tr1 + read_total w tr2.
Proof.
  induction tr1 as [|[w' ev] tr1 IH]; simpl; [done|].
  destruct ev; try done. destruct r; try done. lia.
Qed.

Lemma reads_quiet w fd c tr : reads_of w fd c tr -> quiet tr.
Proof. intros H. eapply Forall_impl; [exact H|]. by intros e [r ->]. Qed.

Lemma written_quiet w fd tr : quiet tr -> written w fd tr = 0.
Proof.
  induction 1 as [|[w' ev] tr H _ IH]; simpl; [done|].
  destruct ev; try done. destruct r; try done.
  by destruct (H fd0 count (Ret r)) as [? _].
Qed.

Lemma get_tokens_drains k p env r0 w0 fr :
  environ p !! "MAKEFLAGS" = Some env -> advertised env = Some (r0, w0) ->
  fds p !! r0 = Some fr -> f_kind fr = KJobR -> 0 <= f_flags fr ->
  fail_open (faults k) = None ->
  js_noise (js k) = [] -> 0 <= js_avail (js k) ->
  let n := Z.min (js_avail (js k)) 504 in
  exists k1 p1 tr,
    get_tokens k p =
      (if n =? 0 then mret n else r ← create_child n; mret (C.to_uint r)) k1 p1 /\
    js k1 = JsPipe (js_avail (js k) - n) [] (js_room (js k)) /\
    kernel_frame k k1 tr /\ quiet tr /\ read_total (pid p) tr = n /\
    pid p1 = pid p /\ environ p1 = environ p /\ fds p1 = fds p /\
    rfd p1 = r0 /\ wfd p1 = w0.
Proof.
  intros He Ha Hfd Hk Hfl Hopen Hnoise Hav n.
  unfold get_tokens. rewrite bind_eq, (parse_env_ok k p env r0 w0) by done.
  set (p0 := set_wfd w0 (set_rfd r0 p)).
  assert (fds p0 = fds p /\ rfd p0 = r0 /\ wfd p0 = w0 /\ pid p0 = pid p /\
          environ p0 = environ p) as (Hfds0 & Hrfd0 & Hwfd0 & Hpid0 & Henv0) by done.
  clearbody p0. cbn [Z.ltb Z.compare]. rewrite bind_eq. cbn [get_proc].
  rewrite bind_eq. unfold sys_fcntl_getfl. rewrite Hrfd0, Hfds0, Hfd. cbn [deliver].
  assert ((f_flags fr <? 0) = false) as -> by lia.
  set (k0 := add_event _ k).
  assert (js k0 = js k /\ kernel_frame k k0 [(pid p, EvFcntl r0 (Ret (f_flags fr)))])
    as (Hjs0 & Hkf0) by (subst k0; rewrite Hpid0; by repeat split).
  assert (faults k0 = faults k) as Hfa0 by apply Hkf0. clearbody k0.
  destruct (Z.land (f_flags fr) C.O_NONBLOCK =? 0) eqn:Enb.
  - rewrite bind_eq. unfold sys_open_proc_self_fd.
    rewrite Hfa0, Hopen, Hfds0, Hfd, Hk. cbn [reopen_kind deliver].
    set (fd := alloc_fd (fds p)). set (f' := File KJobR _ _).
    pose proof (alloc_fd_nonneg (fds p)) as Hnn. pose proof (alloc_fd_fresh (fds p)) as Hfresh.
    fold fd in Hnn, Hfresh.
    assert ((fd <? 0) = false) as -> by lia.
    set (k1 := add_event _ k0). set (p1 := set_fds _ p0).
    unfold get_tokens_from. rewrite bind_eq.
    destruct (drain_quiet 500 fd f' 0 k1 p1)
      as (k2 & p2 & tr & -> & Hjs2 & Hkf2 & Hr2 & Hsum2 & Hpf2); try done; try lia.
    { subst p1. cbn. apply lookup_insert_eq. }
    { subst k1. cbn. by rewrite Hjs0. }
    { subst k1. cbn. by rewrite Hjs0. }
    { by left. }
    change (js_avail (js k1)) with (js_avail (js k0)) in *.
    change (js_room (js k1)) with (js_room (js k0)) in *.
    rewrite Hjs0 in *. rewrite Z.add_0_l, Z.sub_0_r in *. fold n in Hjs2, Hsum2 |- *.
    destruct Hpf2 as (Hpid2 & Henv2 & Hfds2 & Hrfd2 & Hwfd2).
    rewrite bind_eq. cbn [get_proc]. rewrite bind_eq.
    change (rfd p1) with (rfd p0) in Hrfd2. rewrite Hrfd2, Hrfd0.
    assert ((fd =? r0) = false) as ->.
    { apply Z.eqb_neq. intros ->. congruence. }
    erewrite sys_close_open; [|rewrite Hfds2; subst p1; cbn; apply lookup_insert_eq].
    cbn [is_auxw f' f_kind].
    eexists _, _, ([(pid p, EvFcntl r0 (Ret (f_flags fr)));
                    (pid p, EvOpen r0 (Z.lor (Z.lor C.O_RDONLY C.O_NONBLOCK) C.O_CLOEXEC)
                              (Ret fd))] ++ tr ++
                   [(pid p, EvClose fd (Ret 0))])%list.
    split; [reflexivity|]. cbn [js add_event]. split; [exact Hjs2|].
    destruct Hkf0 as (Ha0 & Hf0 & Hs0 & Htr0). destruct Hkf2 as (Ha2 & Hf2 & Hs2 & Htr2).
    change (pid p1) with (pid p0) in *. rewrite Hpid0 in *.
    split; [|split; [|split]].
    + unfold kernel_frame. cbn [aux faults spawned trace add_event].
      split; [rewrite Ha2; exact Ha0|]. split; [rewrite Hf2; exact Hf0|].
      split; [rewrite Hs2; exact Hs0|].
      rewrite Htr2. subst k1. cbn [trace add_event].
      change (pid (set_fds _ p0)) with (pid p0).
      rewrite Htr0, Hpid2, Hpid0, <- !app_assoc. done.
    + apply Forall_app; split; [by repeat constructor|].
      apply Forall_app; split; [by eapply reads_quiet|by repeat constructor].
    + rewrite !read_total_app, Hsum2. cbn. lia.
    + cbn. rewrite Hpid2, Henv2, Hfds2, Hwfd2. subst p1. cbn.
      rewrite delete_insert_eq, delete_id by congruence. repeat split; congruence.
  - assert (nonblocking fr = true) as Hnb by (unfold nonblocking; by rewrite Enb).
    unfold get_tokens_from. rewrite bind_eq.
    destruct (drain_quiet 500 r0 fr 0 k0 p0)
      as (k2 & p2 & tr & -> & Hjs2 & Hkf2 & Hr2 & Hsum2 & Hpf2); try done; try lia.
    { by rewrite Hfds0. }
    { by rewrite Hjs0. }
    { by rewrite Hjs0. }
    { by left. }
    rewrite Hjs0 in *. rewrite Z.add_0_l, Z.sub_0_r in *. fold n in Hjs2, Hsum2 |- *.
    destruct Hpf2 as (Hpid2 & Henv2 & Hfds2 & Hrfd2 & Hwfd2).
    rewrite bind_eq. cbn [get_proc]. rewrite bind_eq.
    rewrite Hrfd2, Hrfd0, Z.eqb_refl. cbn [mret M_ret].
    eexists _, _, ([(pid p, EvFcntl r0 (Ret (f_flags fr)))] ++ tr)%list.
    split; [reflexivity|]. split; [exact Hjs2|].
    rewrite Hpid0 in *.
    split; [|split; [|split]].
    + eapply kernel_frame_trans; eassumption.
    + apply Forall_app; split; [by repeat constructor|by eapply reads_quiet].
    + rewrite read_total_app, Hsum2. cbn. lia.
    + repeat split; congruence.
Qed.

(** ** Counting the descriptors on the write end *)

Lemma filter_length_perm {A} (f : A -> bool) (l1 l2 : list A) :
  l1 ≡ₚ l2 -> length (List.filter f l1) = length (List.filter f l2).
Proof.
  induction 1 as [|x l1 l2 _ IH|x y l|l1 l2 l3 _ IH1 _ IH2]; simpl.
  - done.
  - destruct (f x); simpl; by rewrite IH.
  - by destruct (f x), (f y).
  - by rewrite IH1.
Qed.

Lemma count_auxw_insert (t : gmap Z file) (i : Z) (f : file) :
  t !! i = None ->
  count_auxw (<[i := f]> t) = ((if is_auxw f then 1 else 0) + count_auxw t)%nat.
Proof.
  intros H. unfold count_auxw.
  rewrite (filter_length_perm _ _ _ (map_to_list_insert t i f H)). simpl.
  by destruct (is_auxw f).
Qed.

Lemma count_auxw_delete (t : gmap Z file) (i : Z) (f : file) :
  t !! i = Some f ->
  count_auxw t = ((if is_auxw f then 1 else 0) + count_auxw (delete i t))%nat.
Proof.
  intros H. unfold count_auxw.
  rewrite <- (filter_length_perm _ _ _ (map_to_list_delete t i f H)). simpl.
  by destruct (is_auxw f).
Qed.

(** The calls of a process that neither read, write nor fork. *)

Lemma silent_quiet tr : silent tr -> quiet tr.
Proof.
  intros H. eapply Forall_impl; [exact H|]. intros e He fd c x.
  by destruct (He fd c x) as (_ & ? & ?).
Qed.

Lemma read_total_silent w tr : silent tr -> read_total w tr = 0.
Proof.
  induction 1 as [|[w' ev] tr H _ IH]; simpl; [done|].
  destruct ev; try done. destruct r; try done.
  by destruct (H fd count (Ret r)) as [? _].
Qed.

Lemma close_keeps_aux fd k p :
  (forall f, fds p !! fd = Some f -> is_auxw f = false) ->
  exists r k' p' tr,
    sys_close fd k p = Val r k' p' /\
    js k' = js k /\ kernel_frame k k' tr /\ silent tr /\
    pid p' = pid p /\ rfd p' = rfd p /\ wfd p' = wfd p /\
    count_auxw (fds p') = count_auxw (fds p) /\
    (forall fd' f', fds p' !! fd' = Some f' -> fds p !! fd' = Some f').
Proof.
  intros H. unfold sys_close. destruct (fds p !! fd) as [f|] eqn:E.
  - rewrite (H f eq_refl). eexists _, _, _, [_]. split; [reflexivity|].
    split; [done|]. split; [by repeat split|]. split; [by repeat constructor|].
    cbn. repeat split.
    + rewrite (count_auxw_delete _ _ _ E), (H f eq_refl). done.
    + intros fd' f'. rewrite lookup_delete. by case_decide.
  - eexists _, _, _, [_]. split; [reflexivity|].
    split; [done|]. split; [by repeat split|]. split; [by repeat constructor|].
    by repeat split.
Qed.

Lemma maybe_close_keeps_aux (b : bool) fd k p :
  (forall f, fds p !! fd = Some f -> is_auxw f = false) ->
  exists r k' p' tr,
    (if b then sys_close fd else mret 0) k p = Val r k' p' /\
    js k' = js k /\ kernel_frame k k' tr /\ silent tr /\
    pid p' = pid p /\ rfd p' = rfd p /\ wfd p' = wfd p /\
    count_auxw (fds p') = count_auxw (fds p) /\
    (forall fd' f', fds p' !! fd' = Some f' -> fds p !! fd' = Some f').
Proof.
  intros H. destruct b; [by apply close_keeps_aux|].
  exists 0, k, p, []. split; [done|]. split; [done|].
  split; [repeat split; by rewrite app_nil_r|]. split; [constructor|]. by repeat split.
Qed.

Lemma launch_exec_fails argv k p e :
  fail_exec (faults k) = Some e ->
  (forall f, fds p !! rfd p = Some f -> is_auxw f = false) ->
  (forall f, fds p !! wfd p = Some f -> is_auxw f = false) ->
  exists k' p' tr,
    launch argv k p = Halt (Exited C.EX_OSERR) k' p' /\
    js k' = js k /\ faults k' = faults k /\ spawned k' = spawned k /\
    aux k' = AuxPipe (aux_writers (aux k) - count_auxw (fds p))
                     (aux_buf (aux k)) (aux_script (aux k)) /\
    trace k' = (trace k ++ tr ++
                exec_failure_trace (pid p) (default "" (argv !! 1%nat)) (drop 1 argv) e)%list /\
    silent tr.
Proof.
  intros He Hr Hw. unfold launch. rewrite bind_eq. cbn [unsetenv]. rewrite bind_eq.
  cbn [get_proc]. set (k1 := add_event _ k). set (p1 := set_environ _ p).
  rewrite bind_eq.
  destruct (maybe_close_keeps_aux (0 <=? rfd p1) (rfd p1) k1 p1 Hr)
    as (r2 & k2 & p2 & tr2 & -> & Hjs2 & Hkf2 & Hq2 & Hpid2 & Hrfd2 & Hwfd2 & Hc2 & Hsub2).
  rewrite bind_eq. cbn [get_proc]. rewrite bind_eq.
  destruct (maybe_close_keeps_aux (0 <=? wfd p2) (wfd p2) k2 p2)
    as (r3 & k3 & p3 & tr3 & -> & Hjs3 & Hkf3 & Hq3 & Hpid3 & Hrfd3 & Hwfd3 & Hc3 & Hsub3).
  { intros f Hf. apply Hsub2 in Hf. rewrite Hwfd2 in Hf. by apply Hw. }
  cbv zeta. rewrite bind_eq. unfold sys_execvp.
  destruct Hkf2 as (Ha2 & Hf2 & Hs2 & Htr2). destruct Hkf3 as (Ha3 & Hf3 & Hs3 & Htr3).
  assert (fail_exec (faults k3) = Some e) as -> by (by rewrite Hf3, Hf2).
  cbn [deliver]. rewrite bind_eq. cbn [get_proc]. rewrite bind_eq.
  unfold error. cbn [errno set_errno C.EX_OSERR Z.eqb].
  eexists _, _, ((pid p, EvUnsetenv "MAKEFLAGS") :: tr2 ++ tr3)%list.
  split; [reflexivity|]. cbn.
  split; [by rewrite Hjs3, Hjs2|]. split; [by rewrite Hf3, Hf2|].
  split; [by rewrite Hs3, Hs2|]. split; [|split].
  - rewrite Ha3, Ha2, Hc3, Hc2. done.
  - rewrite Htr3, Htr2, Hpid3, Hpid2. subst k1. cbn. by rewrite <- !app_assoc.
  - constructor; [by repeat split|]. by apply Forall_app.
Qed.

(** C3, as the code has it.  Started by a make that advertises its
    jobserver, with tokens in the pipe, when [execvp] fails: [main]
    reports the [errno] of [execvp] and exits with EX_OSERR, and writes
    nothing to the jobserver itself; its exit closes its auxiliary write
    end, the last one besides the watcher's own, so the watcher reads end
    of file at once and writes every token drained back: the pipe holds
    as many tokens as before. *)
Theorem C3_exec_failure_tokens_still_returned
  (argv : list string) (i o : nat) (k : kernel) (p : proc)
  (env : string) (r0 w0 e : Z) (fr fw : file) :
  find_hashes (drop 2 argv) = Some (i, o) ->
  environ p !! "MAKEFLAGS" = Some env -> advertised env = Some (r0, w0) ->
  fds p !! r0 = Some fr -> f_kind fr = KJobR -> 0 <= f_flags fr ->
  fds p !! w0 = Some fw -> f_kind fw = KJobW ->
  count_auxw (fds p) = O ->
  fail_open (faults k) = None -> fail_pipe (faults k) = None ->
  fail_fork (faults k) = None -> fail_exec (faults k) = Some e ->
  js_noise (js k) = [] -> 0 < js_avail (js k) ->
  Forall soft (js_room (js k)) ->
  Z.min (js_avail (js k)) 504 <= room_for (js_room (js k)) ->
  let t := Z.min (js_avail (js k)) 504 in
  exists k1 p1 k2 p2 cmd args,
    system argv k p =
      (Halt (Exited C.EX_OSERR) k1 p1, Some (Halt (Exited C.EX_OK) k2 p2)) /\
    (exists tr, trace k1 = (trace k ++ tr ++ exec_failure_trace (pid p) cmd args e)%list /\
                read_total (pid p) tr = t /\ written (pid p) w0 tr = 0) /\
    written (pid p) w0 (trace k1) = written (pid p) w0 (trace k) /\
    js_avail (js k1) = js_avail (js k) - t /\
    written Watcher w0 (trace k2) = written Watcher w0 (trace k1) + t /\
    js_avail (js k2) = js_avail (js k).
Proof.
  intros Hf He Ha Hfr Hkr Hfl Hfw Hkw Hcnt Hopen Hpipe Hfork Hexec Hnoise Hav Hsoft Hroom t.
  (* the command line *)
  destruct (find_hashes_Some _ _ _ Hf) as (arg & Harg & Ho & _).
  rewrite lookup_drop in Harg.
  destruct (strstr_Some _ _ _ Ho) as (pre & suf & -> & <-).
  (* the drain *)
  destruct (get_tokens_drains k p env r0 w0 fr He Ha Hfr Hkr Hfl Hopen Hnoise ltac:(lia))
    as (ka & pa & tra & Hg & Hjsa & Hkfa & Hqa & Hsuma & Hpida & _ & Hfdsa & Hrfda & Hwfda).
  fold t in Hg, Hjsa, Hsuma. assert ((t =? 0) = false) as Et by (subst t; lia).
  rewrite Et in Hg. destruct Hkfa as (Haa & Hfa & Hsa & Htra).
  (* the fork *)
  destruct (create_child_parent t ka pa) as (kb & Hc & Hjsb & Hfb & Hsb & Hab & Htrb);
    [by rewrite Hfa..|].
  destruct (pipe_fds_distinct (fds pa)) as (Hr' & Hw' & Hne').
  set (r1 := alloc_fd (fds pa)) in *.
  set (w1 := alloc_fd (<[r1 := File KAuxR C.O_RDONLY false]> (fds pa))) in *.
  set (pb := set_fds (<[w1 := File KAuxW C.O_WRONLY false]> (fds pa)) pa) in *.
  set (tb := <[w1 := File KAuxW C.O_WRONLY false]>
               (<[r1 := File KAuxR C.O_RDONLY false]> (fds pa))) in *.
  assert (count_auxw tb = 1%nat) as Hcb.
  { subst tb. rewrite !count_auxw_insert; [|done|by rewrite lookup_insert_ne].
    by rewrite Hfdsa, Hcnt. }
  assert (count_auxw (fds pb) = 1%nat) as Hcpb.
  { change (fds pb) with (<[w1 := File KAuxW C.O_WRONLY false]> (fds pa)).
    rewrite count_auxw_insert by done. by rewrite Hfdsa, Hcnt. }
  assert (fds pb !! r0 = Some fr /\ fds pb !! w0 = Some fw) as [Hfrb Hfwb].
  { change (fds pb) with (<[w1 := File KAuxW C.O_WRONLY false]> (fds pa)).
    rewrite !lookup_insert_ne by (rewrite Hfdsa in Hw'; congruence).
    by rewrite Hfdsa. }
  (* the launch *)
  set (argv' := <[(2 + i)%nat := rewrite_arg (pre +:+ "###" +:+ suf) (String.length pre)
                                   (t + 1)]> argv).
  destruct (launch_exec_fails argv' kb pb e)
    as (kc & pc & trc & Hl & Hjsc & Hfc & Hsc & Hac & Htrc & Hqc).
  { by rewrite Hfb, Hfa. }
  { change (rfd pb) with (rfd pa). rewrite Hrfda, Hfrb. intros f [= <-].
    unfold is_auxw. by rewrite Hkr. }
  { change (wfd pb) with (wfd pa). rewrite Hwfda, Hfwb. intros f [= <-].
    unfold is_auxw. by rewrite Hkw. }
  assert (main argv k p = Halt (Exited C.EX_OSERR) kc pc) as Hmain.
  { unfold main. rewrite bind_eq, (check_args_val argv i _) by done.
    rewrite bind_eq, Hg, bind_eq, Hc. cbn [mret M_ret].
    rewrite to_int_small, to_uint_small by (subst t; lia).
    rewrite bind_eq, (rewrite_val argv _ pre suf) by (done || subst t; lia).
    exact Hl. }
  (* the watcher *)
  unfold system. rewrite Hmain. cbn [res_kernel]. unfold run_child.
  rewrite Hsc, Hsb. cbn [c_tokens c_pipefd c_proc].
  set (pw := set_pid Watcher _).
  destruct (watcher_spec t r1 w1 (set_spawned None kc) pw fw
              (File KAuxR C.O_RDONLY false) (File KAuxW C.O_WRONLY false))
    as (kd & pd & reads & writes & -> & Htrd & Hreads & Hwrites & Hsumd & Havd);
    try done.
  { change (fds pw) with tb. change (wfd pw) with (wfd pa). subst tb.
    rewrite Hwfda, !lookup_insert_ne by (rewrite Hfdsa in Hr', Hw'; congruence).
    by rewrite Hfdsa. }
  { change (fds pw) with tb. subst tb.
    rewrite lookup_insert_ne by done. apply lookup_insert_eq. }
  { change (fds pw) with tb. subst tb. apply lookup_insert_eq. }
  { cbn [aux set_spawned]. rewrite Hac. cbn [aux_script aux_writers aux_buf].
    rewrite Hab. cbn [aux_script aux_writers aux_buf]. fold tb. rewrite Hcb, Hcpb.
    rewrite Haa. by destruct (aux_script (aux k)). }
  { cbn [js set_spawned]. by rewrite Hjsc, Hjsb, Hjsa. }
  { subst t; lia. }
  { cbn [js set_spawned]. by rewrite Hjsc, Hjsb, Hjsa. }
  change (pid pw) with Watcher in *. change (wfd pw) with (wfd pa) in *.
  rewrite Hwfda in *.
  change (trace (set_spawned None kc)) with (trace kc) in Htrd.
  change (js (set_spawned None kc)) with (js kc) in Havd.
  assert (trace kc = (trace k ++ (tra ++ parent_trace (pid p) (r1, w1)
                          (Z.max 1 (child_pid (faults ka))) ++ trc) ++
                      exec_failure_trace (pid p) (default "" (argv' !! 1%nat))
                                         (drop 1 argv') e)%list) as Hfull.
  { rewrite Htrc, Htrb, Htra. change (pid pb) with (pid pa). rewrite Hpida.
    by rewrite <- !app_assoc. }
  assert (written (pid p) w0 (tra ++ parent_trace (pid p) (r1, w1)
            (Z.max 1 (child_pid (faults ka))) ++ trc) = 0) as Hw0.
  { rewrite !written_app, (written_quiet _ _ tra) by done.
    rewrite (written_quiet _ _ trc) by (by apply silent_quiet). done. }
  eexists kc, pc, kd, pd, _, _. split; [reflexivity|].
  split; [|split; [|split; [|split]]].
  - eexists. split; [exact Hfull|]. split; [|exact Hw0].
    rewrite !read_total_app, Hsuma, (read_total_silent _ trc) by done.
    cbn [parent_trace read_total]. lia.
  - rewrite Hfull, (written_app _ _ (trace k)), (written_app _ _ (tra ++ _)), Hw0.
    cbn. lia.
  - by rewrite Hjsc, Hjsb, Hjsa.
  - rewrite Htrd, written_app, written_watcher_trace by done. by rewrite Hsumd.
  - rewrite Havd, Hjsc, Hjsb, Hjsa. cbn. lia.
Qed.

(** ** The watcher and the holders of the write end *)

Lemma aux_wait_eof script : forall writers buf count r a,
  (AuxWrite ∉ script) -> buf <= 0 ->
  aux_wait script writers buf count = (r, a) ->
  aux_buf a = buf /\ (AuxWrite ∉ aux_script a) /\
  (forall n, r = Ret n -> aux_writers a = O).
Proof.
  induction script as [|ev s IH]; intros writers buf count r a Hs Hb; simpl.
  all: assert ((0 <? buf) = false) as -> by lia.
  - destruct writers; intros [= <- <-]; by repeat split.
  - destruct writers; [intros [= <- <-]; by repeat split|].
    apply not_elem_of_cons in Hs as [Hev Hs].
    destruct ev; try done; try (by apply IH).
    intros [= <- <-]. by repeat split.
Qed.

Lemma wait_loop_eof fuel fd f : forall k p k' p',
  fds p !! fd = Some f -> f_kind f = KAuxR ->
  (AuxWrite ∉ aux_script (aux k)) -> aux_buf (aux k) <= 0 ->
  wait_loop fuel fd k p = Val tt k' p' ->
  aux_writers (aux k') = O.
Proof.
  induction fuel as [|fuel IH]; intros k p k' p' Hfd Hk Hs Hb; [done|].
  rewrite wait_loop_eq, bind_eq, (sys_read_aux fd f) by done. unfold aux_read.
  destruct (aux_wait _ _ _ _) as [r a] eqn:E.
  destruct (aux_wait_eof _ _ _ _ _ _ Hs Hb E) as (Hbuf & Hscr & Heof).
  destruct r as [n|e|]; cbn [fst snd deliver]; [| |done].
  - destruct (n <? 0) eqn:En.
    + apply (IH _ p); try done; cbn; [by rewrite Hbuf..].
    + intros [= <- _]. cbn. by apply (Heof n).
  - assert ((-1 <? 0) = true) as -> by done.
    apply (IH _ (set_errno e p)); try done; cbn; lia.
Qed.

Lemma put_tokens_loop_keeps_aux fuel : forall tokens k p,
  aux (res_kernel (put_tokens_loop fuel tokens k p)) = aux k.
Proof.
  induction fuel as [|fuel IH]; intros tokens k p; rewrite put_tokens_loop_eq;
    (destruct (tokens =? 0); [done|]); [done|].
  cbv zeta. rewrite bind_eq. cbn [get_proc]. rewrite bind_eq.
  set (c := C.to_int _).
  assert (aux (res_kernel (sys_write (wfd p) c k p)) = aux k) as Hw.
  { unfold sys_write. destruct (fds p !! wfd p) as [f|]; [destruct (f_kind f)|].
    all: try (destruct (js_write c (js k)) as [[n|e|] j]); done. }
  destruct (sys_write (wfd p) c k p) as [r k1 p1|h k1 p1]; cbn in Hw; [|done].
  destruct (r <? 0); [|by rewrite IH].
  rewrite bind_eq. cbn [get_proc]. destruct (_ || _); [by rewrite IH|done].
Qed.

(** X11. As long as nobody writes into the auxiliary pipe, the watcher
    writes tokens back only once no descriptor is left open on the write
    end: if its log holds a write, the write end has no holder. *)
Lemma X11_watcher_writes_only_after_release tokens r w k p fa fr :
  fds p !! w = Some fa -> fds p !! r = Some fr -> f_kind fr = KAuxR -> r <> w ->
  (AuxWrite ∉ aux_script (aux k)) -> aux_buf (aux k) <= 0 ->
  let res := after_fork tokens (r, w) 0 k p in
  forall tr, trace (res_kernel res) = (trace k ++ tr)%list ->
             Exists is_write tr ->
             aux_writers (aux (res_kernel res)) = O.
Proof.
  intros Hfa Hfr Hkr Hne Hs Hb res. subst res. unfold after_fork.
  cbn [Z.ltb Z.eqb Z.compare fst snd].
  rewrite bind_eq, (sys_close_open w fa) by done.
  set (k1 := add_event _ _). set (p1 := set_fds _ p).
  assert (trace k1 = (trace k ++ [(pid p, EvClose w (Ret 0))])%list) as Hk1
    by (subst k1; by destruct (is_auxw fa)).
  assert ((AuxWrite ∉ aux_script (aux k1)) /\ aux_buf (aux k1) <= 0) as [Hs1 Hb1]
    by (subst k1; by destruct (is_auxw fa)).
  assert (fds p1 !! r = Some fr) as Hfr1
    by (subst p1; cbn; by rewrite lookup_delete_ne).
  rewrite bind_eq. set (fuel := S _). clearbody fuel k1 p1.
  destruct (wait_loop_shape fuel r k1 p1) as (tr1 & Htr1 & Hr1 & _).
  destruct (wait_loop fuel r k1 p1) as [[] k2 p2|h k2 p2] eqn:Ew; cbn in Htr1.
  2:{ intros tr Htr Hex. cbn in Htr. rewrite Htr1, Hk1, <- app_assoc in Htr.
      apply app_inv_head in Htr as <-. exfalso.
      apply Exists_cons in Hex as [(? & ? & ? & [=])|Hex].
      apply Exists_exists in Hex as (e & He & (fd & c & x & Hw)).
      apply (proj1 (Forall_forall _ _) Hr1) in He as [sr ->]. discriminate. }
  pose proof (wait_loop_eof fuel r fr k1 p1 k2 p2 Hfr1 Hkr Hs1 Hb1 Ew) as H0.
  intros tr _ _. rewrite bind_eq. unfold put_tokens. set (fuel2 := S _).
  pose proof (put_tokens_loop_keeps_aux fuel2 tokens k2 p2) as Hkeep.
  destruct (put_tokens_loop fuel2 tokens k2 p2) as [[] k3 p3|h k3 p3]; cbn in Hkeep |- *.
  - by rewrite Hkeep, H0.
  - by rewrite Hkeep.
Qed.

(** ** The fuel of [put_tokens] *)

(** [put_tokens] is given enough fuel: it returns or blocks in [write],
    it never stops for want of fuel. *)
Lemma put_tokens_loop_ends fuel : forall tokens k p,
  0 <= tokens < 2 ^ 32 ->
  (length (js_room (js k)) + Z.to_nat tokens < fuel)%nat ->
  res_halt (put_tokens_loop fuel tokens k p) <> Some Diverged.
Proof.
  induction fuel as [|fuel IH]; intros tokens k p Ht Hf; [lia|].
  rewrite put_tokens_loop_eq. destruct (Z.eqb_spec tokens 0) as [->|Hne]; [done|].
  cbv zeta.
  assert (C.to_int (if 8 <? tokens then 8 else tokens) = Z.min 8 tokens) as ->.
  { destruct (8 <? tokens) eqn:E; rewrite to_int_small; lia. }
  rewrite bind_eq. cbn [get_proc]. rewrite bind_eq. unfold sys_write.
  assert (forall ev k1, res_halt
            (match deliver ev (Err C.EBADF) k1 p with
             | Val a k' p' =>
                 (if a <? 0
                  then p0 ← get_proc;
                       if (errno p0 =? C.EAGAIN) || (errno p0 =? C.EINTR)
                       then put_tokens_loop fuel tokens
                       else mret tt
                  else put_tokens_loop fuel (C.to_uint (tokens - a))) k' p'
             | Halt h k' p' => Halt h k' p'
             end) <> Some Diverged) as Hbad by done.
  destruct (fds p !! wfd p) as [f|]; [|apply Hbad].
  destruct (f_kind f); try apply Hbad.
  - unfold js_write. destruct (js_room (js k)) as [|[n|e] rest] eqn:Er; cbn [deliver].
    + done.
    + set (m := Z.max 0 (Z.min n (Z.min 8 tokens))).
      assert ((m <? 0) = false) as -> by lia.
      rewrite to_uint_small by lia. cbn [length] in Hf.
      apply IH; [subst m; lia|]. cbn [js js_room set_js add_event]. subst m. lia.
    + assert ((-1 <? 0) = true) as -> by done.
      rewrite bind_eq. cbn [get_proc set_errno errno].
      cbn [length] in Hf.
      destruct (_ || _); [|done]. apply IH; [lia|]. cbn [js js_room set_js add_event]. lia.
  - cbn [deliver]. assert ((Z.min 8 tokens <? 0) = false) as -> by lia.
    rewrite to_uint_small by lia. apply IH; [lia|]. cbn [js add_event]. lia.
Qed.

Lemma put_tokens_ends tokens k p :
  0 <= tokens < 2 ^ 32 -> res_halt (put_tokens tokens k p) <> Some Diverged.
Proof. intros Ht. unfold put_tokens. apply put_tokens_loop_ends; [done|lia]. Qed.

(** ** Runs *)

(** The end-to-end example of the header of [jobhog.c]: 13 tokens, the
    command runs with [-j14], and the watcher gives the 13 tokens back
    once the command has released the auxiliary pipe. *)
Example run_13_tokens :
  let s := system argv_ok (kernel0 13 [] room2 [AuxRelease] no_faults) (proc0 makeflags) in
  res_halt (fst s) = Some (Execed "mybuild" ["mybuild"; "-j14"; "--flag"]) /\
  (res_halt <$> snd s) = Some (Some (Exited 0)) /\
  (events_of Watcher ∘ trace ∘ res_kernel <$> snd s) =
    Some [EvClose 6 (Ret 0); EvRead 5 1 (Ret 0);
          EvWrite 4 8 (Ret 8); EvWrite 4 5 (Ret 5); EvExit 0] /\
  (js_avail ∘ js ∘ res_kernel <$> snd s) = Some 13.
Proof. vm_compute. by repeat split. Qed.

(** While the command holds the write end and nothing else happens the
    watcher stays blocked and nothing is written. *)
Example run_watcher_waits :
  let s := system argv_ok (kernel0 13 [] room2 [] no_faults) (proc0 makeflags) in
  (res_halt <$> snd s) = Some (Some Blocked) /\
  (events_of Watcher ∘ trace ∘ res_kernel <$> snd s) =
    Some [EvClose 6 (Ret 0); EvRead 5 1 Block].
Proof. vm_compute. by repeat split. Qed.

(** The bound of C10 is reached: 62 reads of 8 bytes, then 3 bytes, then 8. *)
Example drain_507 :
  res_value (drain 500 3 0
    (kernel0 499 (replicate 63 (JsOthers 0) ++ [JsOthers 8]) [] [] no_faults)
    (proc34 C.O_NONBLOCK)) = Some 507.
Proof. vm_compute. reflexivity. Qed.

(** C2, counterexample: with 501 tokens in the pipe the loop returns 501,
    not [min 501 500]: the drained count exceeds 500. *)
Lemma C2_counterexample_501_tokens :
  res_value (drain 500 3 0 (kernel0 501 [] [] [] no_faults) (proc34 C.O_NONBLOCK))
    = Some 501 /\
  501 <> Z.min 501 500 /\ 500 < 501.
Proof. vm_compute. by repeat split. Qed.

(** C3, counterexample: [execvp] fails with ENOENT after 13 tokens were
    drained; [main] exits with EX_OSERR and the watcher writes the 13
    tokens back, so that the jobserver pipe holds 13 tokens again. *)
Lemma C3_counterexample_tokens_come_back :
  let s := system argv_ok (kernel0 13 [] room2 [] (exec_fails C.ENOENT)) (proc0 makeflags) in
  res_halt (fst s) = Some (Exited C.EX_OSERR) /\
  read_total Main (trace (res_kernel (fst s))) = 13 /\
  js_avail (js (res_kernel (fst s))) = 0 /\
  (res_halt <$> snd s) = Some (Some (Exited C.EX_OK)) /\
  (written Watcher 4 ∘ trace ∘ res_kernel <$> snd s) = Some 13 /\
  (js_avail ∘ js ∘ res_kernel <$> snd s) = Some 13.
Proof. vm_compute. by repeat split. Qed.

(** C4, counterexample: after [create_child] the parent has closed
    descriptor 5, the read end of the pipe (5, 6), and still holds
    descriptor 6, the write end. *)
Lemma C4_counterexample_parent_holds_write_end :
  let r := create_child 13 (kernel0 0 [] [] [] no_faults) (proc34 C.O_RDONLY) in
  events_of Main (trace (res_kernel r)) =
    [EvPipe (5, 6) (Ret 0); EvFork (Ret 1000); EvClose 5 (Ret 0)] /\
  fds (res_proc r) !! 6 = Some (File KAuxW C.O_WRONLY false) /\
  fds (res_proc r) !! 5 = None.
Proof. vm_compute. by repeat split. Qed.

(** C5, on the failing input: the command, which holds the write end of
    the auxiliary pipe, writes one byte to it.  The watcher's [read]
    returns 1, the loop [while (read(...) < 0)] ends, and the 13 tokens
    are written back while the write end is still open in the command
    (one descriptor is left on it). *)
Theorem C5_watcher_returns_on_a_data_byte :
  let s := system argv_ok (kernel0 13 [] room2 [AuxWrite] no_faults) (proc0 makeflags) in
  res_halt (fst s) = Some (Execed "mybuild" ["mybuild"; "-j14"; "--flag"]) /\
  (res_halt <$> snd s) = Some (Some (Exited C.EX_OK)) /\
  (events_of Watcher ∘ trace ∘ res_kernel <$> snd s) =
    Some [EvClose 6 (Ret 0); EvRead 5 1 (Ret 1);
          EvWrite 4 8 (Ret 8); EvWrite 4 5 (Ret 5); EvExit 0] /\
  (aux_writers ∘ aux ∘ res_kernel <$> snd s) = Some 1%nat.
Proof. vm_compute. by repeat split. Qed.

(** ** The theorems at work on the fixtures *)

Lemma nul_free_fixture : Forall nul_free argv_ok.
Proof.
  repeat constructor; unfold nul_free; simpl;
    rewrite ?not_elem_of_cons; repeat split; (discriminate || apply not_elem_of_nil).
Defined.

Lemma C1_witness :
  0 < 13 < 2 ^ 32 /\
  exists k1 p1,
    create_child 13 (kernel0 0 [] room2 [] no_faults) (proc34 C.O_RDONLY)
      = Val (C.to_int 13) k1 p1.
Proof.
  split; [lia|].
  destruct (C1_watcher_returns_every_token 13 (kernel0 0 [] room2 [] no_faults)
              (proc34 C.O_RDONLY) (File KJobW C.O_WRONLY false))
    as (k1 & p1 & pf & H & _); [lia | reflexivity.. |].
  exists k1, p1. exact H.
Defined.

Lemma C2_witness :
  exists k' p',
    drain 500 3 0 (kernel0 1000 [] [] [] no_faults) (proc34 C.O_NONBLOCK)
      = Val (Z.min 1000 504) k' p' /\
    js_avail (js k') = 1000 - Z.min 1000 504.
Proof.
  destruct (C2_drain_takes_up_to_504 1000 3 (File KJobR C.O_NONBLOCK false)
              (kernel0 1000 [] [] [] no_faults) (proc34 C.O_NONBLOCK))
    as (k' & p' & tr & H & Ha & _); [lia | reflexivity..|].
  exists k', p'. split; [exact H | exact Ha].
Defined.

Lemma C3_witness :
  exists k1 p1 k2 p2,
    system argv_ok (kernel0 13 [] room2 [] (exec_fails C.ENOENT)) (proc0 makeflags)
      = (Halt (Exited C.EX_OSERR) k1 p1, Some (Halt (Exited C.EX_OK) k2 p2)) /\
    js_avail (js k2) = 13.
Proof.
  destruct (C3_exec_failure_tokens_still_returned argv_ok 0 2
              (kernel0 13 [] room2 [] (exec_fails C.ENOENT)) (proc0 makeflags)
              " -j --jobserver-auth=3,4" 3 4 C.ENOENT
              (File KJobR C.O_RDONLY false) (File KJobW C.O_WRONLY false))
    as (k1 & p1 & k2 & p2 & cmd & args & H & _ & _ & _ & _ & Hav).
  - vm_compute; reflexivity.
  - vm_compute; reflexivity.
  - vm_compute; reflexivity.
  - vm_compute; reflexivity.
  - reflexivity.
  - vm_compute; discriminate.
  - vm_compute; reflexivity.
  - reflexivity.
  - vm_compute; reflexivity.
  - reflexivity.
  - reflexivity.
  - reflexivity.
  - reflexivity.
  - reflexivity.
  - vm_compute; reflexivity.
  - repeat constructor.
  - vm_compute; discriminate.
  - exists k1, p1, k2, p2. split; [exact H | exact Hav].
Defined.

Lemma C4_witness :
  exists r w k1 p1,
    create_child 13 (kernel0 0 [] [] [] no_faults) (proc34 C.O_RDONLY)
      = Val (C.to_int 13) k1 p1 /\
    fds p1 !! r = None /\ fds p1 !! w = Some (File KAuxW C.O_WRONLY false).
Proof.
  destruct (C4_parent_keeps_write_end_child_keeps_read_end 13
              (kernel0 0 [] [] [] no_faults) (proc34 C.O_RDONLY))
    as (r & w & k1 & p1 & c & H & _ & _ & _ & _ & Hr & Hw & _); [reflexivity..|].
  exists r, w, k1, p1. split; [exact H|]. split; [exact Hr | exact Hw].
Defined.

Lemma C6_witness :
  exists pre suf,
    rewrite argv_ok (2, 2)%nat 13 (kernel0 0 [] [] [] no_faults) (proc0 makeflags) =
      Val (<[2%nat := pre +:+ "14" +:+ suf]> argv_ok)
          (kernel0 0 [] [] [] no_faults) (proc0 makeflags) /\
    "-j###" = pre +:+ "###" +:+ suf.
Proof.
  destruct (C6_placeholder_rewritten_in_place argv_ok 0 2 13
              (kernel0 0 [] [] [] no_faults) (proc0 makeflags))
    as (arg & pre & suf & Harg & E & _ & _ & _ & _ & Hrw & _);
    [reflexivity | lia | exact nul_free_fixture |].
  exists pre, suf. split; [exact Hrw|]. injection Harg as <-. exact E.
Defined.

Lemma C7_witness :
  exists msg k' p',
    main ["jobhog"; "make"; "-j4"] (kernel0 13 [] [] [] no_faults) (proc0 makeflags)
      = Halt (Exited C.EX_USAGE) k' p' /\
    trace k' = usage_trace Main msg /\ js_avail (js k') = 13.
Proof.
  destruct (C7_usage_error_has_no_side_effect ["jobhog"; "make"; "-j4"]
              (kernel0 13 [] [] [] no_faults) (proc0 makeflags))
    as (msg & k' & p' & H & Htr & Hjs & _).
  - right. intros a pre suf Ha. apply list_elem_of_singleton in Ha as ->.
    apply strstr_None. reflexivity.
  - exists msg, k', p'. split; [exact H|]. split; [exact Htr|]. rewrite Hjs. reflexivity.
Defined.

Lemma C8_witness :
  exists p1 pre suf,
    "-j###" = pre +:+ "###" +:+ suf /\
    get_tokens (kernel0 13 [] [] [] no_faults)
               (proc0 {["MAKEFLAGS" := "--jobserver-auth=abc"]})
      = Val 0 (kernel0 13 [] [] [] no_faults) p1 /\
    main argv_ok (kernel0 13 [] [] [] no_faults)
                 (proc0 {["MAKEFLAGS" := "--jobserver-auth=abc"]})
      = launch (<[2%nat := pre +:+ "1" +:+ suf]> argv_ok)
               (kernel0 13 [] [] [] no_faults) p1.
Proof.
  destruct (C8_no_channel_means_one_job argv_ok 0 2 (kernel0 13 [] [] [] no_faults)
              (proc0 {["MAKEFLAGS" := "--jobserver-auth=abc"]}))
    as (p1 & pre & suf & r & tr & Hg & Harg & Hlen & Hm & _);
    [reflexivity | exact nul_free_fixture | |].
  - right. right. exists "--jobserver-auth=abc", 0%nat, 16%nat.
    split; [reflexivity|]. split; [reflexivity|]. split; [reflexivity|].
    vm_compute. discriminate.
  - exists p1, pre, suf. split; [|split; [exact Hg | exact Hm]].
    injection Harg as <-. reflexivity.
Defined.

Lemma C9_witness :
  exists k' p',
    create_child 13 (kernel0 0 [] room2 [] (Plan None (Some 24) None None 1000))
                 (proc34 C.O_RDONLY) = Val 0 k' p' /\
    js_avail (js k') = 0 + 13.
Proof.
  destruct (C9_fallback_returns_tokens_at_once 13 24
              (kernel0 0 [] room2 [] (Plan None (Some 24) None None 1000))
              (proc34 C.O_RDONLY) (File KJobW C.O_WRONLY false))
    as (k' & p' & pf & writes & H & _ & _ & _ & _ & Hav & _).
  - lia.
  - left. reflexivity.
  - reflexivity.
  - reflexivity.
  - repeat constructor.
  - vm_compute. discriminate.
  - exists k', p'. split; [exact H | exact Hav].
Defined.

(** * Further properties *)

(** ** Reading the advertisement *)

Lemma digit_chr (d : Z) :
  0 <= d < 10 ->
  Libc.isdigit (Libc.chr (48 + d)) = true /\ Libc.code (Libc.chr (48 + d)) = 48 + d.
Proof.
  intros H.
  assert (d = 0 \/ d = 1 \/ d = 2 \/ d = 3 \/ d = 4 \/ d = 5 \/ d = 6 \/ d = 7 \/
          d = 8 \/ d = 9) as Hc by lia.
  repeat destruct Hc as [-> | Hc]; try rewrite Hc; by split.
Qed.

Lemma utoa_aux_digits (fuel : nat) : forall x acc,
  0 <= x < 10 ^ Z.of_nat fuel ->
  exists ds, Libc.utoa_aux fuel x acc = (ds ++ acc)%list /\
             Forall (fun c => Libc.isdigit c = true) ds /\
             (fuel = O \/ ds <> []) /\
             forall a, digits_value ds a = a * 10 ^ Z.of_nat (length ds) + x.
Proof.
  induction fuel as [|fuel IH]; intros x acc Hx.
  - exists []. simpl in *. repeat split; [constructor | by left | intros; cbn; lia].
  - cbn [Libc.utoa_aux].
    assert (0 <= x mod 10 < 10) as Hm by (apply Z.mod_pos_bound; lia).
    destruct (digit_chr _ Hm) as [Hd Hc].
    destruct (Z.eqb_spec (x / 10) 0) as [E|E].
    + exists [Libc.chr (48 + x mod 10)]. split; [done|]. split; [by repeat constructor|].
      split; [by right|]. intros a. cbn. rewrite Hc.
      Z.div_mod_to_equations. lia.
    + destruct (IH (x / 10) (Libc.chr (48 + x mod 10) :: acc)) as (ds & -> & Hall & _ & Hv).
      { rewrite Nat2Z.inj_succ, Z.pow_succ_r in Hx by lia.
        Z.div_mod_to_equations. lia. }
      exists (ds ++ [Libc.chr (48 + x mod 10)])%list.
      split; [by rewrite <- app_assoc|]. split; [|split].
      * apply Forall_app. split; [done|by repeat constructor].
      * right. by destruct ds.
      * intros a. unfold digits_value in *. rewrite foldl_app, Hv. cbn.
        rewrite Hc, length_app, Nat2Z.inj_add, Z.pow_add_r by lia. cbn [length].
        change (Z.of_nat 1) with 1. rewrite Z.pow_1_r.
        Z.div_mod_to_equations. lia.
Qed.

Lemma scan_digits_app (ds : list ascii) : forall rest a,
  Forall (fun c => Libc.isdigit c = true) ds -> ends_number rest ->
  Libc.scan_digits (string_of_list_ascii ds +:+ rest) a = (digits_value ds a, rest).
Proof.
  induction ds as [|c ds IH]; intros rest a Hd Hr.
  - change (string_of_list_ascii [] +:+ rest) with rest.
    destruct rest as [|c r]; [done|].
    cbn [Libc.scan_digits]. unfold ends_number in Hr. by rewrite Hr.
  - inversion Hd as [|? ? Hc Hds]; subst.
    change (string_of_list_ascii (c :: ds) +:+ rest)
      with (String c (string_of_list_ascii ds +:+ rest)).
    cbn [Libc.scan_digits]. rewrite Hc. by apply IH.
Qed.

Lemma decimal_scan (x : Z) (rest : string) :
  0 <= x < 2 ^ 31 -> ends_number rest ->
  exists c s, decimal x +:+ rest = String c s /\ Libc.isdigit c = true /\
              Libc.scan_digits (decimal x +:+ rest) 0 = (x, rest).
Proof.
  intros Hx Hr. unfold decimal, Libc.utoa.
  destruct (utoa_aux_digits 10 x []) as (ds & -> & Hall & Hne & Hv); [simpl; lia|].
  rewrite app_nil_r, scan_digits_app, Hv by done.
  destruct ds as [|c ds]; [by destruct Hne|].
  inversion Hall; subst. eexists c, _. split; [done|]. split; [done|]. f_equal; lia.
Qed.

Lemma scan_d_decimal (x : Z) (rest : string) :
  0 <= x < 2 ^ 31 -> ends_number rest ->
  Libc.scan_d (decimal x +:+ rest) = Libc.Conv x rest.
Proof.
  intros Hx Hr. destruct (decimal_scan x rest Hx Hr) as (c & s & E & Hc & Hs).
  rewrite E in *. unfold Libc.scan_d.
  assert (Libc.isspace c = false /\ Ascii.eqb c "-" = false /\ Ascii.eqb c "+" = false)
    as (Hsp & Hm & Hp).
  { unfold Libc.isdigit in Hc. unfold Libc.isspace.
    repeat split.
    - lia.
    - destruct (Ascii.eqb_spec c "-") as [->|]; [discriminate|done].
    - destruct (Ascii.eqb_spec c "+") as [->|]; [discriminate|done]. }
  cbn [Libc.skip_space]. rewrite Hsp, Hm, Hp, Hc, Hs.
  unfold C.clamp_long. rewrite Z.min_r, Z.max_r by lia.
  by rewrite to_int_small by lia.
Qed.

Lemma sscanf_pair (r w : Z) (rest : string) :
  0 <= r < 2 ^ 31 -> 0 <= w < 2 ^ 31 -> ends_number rest ->
  Libc.sscanf_eq_d_comma_d ("=" +:+ decimal r +:+ "," +:+ decimal w +:+ rest) =
    (2, Some r, Some w).
Proof.
  intros Hr Hw He.
  change ("=" +:+ decimal r +:+ "," +:+ decimal w +:+ rest)
    with (String "=" (decimal r +:+ String "," (decimal w +:+ rest))).
  unfold Libc.sscanf_eq_d_comma_d.
  change (Libc.scan_lit "=" (String "=" ?s)) with (Some s). cbv iota beta.
  rewrite scan_d_decimal by done.
  change (Libc.scan_lit "," (String "," ?s)) with (Some s). cbv iota beta.
  by rewrite scan_d_decimal.
Qed.

Lemma str_drop_add (a b : nat) (s : string) :
  Libc.str_drop (a + b) s = Libc.str_drop b (Libc.str_drop a s).
Proof.
  revert s. induction a as [|a IH]; intros s; [done|].
  destruct s as [|c s]; simpl; [by destruct b | apply IH].
Qed.

Lemma option_text (env name tail : string) (o : nat) :
  Libc.strstr env name = Some o ->
  Libc.str_drop (o + String.length name) env = tail ->
  Libc.str_drop o env = name +:+ tail.
Proof.
  intros Hs <-. destruct (strstr_prefix _ _ _ Hs) as [suf E].
  by rewrite str_drop_add, E, str_drop_app.
Qed.

(** X1. The first [--jobserver-auth=R,W] of MAKEFLAGS is the one
    [parse_env] reads, whatever else the value holds, a
    [--jobserver-fds=] option before it included: with R and W two
    non-negative decimal numbers that fit an [int], the second not
    followed by a digit, [parse_env] returns 0 with [rfd = R] and
    [wfd = W], and changes nothing else. *)
Theorem X1_auth_option_is_preferred
  (env tail : string) (o : nat) (r w : Z) (k : kernel) (p : proc) :
  environ p !! "MAKEFLAGS" = Some env ->
  Libc.strstr env "--jobserver-auth=" = Some o ->
  Libc.str_drop (o + String.length "--jobserver-auth=") env =
    decimal r +:+ "," +:+ decimal w +:+ tail ->
  0 <= r < 2 ^ 31 -> 0 <= w < 2 ^ 31 -> ends_number tail ->
  parse_env k p = Val 0 k (set_wfd w (set_rfd r p)).
Proof.
  intros He Hs Ht Hr Hw Hn. unfold parse_env, getenv. rewrite bind_eq, He.
  unfold first_jobserver_option. rewrite Hs, (option_text _ _ _ _ Hs Ht).
  change (Libc.strchr ("--jobserver-auth=" +:+ ?s) "=") with (Some 16%nat).
  cbv iota beta.
  change (Libc.str_drop 16 ("--jobserver-auth=" +:+ ?s)) with ("=" +:+ s).
  by rewrite sscanf_pair.
Qed.

(** X2. Only when MAKEFLAGS holds no [--jobserver-auth=] is the first
    [--jobserver-fds=R,W] read, in the same way. *)
Theorem X2_fds_option_is_the_fallback
  (env tail : string) (o : nat) (r w : Z) (k : kernel) (p : proc) :
  environ p !! "MAKEFLAGS" = Some env ->
  Libc.strstr env "--jobserver-auth=" = None ->
  Libc.strstr env "--jobserver-fds=" = Some o ->
  Libc.str_drop (o + String.length "--jobserver-fds=") env =
    decimal r +:+ "," +:+ decimal w +:+ tail ->
  0 <= r < 2 ^ 31 -> 0 <= w < 2 ^ 31 -> ends_number tail ->
  parse_env k p = Val 0 k (set_wfd w (set_rfd r p)).
Proof.
  intros He Hno Hs Ht Hr Hw Hn. unfold parse_env, getenv. rewrite bind_eq, He.
  unfold first_jobserver_option. rewrite Hno, Hs, (option_text _ _ _ _ Hs Ht).
  change (Libc.strchr ("--jobserver-fds=" +:+ ?s) "=") with (Some 15%nat).
  cbv iota beta.
  change (Libc.str_drop 15 ("--jobserver-fds=" +:+ ?s)) with ("=" +:+ s).
  by rewrite sscanf_pair.
Qed.

(** ** [put_tokens], whatever the pipe does *)

Lemma sys_write_cases fd c k p :
  0 < c ->
  match sys_write fd c k p with
  | Val r k' p' =>
      same_aux k k' /\ proc_frame p p' /\
      ((0 <= r <= c /\
        trace k' = (trace k ++ [(pid p, EvWrite fd c (Ret r))])%list /\
        js_avail (js k) <= js_avail (js k') <= js_avail (js k) + r) \/
       (r = -1 /\
        trace k' = (trace k ++ [(pid p, EvWrite fd c (Err (errno p')))])%list /\
        js_avail (js k') = js_avail (js k)))
  | Halt h k' p' =>
      h = Blocked /\ same_aux k k' /\ p' = p /\ js k' = js k /\
      trace k' = (trace k ++ [(pid p, EvWrite fd c Block)])%list
  end.
Proof.
  intros Hc. unfold sys_write.
  assert (forall e, match deliver (EvWrite fd c) (Err e) k p with
    | Val r k' p' =>
      same_aux k k' /\ proc_frame p p' /\
      ((0 <= r <= c /\
        trace k' = (trace k ++ [(pid p, EvWrite fd c (Ret r))])%list /\
        js_avail (js k) <= js_avail (js k') <= js_avail (js k) + r) \/
       (r = -1 /\
        trace k' = (trace k ++ [(pid p, EvWrite fd c (Err (errno p')))])%list /\
        js_avail (js k') = js_avail (js k)))
    | Halt h k' p' =>
      h = Blocked /\ same_aux k k' /\ p' = p /\ js k' = js k /\
      trace k' = (trace k ++ [(pid p, EvWrite fd c Block)])%list
    end) as Hbad.
  { intros e. cbn. split; [done|]. split; [done|]. right. done. }
  destruct (fds p !! fd) as [f|]; [|apply Hbad].
  destruct (f_kind f); try apply Hbad.
  - unfold js_write. destruct (js_room (js k)) as [|[n|e] rest]; cbn.
    + done.
    + split; [done|]. split; [done|]. left. repeat split; try done; lia.
    + split; [done|]. split; [done|]. by right.
  - cbn. split; [done|]. split; [done|]. left. repeat split; try done; lia.
Qed.

Lemma put_tokens_loop_bound fuel : forall tokens k p,
  0 <= tokens < 2 ^ 32 ->
  let r := put_tokens_loop fuel tokens k p in
  exists tr,
    trace (res_kernel r) = (trace k ++ tr)%list /\
    writes_of (pid p) (wfd p) tr /\
    0 <= written (pid p) (wfd p) tr <= tokens /\
    js_avail (js k) <= js_avail (js (res_kernel r))
      <= js_avail (js k) + written (pid p) (wfd p) tr /\
    same_aux k (res_kernel r) /\ proc_frame p (res_proc r) /\
    (res_value r = Some tt ->
     written (pid p) (wfd p) tr = tokens \/ hard_stop (pid p) (wfd p) tr) /\
    (forall h, res_halt r = Some h -> h = Blocked \/ h = Diverged).
Proof.
  induction fuel as [|fuel IH]; intros tokens k p Ht; cbv zeta;
    rewrite put_tokens_loop_eq; destruct (Z.eqb_spec tokens 0) as [->|Hne].
  1, 2, 3: exists []; cbn; rewrite app_nil_r; repeat split;
           try (intros h [= <-]; by right); try done; try lia;
           try (by constructor); try (by left).
  cbv zeta.
  assert (C.to_int (if 8 <? tokens then 8 else tokens) = Z.min 8 tokens) as ->.
  { destruct (8 <? tokens) eqn:E; rewrite to_int_small; lia. }
  rewrite bind_eq. cbn [get_proc]. rewrite bind_eq.
  set (c := Z.min 8 tokens).
  pose proof (sys_write_cases (wfd p) c k p ltac:(lia)) as Hw.
  destruct (sys_write (wfd p) c k p) as [r k1 p1|h k1 p1].
  2:{ destruct Hw as (-> & Ha & -> & Hjs & Htr). cbn [res_kernel res_proc res_value].
      exists [(pid p, EvWrite (wfd p) c Block)]. rewrite Hjs.
      repeat split; try done; try apply Ha; cbn; try lia.
      - constructor; [|done]. eexists _, _. split; [done|lia].
      - intros h [= <-]. by left. }
  destruct Hw as (Ha & Hpf & [(Hr & Htr & Hav)|(-> & Htr & Hav)]).
  - assert ((r <? 0) = false) as -> by lia.
    rewrite to_uint_small by lia.
    destruct (IH (tokens - r) k1 p1 ltac:(lia)) as (tr & Htr' & Hws & Hsum & Hav' & Ha' & Hpf' & Hend & Hh).
    destruct Hpf as (Hpid & Henv & Hfds & Hrfd & Hwfd). rewrite Hpid, Hwfd in *.
    exists ((pid p, EvWrite (wfd p) c (Ret r)) :: tr).
    rewrite Htr', Htr, <- app_assoc.
    cbn [written]. rewrite bool_decide_eq_true_2, Z.eqb_refl by done. cbn [andb].
    split; [done|]. split; [constructor; [eexists _, _; split; [done|lia]|done]|].
    split; [lia|]. split; [lia|]. split; [|split; [|split; [|exact Hh]]].
    + destruct Ha as (?&?&?), Ha' as (?&?&?). repeat split; congruence.
    + eapply proc_frame_trans; [|exact Hpf']. by repeat split.
    + intros Hv. destruct (Hend Hv) as [E|(tr' & c' & e & -> & He)]; [left; lia|].
      right. exists ((pid p, EvWrite (wfd p) c (Ret r)) :: tr'), c', e. by split.
  - assert ((-1 <? 0) = true) as -> by done.
    rewrite bind_eq. cbn [get_proc].
    destruct Hpf as (Hpid & Henv & Hfds & Hrfd & Hwfd).
    destruct ((errno p1 =? C.EAGAIN) || (errno p1 =? C.EINTR)) eqn:Ee.
    + destruct (IH tokens k1 p1 Ht) as (tr & Htr' & Hws & Hsum & Hav' & Ha' & Hpf' & Hend & Hh).
      rewrite Hpid, Hwfd in *.
      exists ((pid p, EvWrite (wfd p) c (Err (errno p1))) :: tr).
      rewrite Htr', Htr, <- app_assoc. cbn [written].
      split; [done|]. split; [constructor; [eexists _, _; split; [done|lia]|done]|].
      split; [lia|]. split; [lia|]. split; [|split; [|split; [|exact Hh]]].
      * destruct Ha as (?&?&?), Ha' as (?&?&?). repeat split; congruence.
      * eapply proc_frame_trans; [|exact Hpf']. by repeat split.
      * intros Hv. destruct (Hend Hv) as [E|(tr' & c' & e & -> & He)]; [by left|].
        right. exists ((pid p, EvWrite (wfd p) c (Err (errno p1))) :: tr'), c', e.
        by split.
    + exists [(pid p, EvWrite (wfd p) c (Err (errno p1)))]. cbn.
      rewrite Htr. split; [done|].
      split; [constructor; [eexists _, _; split; [done|lia]|done]|].
      split; [lia|]. split; [lia|]. split; [done|]. split; [by repeat split|].
      split; [|discriminate].
      intros _. right. exists [], c, (errno p1). split; [done|].
      apply orb_false_iff in Ee as [E1 E2]. split; lia.
Qed.


Lemma put_tokens_loop_hard (e : Z) (rest : list wr_ev) (pre : list wr_ev) :
  forall fuel tokens k p fw,
  js_room (js k) = (pre ++ WrFault e :: rest)%list -> Forall soft pre ->
  e <> C.EAGAIN -> e <> C.EINTR ->
  room_for pre < tokens < 2 ^ 32 ->
  (length pre < fuel)%nat ->
  fds p !! wfd p = Some fw -> f_kind fw = KJobW ->
  exists k' p' tr,
    put_tokens_loop fuel tokens k p = Val tt k' p' /\
    kernel_frame k k'
      (tr ++ [(pid p, EvWrite (wfd p) (Z.min 8 (tokens - room_for pre)) (Err e))]) /\
    writes_of (pid p) (wfd p) tr /\ written (pid p) (wfd p) tr = room_for pre /\
    js k' = JsPipe (js_avail (js k) + room_for pre) (js_noise (js k)) rest /\
    errno p' = e /\ proc_frame p p'.
Proof.
  induction pre as [|ev pre IH]; intros fuel tokens k p fw Hr Hs He1 He2 Ht Hf Hfd Hk.
  all: rewrite put_tokens_loop_eq.
  all: match type of Ht with room_for ?l < _ < _ =>
         pose proof (room_for_nonneg l) as Hnn0 end.
  all: assert ((tokens =? 0) = false) as -> by lia.
  all: destruct fuel as [|fuel]; [simpl in Hf; lia|]; cbv zeta.
  all: assert (C.to_int (if 8 <? tokens then 8 else tokens) = Z.min 8 tokens) as ->
         by (destruct (8 <? tokens) eqn:E; rewrite to_int_small; lia).
  all: rewrite bind_eq; cbn [get_proc]; rewrite bind_eq;
       rewrite (sys_write_job _ fw) by done; unfold js_write; rewrite Hr.
  - cbn [app fst snd deliver]. assert ((-1 <? 0) = true) as -> by done.
    rewrite bind_eq. cbn [get_proc set_errno errno].
    assert ((e =? C.EAGAIN) || (e =? C.EINTR) = false) as ->.
    { apply orb_false_iff. split; lia. }
    eexists _, _, []. split; [reflexivity|]. cbn [room_for].
    rewrite Z.sub_0_r, Z.add_0_r. repeat split. constructor.
  - inversion Hs as [|? ? Hev Hrest]; subst. cbn [app].
    pose proof (room_for_nonneg pre) as Hnn.
    destruct ev as [n|e']; cbn [fst snd deliver].
    + set (m := Z.max 0 (Z.min n (Z.min 8 tokens))).
      cbn [room_for] in Ht.
      assert (m = Z.max 0 (Z.min n 8)) as Hm by (subst m; lia).
      assert ((m <? 0) = false) as -> by lia.
      rewrite to_uint_small by lia.
      set (k1 := add_event _ _).
      destruct (IH fuel (tokens - m) k1 p fw eq_refl Hrest He1 He2
                  ltac:(lia) ltac:(simpl in Hf; lia) Hfd Hk)
        as (k' & p' & tr & E & Hkf & Hw & Hsum & Hjs & Herr & Hpf).
      exists k', p', ((pid p, EvWrite (wfd p) (Z.min 8 tokens) (Ret m)) :: tr).
      rewrite E. split; [done|]. split; [|split; [|split; [|split; [|done]]]].
      * destruct Hkf as (?&?&?&Etr). repeat split; try done.
        rewrite Etr. subst k1. cbn [trace add_event set_js room_for].
        rewrite <- !app_assoc. cbn [app].
        by replace (tokens - (Z.max 0 (Z.min n 8) + room_for pre))
          with (tokens - m - room_for pre) by lia.
      * constructor; [|done]. eexists _, _. split; [done|lia].
      * cbn [written room_for]. rewrite bool_decide_eq_true_2, Z.eqb_refl by done.
        cbn [andb]. lia.
      * rewrite Hjs. subst k1. cbn. f_equal. lia.
    + assert ((-1 <? 0) = true) as -> by done.
      rewrite bind_eq. cbn [get_proc set_errno errno].
      assert ((e' =? C.EAGAIN) || (e' =? C.EINTR) = true) as ->.
      { destruct Hev as [-> | ->]; done. }
      set (k1 := add_event _ _). set (p1 := set_errno e' p).
      cbn [room_for] in Ht |- *.
      destruct (IH fuel tokens k1 p1 fw eq_refl Hrest He1 He2 Ht
                  ltac:(simpl in Hf; lia) Hfd Hk)
        as (k' & p' & tr & E & Hkf & Hw & Hsum & Hjs & Herr & Hpf).
      exists k', p', ((pid p, EvWrite (wfd p) (Z.min 8 tokens) (Err e')) :: tr).
      rewrite E. split; [done|]. split; [|split; [|split; [|split; [|split; [done|]]]]].
      * destruct Hkf as (?&?&?&Etr). repeat split; try done.
        rewrite Etr. subst k1. cbn. by rewrite <- !app_assoc.
      * constructor; [|done]. eexists _, _. split; [done|lia].
      * done.
      * rewrite Hjs. by subst k1.
      * eapply proc_frame_trans; [|exact Hpf]. apply proc_frame_errno.
Qed.

(** X10. A hard error ends [put_tokens]: when the pipe takes
    [room_for pre] bytes, with EAGAIN and EINTR in between, and then a
    [write] fails with another error, [put_tokens] returns after that
    [write]; the tokens not yet written are never written, and what the
    pipe would have taken afterwards is left unused. *)
Theorem X10_put_tokens_gives_up_on_a_hard_error
  (tokens e : Z) (pre rest : list wr_ev) (k : kernel) (p : proc) (fw : file) :
  fds p !! wfd p = Some fw -> f_kind fw = KJobW ->
  js_room (js k) = (pre ++ WrFault e :: rest)%list -> Forall soft pre ->
  e <> C.EAGAIN -> e <> C.EINTR ->
  room_for pre < tokens < 2 ^ 32 ->
  exists k' p' tr,
    put_tokens tokens k p = Val tt k' p' /\
    trace k' = (trace k ++ tr ++
      [(pid p, EvWrite (wfd p) (Z.min 8 (tokens - room_for pre)) (Err e))])%list /\
    writes_of (pid p) (wfd p) tr /\
    written (pid p) (wfd p) tr = room_for pre /\
    js_avail (js k') = js_avail (js k) + room_for pre /\
    js_avail (js k') < js_avail (js k) + tokens /\
    js_room (js k') = rest /\ errno p' = e.
Proof.
  intros Hfd Hk Hr Hs He1 He2 Ht. unfold put_tokens.
  destruct (put_tokens_loop_hard e rest pre
              (S (length (js_room (js k)) + Z.to_nat tokens)) tokens k p fw)
    as (k' & p' & tr & E & Hkf & Hw & Hsum & Hjs & Herr & _); try done.
  { rewrite Hr, length_app. lia. }
  exists k', p', tr. rewrite E, Hjs. cbn. repeat split; try done; [apply Hkf | lia].
Qed.

(** ** The loop of [get_tokens], whatever the kernel answers *)

Lemma sys_read_cases fd c k p :
  0 < c ->
  match sys_read fd c k p with
  | Val r k' p' =>
      faults k' = faults k /\ spawned k' = spawned k /\ proc_frame p p' /\
      ((0 <= r <= c /\ trace k' = (trace k ++ [(pid p, EvRead fd c (Ret r))])%list) \/
       (r = -1 /\ trace k' = (trace k ++ [(pid p, EvRead fd c (Err (errno p')))])%list))
  | Halt h k' p' =>
      h = Blocked /\ faults k' = faults k /\ spawned k' = spawned k /\ p' = p /\
      trace k' = (trace k ++ [(pid p, EvRead fd c Block)])%list
  end.
Proof.
  intros Hc. unfold sys_read.
  destruct (fds p !! fd) as [f|]; [destruct (f_kind f)|]; cbn.
  all: try (repeat split; try done; by right).
  - destruct (js_read _ _ _) as [[n|e|] j] eqn:E; cbn.
    + apply js_read_bound in E; [|lia]. repeat split; try done. by left.
    + repeat split; try done. by right.
    + done.
  - unfold aux_read. destruct (aux_wait _ _ _ _) as [[n|e|] a] eqn:E; cbn.
    + apply aux_wait_bound in E; [|lia]. repeat split; try done. by left.
    + repeat split; try done. by right.
    + done.
  - repeat split; try done. left. split; [lia|done].
Qed.

Lemma drain_shape fuel fd : forall tokens k p,
  0 <= tokens <= 507 -> 500 - tokens <= Z.of_nat fuel ->
  let r := drain fuel fd tokens k p in
  exists tr,
    trace (res_kernel r) = (trace k ++ tr)%list /\
    reads_of (pid p) fd 8 tr /\
    faults (res_kernel r) = faults k /\ spawned (res_kernel r) = spawned k /\
    proc_frame p (res_proc r) /\
    (forall h, res_halt r = Some h -> h = Blocked) /\
    (forall t, res_value r = Some t ->
               t = tokens + read_total (pid p) tr /\ t <= 507 /\ no_blocked_read tr).
Proof.
  induction fuel as [|fuel IH]; intros tokens k p Ht Hf; cbv zeta;
    rewrite drain_eq; destruct (tokens <? 500) eqn:E.
  1: lia.
  1, 3: exists []; cbn; rewrite app_nil_r; split; [done|]; split; [constructor|];
        split; [done|]; split; [done|]; split; [done|]; split; [done|];
        intros t [= <-]; split; [lia|]; split; [lia|constructor].
  rewrite bind_eq. pose proof (sys_read_cases fd 8 k p ltac:(lia)) as Hr.
  destruct (sys_read fd 8 k p) as [r k1 p1|h k1 p1].
  2:{ destruct Hr as (-> & Hfa & Hsp & -> & Htr). cbn.
      exists [(pid p, EvRead fd 8 Block)]. split; [done|].
      split; [constructor; [by eexists|done]|].
      split; [done|]. split; [done|]. split; [done|].
      split; [by intros h [= <-]|]. discriminate. }
  destruct Hr as (Hfa & Hsp & Hpf & [(Hr & Htr)|(-> & Htr)]).
  - destruct (Z.leb_spec r 0) as [H0|H0].
    + assert (r = 0) as -> by lia. cbn.
      exists [(pid p, EvRead fd 8 (Ret 0))]. split; [done|].
      split; [constructor; [by eexists|done]|].
      split; [done|]. split; [done|]. split; [done|]. split; [discriminate|].
      intros t [= <-]. cbn. rewrite bool_decide_eq_true_2 by done.
      split; [lia|]. split; [lia|]. by repeat constructor.
    + rewrite to_uint_small by lia.
      destruct (IH (tokens + r) k1 p1 ltac:(lia) ltac:(lia))
        as (tr & Htr' & Hrd & Hfa' & Hsp' & Hpf' & Hh & Hv).
      destruct Hpf as (Hpid & Hrest). rewrite Hpid in *.
      exists ((pid p, EvRead fd 8 (Ret r)) :: tr).
      rewrite Htr', Htr, <- app_assoc. split; [done|].
      split; [constructor; [by eexists|done]|].
      split; [congruence|]. split; [congruence|].
      split; [eapply proc_frame_trans; [|exact Hpf']; by split|].
      split; [exact Hh|]. intros t Hrv. destruct (Hv t Hrv) as (-> & Hle & Hnb).
      cbn [read_total]. rewrite bool_decide_eq_true_2 by done.
      split; [lia|]. split; [done|]. by constructor.
  - cbn. exists [(pid p, EvRead fd 8 (Err (errno p1)))]. split; [done|].
    split; [constructor; [by eexists|done]|].
    split; [done|]. split; [done|]. split; [done|]. split; [discriminate|].
    intros t [= <-]. cbn. split; [lia|]. split; [lia|]. by repeat constructor.
Qed.

Lemma sys_read_nonblocking fd f c k p :
  fds p !! fd = Some f -> f_kind f = KJobR -> nonblocking f = true ->
  exists r k' p', sys_read fd c k p = Val r k' p' /\ aux k' = aux k.
Proof.
  intros Hfd Hk Hnb. unfold sys_read, js_read. rewrite Hfd, Hk, Hnb.
  destruct (js_noise (js k)) as [|[d|e|] rest]; cbn.
  1, 2: destruct (0 <? _); cbn; by eexists _, _, _.
  all: by eexists _, _, _.
Qed.

Lemma drain_never_blocks fuel fd f : forall tokens k p,
  fds p !! fd = Some f -> f_kind f = KJobR -> nonblocking f = true ->
  0 <= tokens <= 507 -> 500 - tokens <= Z.of_nat fuel ->
  exists t k' p', drain fuel fd tokens k p = Val t k' p' /\ aux k' = aux k.
Proof.
  induction fuel as [|fuel IH]; intros tokens k p Hfd Hk Hnb Ht Hf;
    rewrite drain_eq; destruct (tokens <? 500) eqn:E; [lia | by eexists _, _, _ | |
    by eexists _, _, _].
  rewrite bind_eq.
  destruct (sys_read_nonblocking fd f 8 k p Hfd Hk Hnb) as (r & k1 & p1 & Er & Ha).
  pose proof (sys_read_cases fd 8 k p ltac:(lia)) as Hc. rewrite Er in *.
  destruct Hc as (_ & _ & Hpf & Hc).
  destruct (r <=? 0) eqn:E0; [by eexists _, _, _|].
  rewrite to_uint_small by lia.
  destruct (IH (tokens + r) k1 p1) as (t & k' & p' & -> & Ha'); try done; try lia.
  { destruct Hpf as (_ & _ & -> & _). done. }
  eexists _, _, _. split; [done|congruence].
Qed.

Lemma put_tokens_bound (tokens : Z) (k : kernel) (p : proc) :
  0 <= tokens < 2 ^ 32 ->
  let r := put_tokens tokens k p in
  exists tr,
    trace (res_kernel r) = (trace k ++ tr)%list /\
    writes_of (pid p) (wfd p) tr /\
    0 <= written (pid p) (wfd p) tr <= tokens /\
    js_avail (js k) <= js_avail (js (res_kernel r))
      <= js_avail (js k) + written (pid p) (wfd p) tr /\
    same_aux k (res_kernel r) /\ proc_frame p (res_proc r) /\
    (res_value r = Some tt ->
     written (pid p) (wfd p) tr = tokens \/ hard_stop (pid p) (wfd p) tr) /\
    (forall h, res_halt r = Some h -> h = Blocked).
Proof.
  intros Ht r. subst r. unfold put_tokens.
  set (fuel := S _).
  destruct (put_tokens_loop_bound fuel tokens k p Ht)
    as (tr & Htr & Hws & Hsum & Hav & Ha & Hpf & Hend & Hh).
  exists tr. split; [done|]. split; [done|]. split; [done|]. split; [done|].
  split; [done|]. split; [done|]. split; [done|].
  intros h E. destruct (Hh h E) as [->| ->]; [done|].
  exfalso. by apply (put_tokens_ends tokens k p Ht).
Qed.

Lemma then_ret {A B} (m : M A) (b : B) k p :
  res_kernel ((m ≫= λ _, mret b) k p) = res_kernel (m k p) /\
  res_proc ((m ≫= λ _, mret b) k p) = res_proc (m k p) /\
  res_halt ((m ≫= λ _, mret b) k p) = res_halt (m k p) /\
  res_value ((m ≫= λ _, mret b) k p) = (λ _, b) <$> res_value (m k p).
Proof. rewrite bind_eq. by destruct (m k p). Qed.

(** What [create_child] does, whatever the kernel answers: either the
    watcher is forked and holds the tokens, or the tokens are written
    back at once. *)
Lemma create_child_cases tokens k p :
  0 < tokens <= 507 ->
  let r := create_child tokens k p in
  let r0 := alloc_fd (fds p) in
  let t0 := <[r0 := File KAuxR C.O_RDONLY false]> (fds p) in
  let w0 := alloc_fd t0 in
  let t1 := <[w0 := File KAuxW C.O_WRONLY false]> t0 in
  (exists k',
     r = Val tokens k' (set_fds (<[w0 := File KAuxW C.O_WRONLY false]> (fds p)) p) /\
     fail_pipe (faults k) = None /\ fail_fork (faults k) = None /\
     js k' = js k /\ faults k' = faults k /\
     spawned k' = Some (Child (set_pid Watcher (set_fds t1 p)) tokens (r0, w0)) /\
     aux k' = AuxPipe (1 + count_auxw t1) 0 (aux_script (aux k)) /\
     trace k' = (trace k ++ parent_trace (pid p) (r0, w0)
                               (Z.max 1 (child_pid (faults k))))%list) \/
  (exists e pf tr,
     (pf = None /\ fail_pipe (faults k) = Some e \/
      pf = Some (r0, w0) /\ fail_pipe (faults k) = None /\
      fail_fork (faults k) = Some e) /\
     trace (res_kernel r) = (trace k ++ fallback_trace (pid p) e pf ++ tr)%list /\
     writes_of (pid p) (wfd p) tr /\
     0 <= written (pid p) (wfd p) tr <= tokens /\
     js_avail (js k) <= js_avail (js (res_kernel r))
       <= js_avail (js k) + written (pid p) (wfd p) tr /\
     faults (res_kernel r) = faults k /\ spawned (res_kernel r) = spawned k /\
     proc_frame p (res_proc r) /\
     (forall v, res_value r = Some v ->
        v = 0 /\ (written (pid p) (wfd p) tr = tokens \/ hard_stop (pid p) (wfd p) tr)) /\
     (forall h, res_halt r = Some h -> h = Blocked)).
Proof.
  intros Ht r r0 t0 w0 t1. subst r.
  destruct (fail_pipe (faults k)) as [e|] eqn:Hp; [|destruct (fail_fork (faults k)) as [e|] eqn:Hf].
  - right. exists e, None.
    set (k1 := add_event (pid p, EvPipe (0, 0) (Err e)) k). set (p1 := set_errno e p).
    assert (create_child tokens k p = (put_tokens tokens ≫= λ _, mret 0) k1 p1) as ->.
    { unfold create_child. rewrite bind_eq. unfold sys_pipe. rewrite Hp.
      by rewrite bind_eq. }
    destruct (put_tokens_bound tokens k1 p1 ltac:(lia))
      as (tr & Htr & Hws & Hsum & Hav & Ha & Hpf & Hend & Hh).
    exists tr. split; [by left|].
    destruct (then_ret (put_tokens tokens) 0 k1 p1) as (-> & -> & -> & ->).
    rewrite Htr. subst k1. cbn [trace add_event fallback_trace].
    rewrite <- !app_assoc. split; [done|]. split; [done|]. split; [done|].
    split; [done|]. split; [apply Ha|]. split; [apply Ha|].
    split; [eapply proc_frame_trans; [apply (proc_frame_errno e)|exact Hpf]|].
    split; [|exact Hh].
    destruct (res_value (put_tokens tokens _ p1)) as [[]|]; [|discriminate].
    intros v [= <-]. split; [done|by apply Hend].
  - right. exists e, (Some (r0, w0)).
    destruct (pipe_fds_distinct (fds p)) as (Hr & Hw & Hne).
    fold r0 in Hr, Hw, Hne. fold t0 w0 in Hw, Hne.
    set (k1 := add_event (pid p, EvClose w0 (Ret 0))
                 (set_writers O
                    (add_event (pid p, EvClose r0 (Ret 0))
                       (add_event (pid p, EvFork (Err e))
                          (add_event (pid p, EvPipe (r0, w0) (Ret 0))
                             (set_aux (AuxPipe 1 0 (aux_script (aux k))) k)))))).
    set (p1 := set_fds (delete w0 (delete r0 t1)) (set_errno e p)).
    assert (create_child tokens k p = (put_tokens tokens ≫= λ _, mret 0) k1 p1) as ->.
    { unfold create_child. rewrite bind_eq, sys_pipe_ok by done. fold r0 t0 w0 t1.
      cbn [Z.ltb Z.compare]. rewrite bind_eq. unfold sys_fork.
      cbn [faults add_event set_aux]. rewrite Hf. cbn [deliver].
      unfold after_fork. cbn [Z.ltb Z.compare fst snd].
      rewrite bind_eq. erewrite sys_close_open.
      2:{ cbn. subst t1 t0. rewrite lookup_insert_ne by done. apply lookup_insert_eq. }
      rewrite bind_eq. erewrite sys_close_open.
      2:{ cbn. subst t1. rewrite lookup_delete_ne by done. apply lookup_insert_eq. }
      cbn [is_auxw f_kind]. reflexivity. }
    assert (fds p1 = fds p) as Hfds1.
    { subst p1. cbn [fds set_fds set_errno]. subst t1 t0. rewrite delete_insert_ne by done.
      rewrite (delete_insert_eq (fds p) r0), (delete_id (fds p) r0) by done.
      by rewrite delete_insert_eq, delete_id. }
    assert (proc_frame p p1) as Hpf1 by (by repeat split).
    destruct (put_tokens_bound tokens k1 p1 ltac:(lia))
      as (tr & Htr & Hws & Hsum & Hav & Ha & Hpf & Hend & Hh).
    exists tr. split; [by right|].
    destruct (then_ret (put_tokens tokens) 0 k1 p1) as (-> & -> & -> & ->).
    rewrite Htr. subst k1. cbn [trace add_event set_writers set_aux fallback_trace fst snd].
    rewrite <- !app_assoc. split; [done|]. split; [done|]. split; [done|].
    split; [done|]. split; [apply Ha|]. split; [apply Ha|].
    split; [eapply proc_frame_trans; [exact Hpf1|exact Hpf]|].
    split; [|exact Hh].
    destruct (res_value (put_tokens tokens _ p1)) as [[]|]; [|discriminate].
    intros v [= <-]. split; [done|by apply Hend].
  - left. destruct (create_child_parent tokens k p Hp Hf) as (k' & Hc & Hjs & Hfa & Hsp & Ha & Htr).
    exists k'. rewrite to_int_small in Hc by lia. by repeat split.
Qed.

Lemma then_map {A B} (m : M A) (g : A -> B) k p :
  res_kernel ((m ≫= λ a, mret (g a)) k p) = res_kernel (m k p) /\
  res_proc ((m ≫= λ a, mret (g a)) k p) = res_proc (m k p) /\
  res_halt ((m ≫= λ a, mret (g a)) k p) = res_halt (m k p) /\
  res_value ((m ≫= λ a, mret (g a)) k p) = g <$> res_value (m k p).
Proof. rewrite bind_eq. by destruct (m k p). Qed.

Lemma sys_close_cases fd k p :
  exists r sr k' p',
    sys_close fd k p = Val r k' p' /\
    trace k' = (trace k ++ [(pid p, EvClose fd sr)])%list /\
    fds p' = delete fd (fds p) /\
    pid p' = pid p /\ environ p' = environ p /\ rfd p' = rfd p /\ wfd p' = wfd p /\
    js k' = js k /\ faults k' = faults k /\ spawned k' = spawned k.
Proof.
  unfold sys_close. destruct (fds p !! fd) as [f|] eqn:E; cbn.
  - eexists _, _, _, _. split; [reflexivity|]. by destruct (is_auxw f).
  - eexists _, _, _, _. split; [reflexivity|]. cbn. by rewrite delete_id.
Qed.

Lemma no_blocked_reads_of_writes w fd tr : writes_of w fd tr -> no_blocked_read tr.
Proof. intros H. eapply Forall_impl; [exact H|]. by intros e (c & r & -> & _). Qed.

Lemma read_total_writes w w' fd tr : writes_of w' fd tr -> read_total w tr = 0.
Proof.
  induction 1 as [|e tr (c & r & -> & _) _ IH]; simpl; [done|]. exact IH.
Qed.

Lemma written_other_fd w fd tr :
  Forall (fun e => ~ is_write e) tr -> written w fd tr = 0.
Proof.
  induction 1 as [|[w' ev] tr H _ IH]; simpl; [done|].
  destruct ev; try done. destruct r; try done.
  exfalso. apply H. by eexists _, _, _.
Qed.

Lemma reads_no_write w fd c tr : reads_of w fd c tr -> Forall (fun e => ~ is_write e) tr.
Proof.
  intros H. eapply Forall_impl; [exact H|]. by intros e [r ->] (? & ? & ? & [=]).
Qed.

Lemma hard_stop_app w fd pre tr : hard_stop w fd tr -> hard_stop w fd (pre ++ tr).
Proof.
  intros (tr' & c & e & -> & He). exists (pre ++ tr')%list, c, e.
  by rewrite <- app_assoc.
Qed.

(** [get_tokens] from the loop on, whatever the kernel answers. *)
Lemma get_tokens_from_cases fd k p :
  let T := if fd =? rfd p then fds p else delete fd (fds p) in
  let r := get_tokens_from fd k p in
  exists tr,
    trace (res_kernel r) = (trace k ++ tr)%list /\
    pid (res_proc r) = pid p /\ environ (res_proc r) = environ p /\
    rfd (res_proc r) = rfd p /\ wfd (res_proc r) = wfd p /\
    faults (res_kernel r) = faults k /\
    (forall h, res_halt r = Some h -> h = Blocked) /\
    (forall f, fds p !! fd = Some f -> f_kind f = KJobR -> nonblocking f = true ->
               no_blocked_read tr) /\
    (forall t, res_value r = Some t ->
       0 <= t <= 507 /\
       (0 < t ->
        read_total (pid p) tr = t /\ Forall (fun e => ~ is_write e) tr /\
        exists r0 w0,
          T !! r0 = None /\ T !! w0 = None /\ r0 <> w0 /\
          fds (res_proc r) = <[w0 := auxw_file]> T /\
          spawned (res_kernel r) =
            Some (Child (set_pid Watcher
                           (set_fds (<[w0 := auxw_file]> (<[r0 := auxr_file]> T))
                                    (res_proc r)))
                        t (r0, w0))) /\
       (t = 0 ->
        fds (res_proc r) = T /\ spawned (res_kernel r) = spawned k /\
        0 <= written (pid p) (wfd p) tr <= read_total (pid p) tr /\
        (written (pid p) (wfd p) tr = read_total (pid p) tr \/
         hard_stop (pid p) (wfd p) tr))).
Proof.
  intros T r. subst r. unfold get_tokens_from.
  destruct (drain_shape 500 fd 0 k p ltac:(lia) ltac:(lia))
    as (tr1 & Htr1 & Hrd1 & Hfa1 & Hsp1 & Hpf1 & Hh1 & Hv1).
  pose proof (drain_bounded 500 fd 0 k p ltac:(lia) ltac:(lia)) as Hb1.
  rewrite bind_eq.
  destruct (drain 500 fd 0 k p) as [t1 k1 p1|h k1 p1] eqn:Ed; cbn in Htr1, Hfa1, Hsp1, Hpf1.
  2:{ exists tr1. cbn. destruct Hpf1 as (?&?&?&?&?).
      split; [done|]. split; [done|]. split; [done|]. split; [done|]. split; [done|].
      split; [done|]. split; [intros h' [= <-]; by apply Hh1|]. split; [|discriminate].
      intros f Hfd Hk Hnb.
      destruct (drain_never_blocks 500 fd f 0 k p Hfd Hk Hnb ltac:(lia) ltac:(lia))
        as (? & ? & ? & E & _). congruence. }
  destruct (Hv1 t1 eq_refl) as (Ht1 & _ & Hnb1). rewrite Z.add_0_l in Ht1.
  destruct Hpf1 as (Hpid1 & Henv1 & Hfds1 & Hrfd1 & Hwfd1).
  rewrite bind_eq. cbn [get_proc]. rewrite bind_eq. rewrite Hrfd1.
  assert (exists v k2 p2 tr2,
    (if fd =? rfd p then mret 0 else sys_close fd) k1 p1 = Val v k2 p2 /\
    trace k2 = (trace k1 ++ tr2)%list /\
    Forall (fun e => exists x, e = (pid p, EvClose fd x)) tr2 /\
    fds p2 = T /\ pid p2 = pid p /\ environ p2 = environ p /\
    rfd p2 = rfd p /\ wfd p2 = wfd p /\
    js k2 = js k1 /\ faults k2 = faults k1 /\ spawned k2 = spawned k1)
    as (v & k2 & p2 & tr2 & -> & Htr2 & Hcl2 & Hfds2 & Hpid2 & Henv2 & Hrfd2 & Hwfd2 &
        Hjs2 & Hfa2 & Hsp2).
  { subst T. destruct (fd =? rfd p).
    - exists 0, k1, p1, []. rewrite app_nil_r. by repeat split.
    - destruct (sys_close_cases fd k1 p1)
        as (v & sr & k2 & p2 & E & Htr & Hfds & Hpid & Henv & Hrfd & Hwfd & Hrest).
      exists v, k2, p2, [(pid p, EvClose fd sr)]. rewrite E, Htr, Hpid1.
      split; [done|]. split; [done|]. split; [by repeat constructor; eexists|].
      repeat split; try congruence; apply Hrest. }
  assert (Forall (fun e : who * event => ~ is_write e) tr2 /\ no_blocked_read tr2 /\
          read_total (pid p) tr2 = 0) as (Hnw2 & Hnb2 & Hrt2).
  { clear -Hcl2. induction Hcl2 as [|e tr [x ->] _ (? & ? & ?)]; [by repeat constructor|].
    split; [|split]; [constructor; [by intros (? & ? & ? & [=])|done] |
                      by constructor | done]. }
  destruct (Z.eqb_spec t1 0) as [E0|E0].
  - exists (tr1 ++ tr2)%list. cbn. rewrite Htr2, Htr1, <- app_assoc.
    split; [done|]. split; [done|]. split; [done|]. split; [done|]. split; [done|].
    split; [congruence|]. split; [discriminate|].
    split; [intros; by apply Forall_app|].
    intros t [= <-]. split; [lia|]. split; [lia|]. intros _.
    split; [done|]. split; [congruence|].
    rewrite written_other_fd by (apply Forall_app; split; [by eapply reads_no_write|done]).
    rewrite read_total_app. split; [lia|]. left. lia.
  - assert (0 < t1 <= 507) as Hpos by lia.
    pose proof (create_child_cases t1 k2 p2 Hpos) as Hc. cbv zeta in Hc.
    destruct (then_map (create_child t1) C.to_uint k2 p2) as (Ek & Ep & Eh & Ev).
    rewrite Ek, Ep, Eh, Ev. clear Ek Ep Eh Ev.
    rewrite Hfds2, Hpid2, Hwfd2 in Hc.
    destruct Hc as [(k3 & -> & Hfp & Hff & Hjs3 & Hfa3 & Hsp3 & Ha3 & Htr3)|
                    (e & pf & tr3 & Hwhy & Htr3 & Hws3 & Hsum3 & Hav3 & Hfa3 & Hsp3 &
                     Hpf3 & Hv3 & Hh3)].
    + destruct (pipe_fds_distinct T) as (Hr' & Hw' & Hne').
      set (r0 := alloc_fd T) in *.
      set (w0 := alloc_fd (<[r0 := File KAuxR C.O_RDONLY false]> T)) in *.
      exists (tr1 ++ tr2 ++ parent_trace (pid p) (r0, w0)
                               (Z.max 1 (child_pid (faults k2))))%list.
      cbn [res_kernel res_proc res_halt res_value fmap option_fmap option_map].
      rewrite Htr3, Htr2, Htr1, <- !app_assoc.
      split; [done|]. split; [done|]. split; [done|]. split; [done|]. split; [done|].
      split; [congruence|]. split; [discriminate|].
      split; [intros; apply Forall_app; split; [done|];
              apply Forall_app; split; [done|]; by repeat constructor|].
      intros t [= <-]. rewrite to_uint_small by lia.
      split; [lia|]. split; [|lia]. intros _.
      split; [rewrite !read_total_app, Hrt2; cbn; lia|].
      split.
      { apply Forall_app; split; [by eapply reads_no_write|].
        apply Forall_app; split; [done|].
        repeat constructor; by intros (? & ? & ? & [=]). }
      exists r0, w0. split; [done|]. split; [done|]. split; [done|].
      split; [done|]. by rewrite Hsp3.
    + exists (tr1 ++ tr2 ++ fallback_trace (pid p) e pf ++ tr3)%list.
      rewrite Htr3, Htr2, Htr1, <- !app_assoc.
      destruct Hpf3 as (Hpid3 & Henv3 & Hfds3 & Hrfd3 & Hwfd3).
      split; [done|]. split; [congruence|]. split; [congruence|].
      split; [congruence|]. split; [congruence|]. split; [congruence|].
      split; [exact Hh3|].
      assert (Forall (fun e : who * event => ~ is_write e) (fallback_trace (pid p) e pf) /\
              no_blocked_read (fallback_trace (pid p) e pf) /\
              read_total (pid p) (fallback_trace (pid p) e pf) = 0) as (Hnwf & Hnbf & Hrtf).
      { destruct pf; cbn; (split; [|split]); try done;
          repeat constructor; try done; by intros (? & ? & ? & [=]). }
      split.
      { intros. apply Forall_app; split; [done|]. apply Forall_app; split; [done|].
        apply Forall_app; split; [done|]. by eapply no_blocked_reads_of_writes. }
      intros t Ht. destruct (res_value (create_child t1 k2 p2)) as [v'|]; [|discriminate].
      destruct (Hv3 v' eq_refl) as [-> Hend3]. injection Ht as <-.
      change (C.to_uint 0) with 0.
      split; [lia|]. split; [lia|]. intros _.
      split; [congruence|]. split; [congruence|].
      rewrite !written_app, !read_total_app.
      rewrite (written_other_fd _ _ tr1) by (by eapply reads_no_write).
      rewrite (written_other_fd _ _ tr2), (written_other_fd _ _ (fallback_trace _ _ _)) by done.
      rewrite Hrt2, Hrtf, (read_total_writes _ _ _ _ Hws3).
      split; [lia|]. destruct Hend3 as [E|Hhs]; [left; lia|].
      right. rewrite !app_assoc. by apply hard_stop_app.
Qed.

Lemma parse_env_cases k p :
  exists v p1,
    parse_env k p = Val v k p1 /\
    pid p1 = pid p /\ environ p1 = environ p /\ fds p1 = fds p /\ errno p1 = errno p.
Proof.
  unfold parse_env, getenv. rewrite bind_eq.
  destruct (environ p !! "MAKEFLAGS") as [env|]; [|by eexists _, _].
  destruct (first_jobserver_option env) as [o|] eqn:E; [|by eexists _, _].
  destruct (option_has_equals _ _ E) as [o' ->].
  destruct (Libc.sscanf_eq_d_comma_d _) as [[n a] b].
  rewrite bind_eq. unfold store_fds.
  destruct (n =? 2); eexists _, _; (split; [reflexivity|]); by destruct a, b.
Qed.

Lemma plain_facts w fd tr :
  Forall plain tr ->
  Forall (fun e => ~ is_write e) tr /\ no_blocked_read tr /\
  read_total w tr = 0 /\ written w fd tr = 0.
Proof.
  induction 1 as [|[w' ev] tr [H1 H2] _ (IH1 & IH2 & IH3 & IH4)];
    [by repeat constructor|].
  split; [by constructor|]. split; [constructor; [intros; apply H1|done]|].
  cbn in H1. split.
  - destruct ev; try done. by destruct (H1 fd0 count r).
  - destruct ev; try done. exfalso. apply H2. by eexists _, _, _.
Qed.

(** [get_tokens], whatever the environment, the descriptors and the
    kernel: where it stops, what it logs, and what a returned count
    stands for. *)
Lemma get_tokens_cases k p :
  exists v p1,
    parse_env k p = Val v k p1 /\
    let r := get_tokens k p in
    exists tr,
      trace (res_kernel r) = (trace k ++ tr)%list /\
      pid (res_proc r) = pid p /\ environ (res_proc r) = environ p /\
      rfd (res_proc r) = rfd p1 /\ wfd (res_proc r) = wfd p1 /\
      faults (res_kernel r) = faults k /\
      (forall h, res_halt r = Some h -> h = Blocked) /\
      (forall f, fds p !! rfd p1 = Some f -> f_kind f = KJobR -> no_blocked_read tr) /\
      (forall t, res_value r = Some t ->
         0 <= t <= 507 /\
         (0 < t ->
          read_total (pid p) tr = t /\ Forall (fun e => ~ is_write e) tr /\
          exists r0 w0,
            fds p !! r0 = None /\ fds p !! w0 = None /\ r0 <> w0 /\
            fds (res_proc r) = <[w0 := auxw_file]> (fds p) /\
            spawned (res_kernel r) =
              Some (Child (set_pid Watcher
                             (set_fds (<[w0 := auxw_file]> (<[r0 := auxr_file]> (fds p)))
                                      (res_proc r)))
                          t (r0, w0))) /\
         (t = 0 ->
          fds (res_proc r) = fds p /\ spawned (res_kernel r) = spawned k /\
          0 <= written (pid p) (wfd p1) tr <= read_total (pid p) tr /\
          (written (pid p) (wfd p1) tr = read_total (pid p) tr \/
           hard_stop (pid p) (wfd p1) tr))).
Proof.
  destruct (parse_env_cases k p) as (v & p1 & Hpe & Hpid1 & Henv1 & Hfds1 & Herr1).
  exists v, p1. split; [exact Hpe|]. cbv zeta.
  unfold get_tokens. rewrite bind_eq, Hpe.
  (* the ways out before the loop *)
  assert (forall k' p' tr0,
    trace k' = (trace k ++ tr0)%list -> Forall plain tr0 ->
    pid p' = pid p -> environ p' = environ p -> fds p' = fds p ->
    rfd p' = rfd p1 -> wfd p' = wfd p1 ->
    faults k' = faults k -> spawned k' = spawned k ->
    let r : res Z := Val 0 k' p' in
    exists tr,
      trace (res_kernel r) = (trace k ++ tr)%list /\
      pid (res_proc r) = pid p /\ environ (res_proc r) = environ p /\
      rfd (res_proc r) = rfd p1 /\ wfd (res_proc r) = wfd p1 /\
      faults (res_kernel r) = faults k /\
      (forall h, res_halt r = Some h -> h = Blocked) /\
      (forall f, fds p !! rfd p1 = Some f -> f_kind f = KJobR -> no_blocked_read tr) /\
      (forall t, res_value r = Some t ->
         0 <= t <= 507 /\
         (0 < t ->
          read_total (pid p) tr = t /\ Forall (fun e => ~ is_write e) tr /\
          exists r0 w0,
            fds p !! r0 = None /\ fds p !! w0 = None /\ r0 <> w0 /\
            fds (res_proc r) = <[w0 := auxw_file]> (fds p) /\
            spawned (res_kernel r) =
              Some (Child (set_pid Watcher
                             (set_fds (<[w0 := auxw_file]> (<[r0 := auxr_file]> (fds p)))
                                      (res_proc r)))
                          t (r0, w0))) /\
         (t = 0 ->
          fds (res_proc r) = fds p /\ spawned (res_kernel r) = spawned k /\
          0 <= written (pid p) (wfd p1) tr <= read_total (pid p) tr /\
          (written (pid p) (wfd p1) tr = read_total (pid p) tr \/
           hard_stop (pid p) (wfd p1) tr)))) as Hout.
  { intros k' p' tr0 Htr Hpl Hpid Henv Hfds Hrfd Hwfd Hfa Hsp. cbn.
    destruct (plain_facts (pid p) (wfd p1) tr0 Hpl) as (Hnw & Hnb & Hrt & Hwr).
    exists tr0. split; [done|]. split; [done|]. split; [done|]. split; [done|].
    split; [done|]. split; [done|]. split; [discriminate|]. split; [done|].
    intros t [= <-]. split; [lia|]. split; [lia|]. intros _.
    split; [done|]. split; [done|]. rewrite Hwr, Hrt. split; [lia|by left]. }
  (* the loop and what follows *)
  assert (forall fd k' p' tr0,
    trace k' = (trace k ++ tr0)%list -> Forall plain tr0 ->
    pid p' = pid p -> environ p' = environ p ->
    (if fd =? rfd p' then fds p' else delete fd (fds p')) = fds p ->
    rfd p' = rfd p1 -> wfd p' = wfd p1 ->
    faults k' = faults k -> spawned k' = spawned k ->
    (forall f, fds p !! rfd p1 = Some f -> f_kind f = KJobR ->
               exists f', fds p' !! fd = Some f' /\ f_kind f' = KJobR /\
                          nonblocking f' = true) ->
    let r := get_tokens_from fd k' p' in
    exists tr,
      trace (res_kernel r) = (trace k ++ tr)%list /\
      pid (res_proc r) = pid p /\ environ (res_proc r) = environ p /\
      rfd (res_proc r) = rfd p1 /\ wfd (res_proc r) = wfd p1 /\
      faults (res_kernel r) = faults k /\
      (forall h, res_halt r = Some h -> h = Blocked) /\
      (forall f, fds p !! rfd p1 = Some f -> f_kind f = KJobR -> no_blocked_read tr) /\
      (forall t, res_value r = Some t ->
         0 <= t <= 507 /\
         (0 < t ->
          read_total (pid p) tr = t /\ Forall (fun e => ~ is_write e) tr /\
          exists r0 w0,
            fds p !! r0 = None /\ fds p !! w0 = None /\ r0 <> w0 /\
            fds (res_proc r) = <[w0 := auxw_file]> (fds p) /\
            spawned (res_kernel r) =
              Some (Child (set_pid Watcher
                             (set_fds (<[w0 := auxw_file]> (<[r0 := auxr_file]> (fds p)))
                                      (res_proc r)))
                          t (r0, w0))) /\
         (t = 0 ->
          fds (res_proc r) = fds p /\ spawned (res_kernel r) = spawned k /\
          0 <= written (pid p) (wfd p1) tr <= read_total (pid p) tr /\
          (written (pid p) (wfd p1) tr = read_total (pid p) tr \/
           hard_stop (pid p) (wfd p1) tr)))) as Hloop.
  { intros fd k' p' tr0 Htr Hpl Hpid Henv HT Hrfd Hwfd Hfa Hsp Hnbk. cbv zeta.
    destruct (plain_facts (pid p) (wfd p1) tr0 Hpl) as (Hnw & Hnb & Hrt & Hwr).
    destruct (get_tokens_from_cases fd k' p')
      as (tr & Htr' & Hpid' & Henv' & Hrfd' & Hwfd' & Hfa' & Hh & Hnb' & Hv).
    rewrite HT in Hv. rewrite Hpid, Hwfd in Hv.
    exists (tr0 ++ tr)%list. rewrite Htr', Htr, <- app_assoc.
    split; [done|]. split; [congruence|]. split; [congruence|]. split; [congruence|].
    split; [congruence|]. split; [congruence|]. split; [exact Hh|].
    split.
    { intros f Hf Hk. destruct (Hnbk f Hf Hk) as (f' & Hf' & Hk' & Hnb'').
      apply Forall_app. split; [done|]. by eapply Hnb'. }
    intros t Ht. destruct (Hv t Ht) as (Hb & Hpos & Hzero).
    split; [done|]. split.
    - intros H0. destruct (Hpos H0) as (Hsum & Hnw' & Hw0).
      split; [rewrite read_total_app; lia|]. split; [by apply Forall_app|]. done.
    - intros H0. destruct (Hzero H0) as (? & ? & ? & Hend).
      split; [done|]. split; [congruence|].
      rewrite written_app, read_total_app. split; [lia|].
      destruct Hend as [E|Hhs]; [left; lia|]. right. by apply hard_stop_app. }
  destruct (v <? 0).
  { apply (Hout k p1 []); try done. by rewrite app_nil_r. }
  rewrite bind_eq. cbn [get_proc]. rewrite bind_eq. unfold sys_fcntl_getfl.
  rewrite Hfds1.
  destruct (fds p !! rfd p1) as [fr|] eqn:Hfr; cbn [deliver].
  2:{ apply (Hout _ _ [(pid p, EvFcntl (rfd p1) (Err C.EBADF))]); try done.
      - cbn. by rewrite Hpid1.
      - repeat constructor; [done | by intros (? & ? & ? & [=])]. }
  set (k0 := add_event _ k).
  assert (trace k0 = (trace k ++ [(pid p, EvFcntl (rfd p1) (Ret (f_flags fr)))])%list)
    as Hk0 by (subst k0; cbn; by rewrite Hpid1).
  assert (Forall plain [(pid p, EvFcntl (rfd p1) (Ret (f_flags fr)))]) as Hpl0.
  { repeat constructor; [done | by intros (? & ? & ? & [=])]. }
  destruct (f_flags fr <? 0) eqn:Eflags.
  { by apply (Hout k0 p1 [(pid p, EvFcntl (rfd p1) (Ret (f_flags fr)))]). }
  destruct (Z.land (f_flags fr) C.O_NONBLOCK =? 0) eqn:Enb.
  - rewrite bind_eq. unfold sys_open_proc_self_fd.
    change (faults k0) with (faults k).
    set (flags := Z.lor (Z.lor C.O_RDONLY C.O_NONBLOCK) C.O_CLOEXEC).
    destruct (fail_open (faults k)) as [e|]; cbn [deliver].
    { assert ((-1 <? 0) = true) as -> by done.
      apply (Hout _ _ [(pid p, EvFcntl (rfd p1) (Ret (f_flags fr)));
                       (pid p, EvOpen (rfd p1) flags (Err e))]); try done.
      - cbn. by rewrite Hpid1, <- app_assoc.
      - repeat constructor; try done; by intros (? & ? & ? & [=]). }
    rewrite Hfds1, Hfr. cbn [deliver].
    set (fd := alloc_fd (fds p)). set (f' := File _ _ _).
    pose proof (alloc_fd_nonneg (fds p)) as Hnn.
    pose proof (alloc_fd_fresh (fds p)) as Hfresh. fold fd in Hnn, Hfresh.
    assert ((fd <? 0) = false) as -> by lia.
    assert (fd <> rfd p1) as Hne by (intros ->; congruence).
    apply (Hloop fd _ _ [(pid p, EvFcntl (rfd p1) (Ret (f_flags fr)));
                         (pid p, EvOpen (rfd p1) flags (Ret fd))]); try done.
    + cbn. by rewrite Hpid1, <- app_assoc.
    + repeat constructor; try done; by intros (? & ? & ? & [=]).
    + cbn [rfd fds set_fds]. destruct (Z.eqb_spec fd (rfd p1)); [done|].
      by rewrite delete_insert_eq, delete_id.
    + intros f [= <-] Hk. exists f'. cbn [fds set_fds].
      split; [apply lookup_insert_eq|]. subst f'. cbn. by rewrite Hk.
  - apply (Hloop (rfd p1) k0 p1 [(pid p, EvFcntl (rfd p1) (Ret (f_flags fr)))]);
      try done.
    + by rewrite Z.eqb_refl.
    + intros f [= <-] Hk. exists fr. rewrite Hfds1. split; [done|]. split; [done|].
      unfold nonblocking. by rewrite Enb.
Qed.

(** ** What a returned count stands for *)

(** X7. What the count returned by [get_tokens] stands for, on every
    run.  A count [t > 0] means that exactly [t] bytes were read, that
    nothing was written, and that a forked child holds [t] tokens to
    give back to [wfd].  A count of 0 means that no child was forked and
    that what was read was written back to [wfd]: all of it, unless a
    [write] failed with an error other than EAGAIN and EINTR, and never
    more.  The count is at most 507. *)
Theorem X7_returned_count_is_held_by_a_watcher
  (k : kernel) (p : proc) (t : Z) (k' : kernel) (p' : proc) :
  get_tokens k p = Val t k' p' ->
  exists tr,
    trace k' = (trace k ++ tr)%list /\ 0 <= t <= 507 /\
    (0 < t ->
     read_total (pid p) tr = t /\ Forall (fun e => ~ is_write e) tr /\
     exists c, spawned k' = Some c /\ c_tokens c = t /\
               pid (c_proc c) = Watcher /\ wfd (c_proc c) = wfd p') /\
    (t = 0 ->
     spawned k' = spawned k /\
     0 <= written (pid p) (wfd p') tr <= read_total (pid p) tr /\
     (written (pid p) (wfd p') tr = read_total (pid p) tr \/
      hard_stop (pid p) (wfd p') tr)).
Proof.
  intros E. destruct (get_tokens_cases k p) as (v & p1 & _ & H). cbv zeta in H.
  rewrite E in H. cbn [res_kernel res_proc res_value] in H.
  destruct H as (tr & Htr & _ & _ & _ & Hwfd & _ & _ & _ & Hv).
  destruct (Hv t eq_refl) as (Hb & Hpos & Hzero). rewrite <- Hwfd in Hzero.
  exists tr. split; [done|]. split; [done|].
  split; [|intros H0; by destruct (Hzero H0) as (_ & ? & ? & ?)].
  intros H0. destruct (Hpos H0) as (Hsum & Hnw & r0 & w0 & _ & _ & _ & _ & Hsp).
  split; [done|]. split; [done|]. eexists. split; [exact Hsp|]. done.
Qed.

(** X8. [get_tokens] leaves the process as it found it, but for one
    descriptor.  The environment is untouched.  The descriptor table is
    the one it started with (the descriptor opened through
    /proc/self/fd and the read end of the auxiliary pipe are closed
    again, the inherited descriptors keep their flags), with, when a
    count [t > 0] is returned, the write end of the auxiliary pipe on a
    descriptor that was free, not close-on-exec. *)
Theorem X8_get_tokens_leaves_one_new_descriptor
  (k : kernel) (p : proc) (t : Z) (k' : kernel) (p' : proc) :
  get_tokens k p = Val t k' p' ->
  pid p' = pid p /\ environ p' = environ p /\
  (t = 0 -> fds p' = fds p) /\
  (0 < t ->
   exists w, fds p !! w = None /\
             fds p' = <[w := File KAuxW C.O_WRONLY false]> (fds p)).
Proof.
  intros E. destruct (get_tokens_cases k p) as (v & p1 & _ & H). cbv zeta in H.
  rewrite E in H. cbn [res_kernel res_proc res_value] in H.
  destruct H as (tr & _ & Hpid & Henv & _ & _ & _ & _ & _ & Hv).
  destruct (Hv t eq_refl) as (Hb & Hpos & Hzero).
  split; [done|]. split; [done|]. split.
  - intros H0. by destruct (Hzero H0).
  - intros H0. destruct (Hpos H0) as (_ & _ & r0 & w0 & _ & Hw & _ & Hfds & _).
    by exists w0.
Qed.

(** X6. [get_tokens] never sleeps in [read] on the jobserver pipe,
    whether make left the read end in blocking mode or not, and whatever
    the other clients do and whichever call fails: no [read] of its log
    is a blocked one.  (In blocking mode the loop reads a descriptor of
    its own, opened with O_NONBLOCK.) *)
Theorem X6_get_tokens_never_sleeps_in_read
  (k : kernel) (p : proc) (env : string) (r0 w0 : Z) (fr : file) :
  environ p !! "MAKEFLAGS" = Some env -> advertised env = Some (r0, w0) ->
  fds p !! r0 = Some fr -> f_kind fr = KJobR ->
  forall tr, trace (res_kernel (get_tokens k p)) = (trace k ++ tr)%list ->
             no_blocked_read tr.
Proof.
  intros He Ha Hfr Hk tr Htr.
  destruct (get_tokens_cases k p) as (v & p1 & Hpe & H). cbv zeta in H.
  rewrite (parse_env_ok k p env r0 w0 He Ha) in Hpe. injection Hpe as <- <-.
  destruct H as (tr' & Htr' & _ & _ & _ & _ & _ & _ & Hnb & _).
  rewrite Htr in Htr'. apply app_inv_head in Htr' as ->.
  by apply (Hnb fr).
Qed.

(** ** From [get_tokens] to [execvp] *)

Lemma maybe_close_cases (b : bool) fd k p :
  exists r k' p' tr,
    (if b then sys_close fd else mret 0) k p = Val r k' p' /\
    trace k' = (trace k ++ tr)%list /\ all_closes (pid p) tr /\
    fds p' = (if b then delete fd (fds p) else fds p) /\
    pid p' = pid p /\ environ p' = environ p /\ rfd p' = rfd p /\ wfd p' = wfd p /\
    js k' = js k /\ faults k' = faults k /\ spawned k' = spawned k.
Proof.
  destruct b.
  - destruct (sys_close_cases fd k p)
      as (r & sr & k' & p' & E & Htr & Hfds & Hrest).
    exists r, k', p', [(pid p, EvClose fd sr)]. split; [done|]. split; [done|].
    split; [by repeat constructor; eexists _, _|]. by split.
  - exists 0, k, p, []. rewrite app_nil_r. split; [done|]. split; [done|].
    split; [constructor|]. by repeat split.
Qed.

(** [main] from line 205 on, whatever the process and the kernel. *)
Lemma launch_cases argv k p :
  let cmd := default "" (argv !! 1%nat) in
  exists k' p' tr,
    all_closes (pid p) tr /\
    js k' = js k /\ faults k' = faults k /\ spawned k' = spawned k /\
    pid p' = pid p /\ rfd p' = rfd p /\ wfd p' = wfd p /\
    environ p' = delete "MAKEFLAGS" (environ p) /\
    ((fail_exec (faults k) = None /\
      launch argv k p = Halt (Execed cmd (drop 1 argv)) k' p' /\
      trace k' = (trace k ++ (pid p, EvUnsetenv "MAKEFLAGS") :: tr ++
                  [(pid p, EvExecvp cmd (drop 1 argv) (Ret 0))])%list /\
      fds p' = filter (fun kv => negb (f_cloexec (snd kv)) = true) (closed_for_exec p)) \/
     (exists e,
      fail_exec (faults k) = Some e /\
      launch argv k p = Halt (Exited C.EX_OSERR) k' p' /\
      trace k' = (trace k ++ (pid p, EvUnsetenv "MAKEFLAGS") :: tr ++
                  exec_failure_trace (pid p) cmd (drop 1 argv) e)%list /\
      fds p' = ∅)).
Proof.
  intros cmd. unfold launch. rewrite bind_eq. cbn [unsetenv]. rewrite bind_eq.
  cbn [get_proc]. set (k1 := add_event _ k). set (p1 := set_environ _ p).
  rewrite bind_eq.
  destruct (maybe_close_cases (0 <=? rfd p1) (rfd p1) k1 p1)
    as (r2 & k2 & p2 & tr2 & -> & Htr2 & Hc2 & Hfds2 & Hpid2 & Henv2 & Hrfd2 & Hwfd2 &
        Hjs2 & Hfa2 & Hsp2).
  rewrite bind_eq. cbn [get_proc]. rewrite bind_eq.
  destruct (maybe_close_cases (0 <=? wfd p2) (wfd p2) k2 p2)
    as (r3 & k3 & p3 & tr3 & -> & Htr3 & Hc3 & Hfds3 & Hpid3 & Henv3 & Hrfd3 & Hwfd3 &
        Hjs3 & Hfa3 & Hsp3).
  cbv zeta. fold cmd. rewrite bind_eq. unfold sys_execvp.
  assert (fds p3 = closed_for_exec p) as Hfds.
  { unfold closed_for_exec. rewrite Hfds3, Hfds2, Hwfd2. done. }
  assert (all_closes (pid p) (tr2 ++ tr3)) as Hcl.
  { apply Forall_app. split; [done|]. by rewrite Hpid2 in Hc3. }
  assert (faults k3 = faults k) as Hfa by (by rewrite Hfa3, Hfa2).
  rewrite Hfa. destruct (fail_exec (faults k)) as [e|] eqn:He.
  - cbn [deliver]. rewrite bind_eq. cbn [get_proc]. rewrite bind_eq.
    unfold error. cbn [errno set_errno C.EX_OSERR Z.eqb]. unfold sys_exit.
    set (kf := add_event (_, EvExit _) _). set (pf := set_fds ∅ _).
    exists kf, pf, (tr2 ++ tr3)%list. split; [exact Hcl|]. subst kf pf. cbn.
    split; [by rewrite Hjs3, Hjs2|]. split; [done|]. split; [by rewrite Hsp3, Hsp2|].
    split; [by rewrite Hpid3, Hpid2|]. split; [by rewrite Hrfd3, Hrfd2|].
    split; [by rewrite Hwfd3, Hwfd2|]. split; [by rewrite Henv3, Henv2|].
    right. exists e. split; [done|]. split; [reflexivity|]. split; [|done].
    rewrite Htr3, Htr2, Hpid3, Hpid2. subst k1. cbn. by rewrite <- !app_assoc.
  - set (kf := add_event (_, EvExecvp _ _ _) _). set (pf := set_fds _ _).
    exists kf, pf, (tr2 ++ tr3)%list. split; [exact Hcl|]. subst kf pf. cbn.
    split; [by rewrite Hjs3, Hjs2|]. split; [done|]. split; [by rewrite Hsp3, Hsp2|].
    split; [by rewrite Hpid3, Hpid2|]. split; [by rewrite Hrfd3, Hrfd2|].
    split; [by rewrite Hwfd3, Hwfd2|]. split; [by rewrite Henv3, Henv2|].
    left. split; [done|]. split; [reflexivity|]. split; [|by rewrite Hfds].
    rewrite Htr3, Htr2, Hpid3, Hpid2. subst k1. cbn. by rewrite <- !app_assoc.
Qed.

Lemma check_args_cases argv k p :
  (exists msg,
     ((length argv < 3)%nat \/ find_hashes (drop 2 argv) = None) /\
     check_args argv k p =
       Halt (Exited C.EX_USAGE)
            (add_event (pid p, EvExit C.EX_USAGE)
               (set_writers (aux_writers (aux k) - count_auxw (fds p))
                  (add_event (pid p, EvError C.EX_USAGE 0 msg) k)))
            (set_fds ∅ p)) \/
  (exists i o, find_hashes (drop 2 argv) = Some (i, o) /\
               check_args argv k p = Val (2 + i, o)%nat k p).
Proof.
  destruct (find_hashes (drop 2 argv)) as [[i o]|] eqn:E.
  - right. exists i, o. split; [done|]. by apply check_args_val.
  - left. unfold check_args. rewrite bind_eq.
    destruct (Z.of_nat (length argv) <? 2) eqn:E2.
    + exists "missing command". split; [by right|]. reflexivity.
    + exists "missing ### argument". split; [by right|]. rewrite E.
      by destruct (Z.of_nat (length argv) <? 3).
Qed.

(** The stages of [main]: the command line is refused, or [get_tokens]
    blocks, or [main] goes on to [launch] with the marker rewritten. *)
Lemma main_cases argv k p :
  (exists msg k' p',
     ((length argv < 3)%nat \/ find_hashes (drop 2 argv) = None) /\
     main argv k p = Halt (Exited C.EX_USAGE) k' p' /\
     trace k' = (trace k ++ usage_trace (pid p) msg)%list) \/
  (exists i o pre suf,
     find_hashes (drop 2 argv) = Some (i, o) /\
     argv !! (2 + i)%nat = Some (pre +:+ "###" +:+ suf) /\ String.length pre = o /\
     ((exists k1 p1, get_tokens k p = Halt Blocked k1 p1 /\
                     main argv k p = Halt Blocked k1 p1) \/
      (exists t k1 p1,
         get_tokens k p = Val t k1 p1 /\ 0 <= t <= 507 /\
         main argv k p =
           launch (<[(2 + i)%nat :=
                      rewrite_arg (pre +:+ "###" +:+ suf) o (t + 1)]> argv) k1 p1))).
Proof.
  destruct (check_args_cases argv k p) as [(msg & Hwhy & Hc)|(i & o & Hf & Hc)].
  - left. eexists msg, _, _. split; [exact Hwhy|]. split.
    + unfold main. rewrite bind_eq, Hc. reflexivity.
    + cbn. unfold usage_trace. by rewrite <- app_assoc.
  - right. destruct (find_hashes_Some _ _ _ Hf) as (arg & Harg & Ho & _).
    rewrite lookup_drop in Harg.
    destruct (strstr_Some _ _ _ Ho) as (pre & suf & -> & <-).
    exists i, (String.length pre), pre, suf. split; [done|]. split; [done|].
    split; [done|]. unfold main. rewrite bind_eq, Hc, bind_eq.
    destruct (get_tokens_cases k p) as (v & p1 & _ & H). cbv zeta in H.
    destruct H as (tr & _ & _ & _ & _ & _ & _ & Hh & _ & Hv).
    destruct (get_tokens k p) as [t k1 p1'|h k1 p1'].
    + right. exists t, k1, p1'. destruct (Hv t eq_refl) as (Ht & _).
      split; [done|]. split; [done|].
      by rewrite bind_eq, (rewrite_val argv _ pre suf) by (done || lia).
    + left. exists k1, p1'. by rewrite (Hh h eq_refl).
Qed.

(** When [main] becomes the command, it went through [get_tokens],
    the rewriting of the marker and [launch]. *)
Lemma main_execs argv k p c a k' p' :
  main argv k p = Halt (Execed c a) k' p' ->
  exists i o pre suf t k1 p1,
    find_hashes (drop 2 argv) = Some (i, o) /\
    argv !! (2 + i)%nat = Some (pre +:+ "###" +:+ suf) /\ String.length pre = o /\
    get_tokens k p = Val t k1 p1 /\ 0 <= t <= 507 /\
    launch (<[(2 + i)%nat := rewrite_arg (pre +:+ "###" +:+ suf) o (t + 1)]> argv) k1 p1
      = Halt (Execed c a) k' p'.
Proof.
  intros E.
  destruct (main_cases argv k p)
    as [(msg & k2 & p2 & _ & Hm & _)|
        (i & o & pre & suf & Hf & Harg & Ho &
         [(k1 & p1 & _ & Hm)|(t & k1 & p1 & Hg & Ht & Hm)])]; try congruence.
  exists i, o, pre, suf, t, k1, p1. by rewrite <- Hm.
Qed.

(** X12. Whenever [main] becomes the command, MAKEFLAGS is gone from
    the environment and every other variable is as it was. *)
Theorem X12_command_never_sees_MAKEFLAGS
  (argv : list string) (k : kernel) (p : proc)
  (c : string) (a : list string) (k' : kernel) (p' : proc) :
  main argv k p = Halt (Execed c a) k' p' ->
  environ p' = delete "MAKEFLAGS" (environ p) /\
  environ p' !! "MAKEFLAGS" = None /\
  forall name, name <> "MAKEFLAGS" -> environ p' !! name = environ p !! name.
Proof.
  intros E.
  destruct (main_execs _ _ _ _ _ _ _ E)
    as (i & o & pre & suf & t & k1 & p1 & _ & _ & _ & Hg & _ & Hl).
  destruct (get_tokens_cases k p) as (v & p0 & _ & H). cbv zeta in H.
  rewrite Hg in H. cbn [res_proc] in H. destruct H as (_ & _ & _ & Henv & _).
  destruct (launch_cases (<[(2 + i)%nat :=
              rewrite_arg (pre +:+ "###" +:+ suf) o (t + 1)]> argv) k1 p1)
    as (k2 & p2 & tr & _ & _ & _ & _ & _ & _ & _ & Henv2 & [(_ & Hl' & _)|(e & _ & Hl' & _)]);
    rewrite Hl in Hl'; [|discriminate].
  injection Hl' as _ _ _ <-. rewrite Henv2, Henv.
  split; [done|]. split; [apply lookup_delete_eq|].
  intros name Hne. by rewrite lookup_delete_ne.
Qed.

(** X13. Whenever [main] becomes the command, the file executed is
    [argv[1]] and the arguments are [argv[1]] and what follows it,
    unchanged but for the first [###] after the command name, replaced
    by the decimal text of the count [get_tokens] returned plus one, a
    number from 1 to 508. *)
Theorem X13_command_line_is_passed_on_with_the_count
  (argv : list string) (k : kernel) (p : proc)
  (c : string) (a : list string) (k' : kernel) (p' : proc) :
  main argv k p = Halt (Execed c a) k' p' ->
  Forall nul_free argv ->
  exists i o pre suf t k1 p1,
    find_hashes (drop 2 argv) = Some (i, o) /\
    argv !! (2 + i)%nat = Some (pre +:+ "###" +:+ suf) /\ String.length pre = o /\
    get_tokens k p = Val t k1 p1 /\ 0 <= t <= 507 /\
    c = default "" (argv !! 1%nat) /\
    a = drop 1 (<[(2 + i)%nat := pre +:+ decimal (t + 1) +:+ suf]> argv).
Proof.
  intros E Hnul.
  destruct (main_execs _ _ _ _ _ _ _ E)
    as (i & o & pre & suf & t & k1 & p1 & Hf & Harg & Ho & Hg & Ht & Hl).
  exists i, o, pre, suf, t, k1, p1.
  split; [done|]. split; [done|]. split; [done|]. split; [done|]. split; [done|].
  pose proof (proj1 (Forall_lookup _ _) Hnul _ _ Harg) as Hn.
  unfold nul_free in Hn. rewrite !list_ascii_app, !not_elem_of_app in Hn.
  destruct Hn as (Hpre & _ & Hsuf).
  subst o. rewrite rewrite_arg_spec in Hl by (done || lia).
  destruct (launch_cases (<[(2 + i)%nat :=
              pre +:+ string_of_list_ascii (Libc.utoa (t + 1)) +:+ suf]> argv) k1 p1)
    as (k2 & p2 & tr & _ & _ & _ & _ & _ & _ & _ & _ & [(_ & Hl' & _)|(e & _ & Hl' & _)]);
    rewrite Hl in Hl'; [|discriminate].
  injection Hl' as -> -> _ _. split; [|done].
  by rewrite list_lookup_insert_ne by lia.
Qed.

(** X14. The descriptors the command starts with.  Neither [rfd] nor
    [wfd], when they are not negative.  Each one is a descriptor [main]
    was started with, unchanged, or the write end of the auxiliary pipe,
    and none is close-on-exec.  And every descriptor [main] was started
    with that is neither [rfd], [wfd] nor close-on-exec is passed
    on. *)
Theorem X14_command_inherits_no_advertised_descriptor
  (argv : list string) (k : kernel) (p : proc)
  (c : string) (a : list string) (k' : kernel) (p' : proc) :
  main argv k p = Halt (Execed c a) k' p' ->
  (0 <= rfd p' -> fds p' !! rfd p' = None) /\
  (0 <= wfd p' -> fds p' !! wfd p' = None) /\
  (forall fd f, fds p' !! fd = Some f ->
     f_cloexec f = false /\
     (fds p !! fd = Some f \/
      fds p !! fd = None /\ f = File KAuxW C.O_WRONLY false)) /\
  (forall fd f, fds p !! fd = Some f -> f_cloexec f = false ->
     fd <> rfd p' -> fd <> wfd p' -> fds p' !! fd = Some f).
Proof.
  intros E.
  destruct (main_execs _ _ _ _ _ _ _ E)
    as (i & o & pre & suf & t & k1 & p1 & _ & _ & _ & Hg & Ht & Hl).
  destruct (get_tokens_cases k p) as (v & p0 & _ & H). cbv zeta in H.
  rewrite Hg in H. cbn [res_proc res_kernel res_value] in H.
  destruct H as (tr0 & _ & _ & _ & _ & _ & _ & _ & _ & Hv).
  destruct (Hv t eq_refl) as (_ & Hpos & Hzero).
  assert (forall fd f, fds p1 !! fd = Some f ->
            fds p !! fd = Some f \/
            fds p !! fd = None /\ f = File KAuxW C.O_WRONLY false) as Hsub.
  { destruct (Z.eq_dec t 0) as [E0|E0].
    - destruct (Hzero E0) as (Hfd & _). rewrite Hfd. by left.
    - destruct (Hpos ltac:(lia)) as (_ & _ & r0 & w0 & _ & Hw & _ & Hfd & _).
      rewrite Hfd. intros fd f. rewrite lookup_insert. case_decide as Hd.
      + intros [= <-]. subst fd. by right.
      + by left. }
  assert (forall fd f, fds p !! fd = Some f -> fds p1 !! fd = Some f) as Hsup.
  { destruct (Z.eq_dec t 0) as [E0|E0].
    - destruct (Hzero E0) as (Hfd & _). by rewrite Hfd.
    - destruct (Hpos ltac:(lia)) as (_ & _ & r0 & w0 & _ & Hw & _ & Hfd & _).
      rewrite Hfd. intros fd f Hf. rewrite lookup_insert_ne; [done|]. intros <-. congruence. }
  destruct (launch_cases (<[(2 + i)%nat :=
              rewrite_arg (pre +:+ "###" +:+ suf) o (t + 1)]> argv) k1 p1)
    as (k2 & p2 & tr & _ & _ & _ & _ & _ & Hrfd & Hwfd & _ &
        [(_ & Hl' & _ & Hfds)|(e & _ & Hl' & _)]);
    rewrite Hl in Hl'; [|discriminate].
  injection Hl' as _ _ _ <-. rewrite Hrfd, Hwfd, Hfds. unfold closed_for_exec.
  split; [|split; [|split]].
  - intros H0. apply map_lookup_filter_None. left.
    assert ((0 <=? rfd p1) = true) as -> by lia.
    destruct (0 <=? wfd p1); [rewrite lookup_delete; case_decide; [done|]|];
      apply lookup_delete_eq.
  - intros H0. apply map_lookup_filter_None. left.
    assert ((0 <=? wfd p1) = true) as -> by lia. apply lookup_delete_eq.
  - intros fd f Hf. apply map_lookup_filter_Some in Hf as [Hf Hc]. cbn in Hc.
    split; [by destruct (f_cloexec f)|]. apply Hsub.
    destruct (0 <=? wfd p1); [apply lookup_delete_Some in Hf as [_ Hf]|];
      (destruct (0 <=? rfd p1); [apply lookup_delete_Some in Hf as [_ Hf]|]); done.
  - intros fd f Hf Hc Hr Hw. apply map_lookup_filter_Some. split; [|cbn; by rewrite Hc].
    apply Hsup in Hf.
    destruct (0 <=? wfd p1); [rewrite lookup_delete_ne by done|];
      (destruct (0 <=? rfd p1); [rewrite lookup_delete_ne by done|]); done.
Qed.


(** ** The whole life cycle *)

(** [execvp] keeps the descriptors on the write end of the auxiliary pipe
    when none of them is close-on-exec. *)
Lemma count_auxw_filter (m : gmap Z file) :
  (forall i f, m !! i = Some f -> is_auxw f = true -> f_cloexec f = false) ->
  count_auxw (filter (fun kv => negb (f_cloexec (snd kv)) = true) m) = count_auxw m.
Proof.
  induction m as [|i x m Hi IH] using map_ind; intros H.
  - by rewrite map_filter_empty.
  - assert (forall j f, m !! j = Some f -> is_auxw f = true -> f_cloexec f = false) as H'.
    { intros j f Hj. apply (H j). rewrite lookup_insert_ne; [done|]. intros <-. congruence. }
    destruct (f_cloexec x) eqn:Ec.
    + rewrite map_filter_insert_False by (cbn; by rewrite Ec).
      rewrite delete_id by done. rewrite IH, count_auxw_insert by done.
      destruct (is_auxw x) eqn:Ea; [|done].
      specialize (H i x (lookup_insert_eq _ _ _) Ea). congruence.
    + rewrite map_filter_insert_True by (cbn; by rewrite Ec).
      rewrite !count_auxw_insert, IH; try done.
      apply map_lookup_filter_None. by left.
Qed.

Lemma launch_exec_ok argv k p :
  fail_exec (faults k) = None ->
  (forall f, fds p !! rfd p = Some f -> is_auxw f = false) ->
  (forall f, fds p !! wfd p = Some f -> is_auxw f = false) ->
  (forall i f, fds p !! i = Some f -> is_auxw f = true -> f_cloexec f = false) ->
  let cmd := default "" (argv !! 1%nat) in
  exists k' p' tr,
    launch argv k p = Halt (Execed cmd (drop 1 argv)) k' p' /\
    js k' = js k /\ faults k' = faults k /\ spawned k' = spawned k /\
    aux k' = aux k /\
    trace k' = (trace k ++ tr ++ [(pid p, EvExecvp cmd (drop 1 argv) (Ret 0))])%list /\
    silent tr.
Proof.
  intros He Hr Hw Hx cmd. unfold launch. rewrite bind_eq. cbn [unsetenv]. rewrite bind_eq.
  cbn [get_proc]. set (k1 := add_event _ k). set (p1 := set_environ _ p).
  rewrite bind_eq.
  destruct (maybe_close_keeps_aux (0 <=? rfd p1) (rfd p1) k1 p1 Hr)
    as (r2 & k2 & p2 & tr2 & -> & Hjs2 & Hkf2 & Hq2 & Hpid2 & Hrfd2 & Hwfd2 & Hc2 & Hsub2).
  rewrite bind_eq. cbn [get_proc]. rewrite bind_eq.
  destruct (maybe_close_keeps_aux (0 <=? wfd p2) (wfd p2) k2 p2)
    as (r3 & k3 & p3 & tr3 & -> & Hjs3 & Hkf3 & Hq3 & Hpid3 & Hrfd3 & Hwfd3 & Hc3 & Hsub3).
  { intros f Hf. apply Hsub2 in Hf. rewrite Hwfd2 in Hf. by apply Hw. }
  cbv zeta. fold cmd. rewrite bind_eq. unfold sys_execvp.
  destruct Hkf2 as (Ha2 & Hf2 & Hs2 & Htr2). destruct Hkf3 as (Ha3 & Hf3 & Hs3 & Htr3).
  assert (fail_exec (faults k3) = None) as -> by (by rewrite Hf3, Hf2).
  rewrite count_auxw_filter.
  2:{ intros j f Hj. apply Hsub3, Hsub2 in Hj. by apply (Hx j). }
  rewrite Nat.sub_diag, Nat.sub_0_r.
  set (kf := add_event _ _). set (pf := set_fds _ _).
  exists kf, pf, ((pid p, EvUnsetenv "MAKEFLAGS") :: tr2 ++ tr3)%list.
  split; [reflexivity|]. subst kf pf. cbn.
  split; [by rewrite Hjs3, Hjs2|]. split; [by rewrite Hf3, Hf2|].
  split; [by rewrite Hs3, Hs2|]. split; [|split].
  - rewrite Ha3, Ha2. subst k1. cbn. by destruct (aux k).
  - rewrite Htr3, Htr2, Hpid3, Hpid2. subst k1. cbn. by rewrite <- !app_assoc.
  - constructor; [by repeat split|]. by apply Forall_app.
Qed.

Lemma count_auxw_none (m : gmap Z file) (i : Z) (f : file) :
  count_auxw m = O -> m !! i = Some f -> is_auxw f = false.
Proof.
  intros H0 Hi. rewrite (count_auxw_delete _ _ _ Hi) in H0.
  by destruct (is_auxw f).
Qed.

(** X16. The whole life cycle, when nothing fails.  Started by a make
    that advertises its jobserver, with tokens in the pipe, [main] takes
    [t = min avail 504] tokens, writes nothing, and becomes the command
    with [###] replaced by [t + 1], leaving two descriptors on the write
    end of the auxiliary pipe: the one the command inherits and the
    watcher's own.  Once the command and its descendants have released
    theirs, the watcher writes the [t] tokens back and exits: the pipe
    holds as many tokens as before. *)
Theorem X16_tokens_come_back_when_the_command_is_done
  (argv : list string) (i o : nat) (k : kernel) (p : proc)
  (env : string) (r0 w0 : Z) (fr fw : file) :
  find_hashes (drop 2 argv) = Some (i, o) -> Forall nul_free argv ->
  environ p !! "MAKEFLAGS" = Some env -> advertised env = Some (r0, w0) ->
  fds p !! r0 = Some fr -> f_kind fr = KJobR -> 0 <= f_flags fr ->
  fds p !! w0 = Some fw -> f_kind fw = KJobW ->
  count_auxw (fds p) = O ->
  fail_open (faults k) = None -> fail_pipe (faults k) = None ->
  fail_fork (faults k) = None -> fail_exec (faults k) = None ->
  js_noise (js k) = [] -> 0 < js_avail (js k) ->
  Forall soft (js_room (js k)) ->
  Z.min (js_avail (js k)) 504 <= room_for (js_room (js k)) ->
  aux_wakes (aux_script (aux k)) 1 0 = true ->
  let t := Z.min (js_avail (js k)) 504 in
  exists k1 p1 k2 p2 pre suf,
    argv !! (2 + i)%nat = Some (pre +:+ "###" +:+ suf) /\ String.length pre = o /\
    system argv k p =
      (Halt (Execed (default "" (argv !! 1%nat))
                    (drop 1 (<[(2 + i)%nat := pre +:+ decimal (t + 1) +:+ suf]> argv)))
            k1 p1,
       Some (Halt (Exited C.EX_OK) k2 p2)) /\
    read_total (pid p) (trace k1) = read_total (pid p) (trace k) + t /\
    written (pid p) w0 (trace k1) = written (pid p) w0 (trace k) /\
    js_avail (js k1) = js_avail (js k) - t /\
    aux_writers (aux k1) = 2%nat /\
    written Watcher w0 (trace k2) = written Watcher w0 (trace k1) + t /\
    js_avail (js k2) = js_avail (js k).
Proof.
  intros Hf Hnul He Ha Hfr Hkr Hfl Hfw Hkw Hcnt Hopen Hpipe Hfork Hexec Hnoise Hav Hsoft
    Hroom Hwake t.
  (* the command line *)
  destruct (marker_rewritten argv i o t k p Hf ltac:(subst t; lia) Hnul)
    as (arg & pre & suf & Harg & -> & <- & _ & _ & Hca & _ & _).
  (* the drain *)
  destruct (get_tokens_drains k p env r0 w0 fr He Ha Hfr Hkr Hfl Hopen Hnoise ltac:(lia))
    as (ka & pa & tra & Hg & Hjsa & Hkfa & Hqa & Hsuma & Hpida & _ & Hfdsa & Hrfda & Hwfda).
  fold t in Hg, Hjsa, Hsuma. assert ((t =? 0) = false) as Et by (subst t; lia).
  rewrite Et in Hg. destruct Hkfa as (Haa & Hfa & Hsa & Htra).
  (* the fork *)
  destruct (create_child_parent t ka pa) as (kb & Hc & Hjsb & Hfb & Hsb & Hab & Htrb);
    [by rewrite Hfa..|].
  destruct (pipe_fds_distinct (fds pa)) as (Hr' & Hw' & Hne').
  set (r1 := alloc_fd (fds pa)) in *.
  set (w1 := alloc_fd (<[r1 := File KAuxR C.O_RDONLY false]> (fds pa))) in *.
  set (pb := set_fds (<[w1 := File KAuxW C.O_WRONLY false]> (fds pa)) pa) in *.
  set (tb := <[w1 := File KAuxW C.O_WRONLY false]>
               (<[r1 := File KAuxR C.O_RDONLY false]> (fds pa))) in *.
  assert (count_auxw tb = 1%nat) as Hcb.
  { subst tb. rewrite !count_auxw_insert; [|done|by rewrite lookup_insert_ne].
    by rewrite Hfdsa, Hcnt. }
  assert (fds pb !! r0 = Some fr /\ fds pb !! w0 = Some fw) as [Hfrb Hfwb].
  { change (fds pb) with (<[w1 := File KAuxW C.O_WRONLY false]> (fds pa)).
    rewrite !lookup_insert_ne by (rewrite Hfdsa in Hw'; congruence).
    by rewrite Hfdsa. }
  (* the launch *)
  set (argv' := <[(2 + i)%nat := pre +:+ decimal (t + 1) +:+ suf]> argv).
  destruct (launch_exec_ok argv' kb pb)
    as (kc & pc & trc & Hl & Hjsc & Hfc & Hsc & Hac & Htrc & Hqc).
  { by rewrite Hfb, Hfa. }
  { change (rfd pb) with (rfd pa). rewrite Hrfda, Hfrb. intros f [= <-].
    unfold is_auxw. by rewrite Hkr. }
  { change (wfd pb) with (wfd pa). rewrite Hwfda, Hfwb. intros f [= <-].
    unfold is_auxw. by rewrite Hkw. }
  { intros j f. change (fds pb) with (<[w1 := File KAuxW C.O_WRONLY false]> (fds pa)).
    rewrite lookup_insert. case_decide; [by intros [= <-]|].
    rewrite Hfdsa. intros Hj Hx. rewrite (count_auxw_none _ _ _ Hcnt Hj) in Hx.
    discriminate. }
  assert (default "" (argv' !! 1%nat) = default "" (argv !! 1%nat)) as Hcmd.
  { subst argv'. by rewrite list_lookup_insert_ne by lia. }
  rewrite Hcmd in Hl, Htrc.
  assert (main argv k p =
          Halt (Execed (default "" (argv !! 1%nat)) (drop 1 argv')) kc pc) as Hmain.
  { unfold main. rewrite bind_eq, Hca.
    rewrite bind_eq, Hg, bind_eq, Hc. cbn [mret M_ret].
    rewrite to_int_small, to_uint_small by (subst t; lia).
    rewrite bind_eq, (rewrite_val argv _ pre suf) by (done || subst t; lia).
    rewrite rewrite_arg_spec; [exact Hl | subst t; lia | |].
    all: pose proof (proj1 (Forall_lookup _ _) Hnul _ _ Harg) as Hn;
         unfold nul_free in Hn; rewrite !list_ascii_app, !not_elem_of_app in Hn;
         by destruct Hn as (? & _ & ?). }
  (* the watcher *)
  unfold system. rewrite Hmain. cbn [res_kernel]. unfold run_child.
  rewrite Hsc, Hsb. cbn [c_tokens c_pipefd c_proc].
  set (pw := set_pid Watcher _).
  destruct (watcher_spec t r1 w1 (set_spawned None kc) pw fw
              (File KAuxR C.O_RDONLY false) (File KAuxW C.O_WRONLY false))
    as (kd & pd & reads & writes & -> & Htrd & Hreads & Hwrites & Hsumd & Havd);
    try done.
  { change (fds pw) with tb. change (wfd pw) with (wfd pa). subst tb.
    rewrite Hwfda, !lookup_insert_ne by (rewrite Hfdsa in Hr', Hw'; congruence).
    by rewrite Hfdsa. }
  { change (fds pw) with tb. subst tb.
    rewrite lookup_insert_ne by done. apply lookup_insert_eq. }
  { change (fds pw) with tb. subst tb. apply lookup_insert_eq. }
  { cbn [aux set_spawned]. rewrite Hac, Hab. cbn [aux_script aux_writers aux_buf].
    fold tb. rewrite Hcb, Haa. exact Hwake. }
  { cbn [js set_spawned]. by rewrite Hjsc, Hjsb, Hjsa. }
  { subst t; lia. }
  { cbn [js set_spawned]. by rewrite Hjsc, Hjsb, Hjsa. }
  change (pid pw) with Watcher in *. change (wfd pw) with (wfd pa) in *.
  rewrite Hwfda in *.
  change (trace (set_spawned None kc)) with (trace kc) in Htrd.
  change (js (set_spawned None kc)) with (js kc) in Havd.
  assert (trace kc = (trace k ++ tra ++ parent_trace (pid p) (r1, w1)
                          (Z.max 1 (child_pid (faults ka))) ++ trc ++
                      [(pid p, EvExecvp (default "" (argv !! 1%nat)) (drop 1 argv')
                                  (Ret 0))])%list) as Hfull.
  { rewrite Htrc, Htrb, Htra. change (pid pb) with (pid pa). rewrite Hpida.
    by rewrite <- !app_assoc. }
  exists kc, pc, kd, pd, pre, suf. split; [done|]. split; [done|].
  split; [reflexivity|]. split; [|split; [|split; [|split; [|split]]]].
  - rewrite Hfull, !read_total_app, Hsuma, (read_total_silent _ trc) by done.
    cbn [parent_trace read_total]. lia.
  - rewrite Hfull, !written_app, (written_quiet _ _ tra) by done.
    rewrite (written_quiet _ _ trc) by (by apply silent_quiet). cbn. lia.
  - by rewrite Hjsc, Hjsb, Hjsa.
  - rewrite Hac, Hab. cbn. fold tb. by rewrite Hcb.
  - rewrite Htrd, written_app, written_watcher_trace by done. by rewrite Hsumd.
  - rewrite Havd, Hjsc, Hjsb, Hjsa. cbn. lia.
Qed.

(** ** Tokens are never made up *)

Lemma get_tokens_open_fails
  (k : kernel) (p : proc) (env : string) (r0 w0 e : Z) (fr : file) :
  environ p !! "MAKEFLAGS" = Some env -> advertised env = Some (r0, w0) ->
  fds p !! r0 = Some fr -> 0 <= f_flags fr -> nonblocking fr = false ->
  fail_open (faults k) = Some e ->
  exists k' p',
    get_tokens k p = Val 0 k' p' /\
    trace k' = (trace k ++
      [(pid p, EvFcntl r0 (Ret (f_flags fr)));
       (pid p, EvOpen r0 (Z.lor (Z.lor C.O_RDONLY C.O_NONBLOCK) C.O_CLOEXEC) (Err e))])%list /\
    js k' = js k /\ spawned k' = spawned k /\ fds p' = fds p /\ errno p' = e.
Proof.
  intros He Ha Hfd Hfl Hnb Hopen. unfold get_tokens.
  rewrite bind_eq, (parse_env_ok k p env r0 w0) by done.
  cbn [Z.ltb Z.compare]. rewrite bind_eq. cbn [get_proc]. rewrite bind_eq.
  unfold sys_fcntl_getfl. cbn [rfd set_wfd set_rfd fds]. rewrite Hfd. cbn [deliver].
  assert ((f_flags fr <? 0) = false) as -> by lia.
  unfold nonblocking in Hnb. apply negb_false_iff in Hnb. rewrite Hnb.
  rewrite bind_eq. unfold sys_open_proc_self_fd. cbn [faults add_event].
  rewrite Hopen. cbn [deliver]. eexists _, _. split; [reflexivity|].
  cbn. by rewrite <- app_assoc.
Qed.

(** With the read end already in non-blocking mode nothing is opened. *)
Lemma get_tokens_drains_nonblocking k p env r0 w0 fr :
  environ p !! "MAKEFLAGS" = Some env -> advertised env = Some (r0, w0) ->
  fds p !! r0 = Some fr -> f_kind fr = KJobR -> 0 <= f_flags fr ->
  nonblocking fr = true ->
  js_noise (js k) = [] -> 0 <= js_avail (js k) ->
  let n := Z.min (js_avail (js k)) 504 in
  exists k1 p1 tr,
    get_tokens k p =
      (if n =? 0 then mret n else r ← create_child n; mret (C.to_uint r)) k1 p1 /\
    js k1 = JsPipe (js_avail (js k) - n) [] (js_room (js k)) /\
    kernel_frame k k1 tr /\ quiet tr /\ read_total (pid p) tr = n /\
    pid p1 = pid p /\ environ p1 = environ p /\ fds p1 = fds p /\
    rfd p1 = r0 /\ wfd p1 = w0.
Proof.
  intros He Ha Hfd Hk Hfl Hnb Hnoise Hav n.
  unfold get_tokens. rewrite bind_eq, (parse_env_ok k p env r0 w0) by done.
  set (p0 := set_wfd w0 (set_rfd r0 p)).
  assert (fds p0 = fds p /\ rfd p0 = r0 /\ wfd p0 = w0 /\ pid p0 = pid p /\
          environ p0 = environ p) as (Hfds0 & Hrfd0 & Hwfd0 & Hpid0 & Henv0) by done.
  clearbody p0. cbn [Z.ltb Z.compare]. rewrite bind_eq. cbn [get_proc].
  rewrite bind_eq. unfold sys_fcntl_getfl. rewrite Hrfd0, Hfds0, Hfd. cbn [deliver].
  assert ((f_flags fr <? 0) = false) as -> by lia.
  set (k0 := add_event _ k).
  assert (js k0 = js k /\ kernel_frame k k0 [(pid p, EvFcntl r0 (Ret (f_flags fr)))])
    as (Hjs0 & Hkf0) by (subst k0; rewrite Hpid0; by repeat split).
  clearbody k0.
  assert ((Z.land (f_flags fr) C.O_NONBLOCK =? 0) = false) as ->.
  { unfold nonblocking in Hnb. by apply negb_true_iff in Hnb. }
  unfold get_tokens_from. rewrite bind_eq.
  destruct (drain_quiet 500 r0 fr 0 k0 p0)
    as (k2 & p2 & tr & -> & Hjs2 & Hkf2 & Hr2 & Hsum2 & Hpf2); try done; try lia.
  { by rewrite Hfds0. }
  { by rewrite Hjs0. }
  { by rewrite Hjs0. }
  { by left. }
  rewrite Hjs0 in *. rewrite Z.add_0_l, Z.sub_0_r in *. fold n in Hjs2, Hsum2 |- *.
  destruct Hpf2 as (Hpid2 & Henv2 & Hfds2 & Hrfd2 & Hwfd2).
  rewrite bind_eq. cbn [get_proc]. rewrite bind_eq.
  rewrite Hrfd2, Hrfd0, Z.eqb_refl. cbn [mret M_ret].
  eexists _, _, ([(pid p, EvFcntl r0 (Ret (f_flags fr)))] ++ tr)%list.
  split; [reflexivity|]. split; [exact Hjs2|].
  rewrite Hpid0 in *.
  split; [|split; [|split]].
  + eapply kernel_frame_trans; eassumption.
  + apply Forall_app; split; [by repeat constructor|by eapply reads_quiet].
  + rewrite read_total_app, Hsum2. cbn. lia.
  + repeat split; congruence.
Qed.

Lemma wait_loop_keeps_js fuel fd f : forall k p,
  fds p !! fd = Some f -> f_kind f = KAuxR ->
  js (res_kernel (wait_loop fuel fd k p)) = js k.
Proof.
  induction fuel as [|fuel IH]; intros k p Hfd Hk; [done|].
  rewrite wait_loop_eq, bind_eq, (sys_read_aux fd f) by done.
  destruct (aux_read 1 (aux k)) as [[n|e|] a]; cbn [fst snd deliver]; [| |done].
  - by destruct (n <? 0); [rewrite (IH _ p)|].
  - assert ((-1 <? 0) = true) as -> by done. by rewrite (IH _ (set_errno e p)).
Qed.

(** The watcher adds at most its tokens to the jobserver pipe. *)
Lemma watcher_adds_at_most tokens r w k p fr :
  fds p !! r = Some fr -> f_kind fr = KAuxR -> r <> w -> 0 <= tokens < 2 ^ 32 ->
  let res := after_fork tokens (r, w) 0 k p in
  js_avail (js k) <= js_avail (js (res_kernel res)) <= js_avail (js k) + tokens.
Proof.
  intros Hfr Hk Hne Ht res. subst res. unfold after_fork.
  cbn [Z.ltb Z.eqb Z.compare fst snd]. rewrite bind_eq.
  destruct (sys_close_cases w k p)
    as (v & sr & k1 & p1 & -> & _ & Hfds1 & _ & _ & _ & _ & Hjs1 & _).
  assert (fds p1 !! r = Some fr) as Hfr1 by (rewrite Hfds1; by rewrite lookup_delete_ne).
  rewrite bind_eq. set (fuel := S _).
  pose proof (wait_loop_keeps_js fuel r fr k1 p1 Hfr1 Hk) as Hjs2.
  clearbody fuel.
  destruct (wait_loop fuel r k1 p1) as [[] k2 p2|h k2 p2]; cbn in Hjs2 |- *.
  2:{ rewrite Hjs2, Hjs1. lia. }
  rewrite bind_eq.
  destruct (put_tokens_bound tokens k2 p2 Ht) as (tr & _ & _ & Hsum & Hav & _).
  rewrite Hjs2, Hjs1 in Hav.
  destruct (put_tokens tokens k2 p2) as [[] k3 p3|h k3 p3]; cbn in Hav |- *; lia.
Qed.

Lemma launch_keeps_js argv k p :
  js (res_kernel (launch argv k p)) = js k /\
  spawned (res_kernel (launch argv k p)) = spawned k.
Proof.
  destruct (launch_cases argv k p)
    as (k' & p' & tr & _ & Hjs & _ & Hsp & _ & _ & _ & _ &
        [(_ & -> & _)|(e & _ & -> & _)]); by split.
Qed.

Lemma rewrite_keeps_state argv h t k p :
  res_kernel (rewrite argv h t k p) = k /\ res_proc (rewrite argv h t k p) = p.
Proof.
  unfold rewrite. rewrite !bind_eq. unfold assert.
  repeat (match goal with |- context [if ?b then _ else _] => destruct b end;
          cbn [mret M_ret stop]; rewrite ?bind_eq); done.
Qed.

Lemma check_args_keeps_js argv k p :
  js (res_kernel (check_args argv k p)) = js k /\
  spawned (res_kernel (check_args argv k p)) = spawned k /\
  forall h k' p', check_args argv k p = Val h k' p' -> k' = k /\ p' = p.
Proof.
  destruct (check_args_cases argv k p) as [(msg & _ & ->)|(i & o & _ & ->)].
  - by repeat split.
  - repeat split; congruence.
Qed.

(** What [get_tokens] does to the jobserver pipe when nobody else
    touches it: it forks a watcher that holds what was taken, or it
    leaves in the pipe at least what it found minus what it could not
    write back. *)
Lemma get_tokens_takes k p env r0 w0 fr :
  environ p !! "MAKEFLAGS" = Some env -> advertised env = Some (r0, w0) ->
  fds p !! r0 = Some fr -> f_kind fr = KJobR -> 0 <= f_flags fr ->
  js_noise (js k) = [] -> 0 <= js_avail (js k) ->
  let r := get_tokens k p in
  (exists t k1 p1 pw r1 w1,
     r = Val t k1 p1 /\ 0 < t <= 504 /\
     js_avail (js k1) = js_avail (js k) - t /\
     spawned k1 = Some (Child pw t (r1, w1)) /\
     fds pw !! r1 = Some (File KAuxR C.O_RDONLY false) /\ r1 <> w1) \/
  (spawned (res_kernel r) = spawned k /\
   js_avail (js k) - 504 <= js_avail (js (res_kernel r)) <= js_avail (js k)).
Proof.
  intros He Ha Hfr Hkr Hfl Hnoise Hav r. subst r.
  assert (let n := Z.min (js_avail (js k)) 504 in
          (exists k' p', get_tokens k p = Val 0 k' p' /\ js k' = js k /\
                         spawned k' = spawned k) \/
          exists k1 p1,
            get_tokens k p =
              (if n =? 0 then mret n else r ← create_child n; mret (C.to_uint r)) k1 p1 /\
            js k1 = JsPipe (js_avail (js k) - n) [] (js_room (js k)) /\
            spawned k1 = spawned k) as Hd.
  { destruct (nonblocking fr) eqn:Hnb.
    - right.
      destruct (get_tokens_drains_nonblocking k p env r0 w0 fr)
        as (k1 & p1 & tr & E & Hjs & Hkf & _); try done.
      exists k1, p1. split; [done|]. split; [done|]. apply Hkf.
    - destruct (fail_open (faults k)) as [e|] eqn:Hopen.
      + left. destruct (get_tokens_open_fails k p env r0 w0 e fr)
          as (k' & p' & E & _ & Hjs & Hsp & _); try done. by exists k', p'.
      + right.
        destruct (get_tokens_drains k p env r0 w0 fr)
          as (k1 & p1 & tr & E & Hjs & Hkf & _); try done.
        exists k1, p1. split; [done|]. split; [done|]. apply Hkf. }
  cbv zeta in Hd. destruct Hd as [(k' & p' & -> & Hjs & Hsp)|(k1 & p1 & -> & Hjs & Hsp)].
  { right. cbn. rewrite Hjs. split; [done|lia]. }
  set (n := Z.min (js_avail (js k)) 504) in *.
  destruct (Z.eqb_spec n 0) as [E0|E0].
  { right. cbn. rewrite Hjs. cbn. split; [done|lia]. }
  destruct (then_map (create_child n) C.to_uint k1 p1) as (Ek & Ep & Eh & Ev).
  destruct (create_child_cases n k1 p1 ltac:(lia))
    as [(k2 & Hc & _ & _ & Hjs2 & _ & Hsp2 & _)|
        (e & pf & tr & _ & _ & _ & Hsum & Hav2 & _ & Hsp2 & _)].
  - left. destruct (pipe_fds_distinct (fds p1)) as (_ & _ & Hne).
    eexists n, k2, _, _, _, _. split; [by rewrite bind_eq, Hc, to_uint_small by lia|].
    split; [lia|]. split; [rewrite Hjs2, Hjs; cbn; lia|]. split; [exact Hsp2|].
    split; [|done]. cbn. rewrite lookup_insert_ne by done. apply lookup_insert_eq.
  - right. rewrite Ek. split; [congruence|]. rewrite Hjs in Hav2. cbn in Hav2. lia.
Qed.

(** X17. Tokens are never made up.  With the advertised read
    descriptor on the jobserver pipe and nobody else touching the pipe,
    whatever fails ([open], [pipe], [fork], [execvp], a [write]) and
    whatever happens to the auxiliary pipe, the jobserver pipe never
    holds more tokens than at the start, neither when [main] has ended
    nor when the watcher has; and at most 504 are missing. *)
Theorem X17_jobhog_never_adds_tokens
  (argv : list string) (k : kernel) (p : proc) (env : string) (r0 w0 : Z) (fr : file) :
  environ p !! "MAKEFLAGS" = Some env -> advertised env = Some (r0, w0) ->
  fds p !! r0 = Some fr -> f_kind fr = KJobR -> 0 <= f_flags fr ->
  js_noise (js k) = [] -> 0 <= js_avail (js k) -> spawned k = None ->
  let s := system argv k p in
  js_avail (js k) - 504 <= js_avail (js (res_kernel (fst s))) <= js_avail (js k) /\
  forall rw, snd s = Some rw ->
             js_avail (js k) - 504 <= js_avail (js (res_kernel rw)) <= js_avail (js k).
Proof.
  intros He Ha Hfr Hkr Hfl Hnoise Hav Hsp s. subst s. unfold system. cbn [fst snd].
  unfold main. rewrite bind_eq.
  destruct (check_args_keeps_js argv k p) as (Hjs0 & Hsp0 & Hv0).
  destruct (check_args argv k p) as [h k0 p0|h k0 p0]; cbn in Hjs0, Hsp0.
  2:{ cbn. unfold run_child. rewrite Hsp0, Hsp, Hjs0. split; [lia|discriminate]. }
  destruct (Hv0 _ _ _ eq_refl) as [-> ->]. clear Hjs0 Hsp0 Hv0. rewrite bind_eq.
  destruct (get_tokens_takes k p env r0 w0 fr He Ha Hfr Hkr Hfl Hnoise Hav)
    as [(t & k1 & p1 & pw & r1 & w1 & -> & Ht & Hjs1 & Hsp1 & Hr1 & Hne)|(Hsp1 & Hjs1)].
  - rewrite bind_eq. destruct (rewrite_keeps_state argv h t k1 p1) as [Hk Hp].
    destruct (rewrite argv h t k1 p1) as [argv' k2 p2|h2 k2 p2]; cbn in Hk, Hp; subst k2 p2.
    + destruct (launch_keeps_js argv' k1 p1) as [Hjs2 Hsp2].
      rewrite Hjs2, Hjs1. split; [lia|]. unfold run_child. rewrite Hsp2, Hsp1.
      intros rw [= <-]. cbn [c_tokens c_pipefd c_proc].
      pose proof (watcher_adds_at_most t r1 w1
                    (set_spawned None (res_kernel (launch argv' k1 p1))) pw _
                    Hr1 eq_refl Hne ltac:(lia)) as Hw.
      cbv zeta in Hw. cbn [js set_spawned] in Hw. rewrite Hjs2, Hjs1 in Hw. lia.
    + cbn [res_kernel]. rewrite Hjs1. split; [lia|]. unfold run_child. rewrite Hsp1.
      intros rw [= <-]. cbn [c_tokens c_pipefd c_proc].
      pose proof (watcher_adds_at_most t r1 w1 (set_spawned None k1) pw _
                    Hr1 eq_refl Hne ltac:(lia)) as Hw.
      cbv zeta in Hw. cbn [js set_spawned] in Hw. rewrite Hjs1 in Hw. lia.
  - destruct (get_tokens k p) as [t k1 p1|h1 k1 p1]; cbn in Hsp1, Hjs1.
    2:{ cbn. unfold run_child. rewrite Hsp1, Hsp. split; [lia|discriminate]. }
    rewrite bind_eq. destruct (rewrite_keeps_state argv h t k1 p1) as [Hk Hp].
    destruct (rewrite argv h t k1 p1) as [argv' k2 p2|h2 k2 p2]; cbn in Hk, Hp; subst k2 p2.
    + destruct (launch_keeps_js argv' k1 p1) as [Hjs2 Hsp2].
      rewrite Hjs2. split; [lia|]. unfold run_child. by rewrite Hsp2, Hsp1, Hsp.
    + cbn. unfold run_child. rewrite Hsp1, Hsp. split; [lia|discriminate].
Qed.

(** ** The ways out before the loop *)

(** X4. When the read descriptor of the advertisement is not open
    ([fcntl] fails with EBADF; a make that keeps a recipe away from its
    jobserver advertises a pair of negative numbers), [get_tokens]
    returns 0 after that one call: nothing is read, opened or forked. *)
Theorem X4_closed_read_descriptor_means_no_token
  (k : kernel) (p : proc) (env : string) (r0 w0 : Z) :
  environ p !! "MAKEFLAGS" = Some env -> advertised env = Some (r0, w0) ->
  fds p !! r0 = None ->
  get_tokens k p =
    Val 0 (add_event (pid p, EvFcntl r0 (Err C.EBADF)) k)
          (set_errno C.EBADF (set_wfd w0 (set_rfd r0 p))).
Proof.
  intros He Ha Hfd. unfold get_tokens.
  rewrite bind_eq, (parse_env_ok k p env r0 w0) by done.
  cbn [Z.ltb Z.compare]. rewrite bind_eq. cbn [get_proc]. rewrite bind_eq.
  unfold sys_fcntl_getfl. cbn [rfd set_wfd set_rfd fds]. by rewrite Hfd.
Qed.

(** X5. When the read end is in blocking mode and cannot be opened
    again through /proc/self/fd, [get_tokens] returns 0: its only calls
    are [fcntl] and the failed [open], the jobserver pipe keeps its
    tokens, no process is forked and the descriptor table is as it
    was. *)
Theorem X5_failed_reopen_means_no_token
  (k : kernel) (p : proc) (env : string) (r0 w0 e : Z) (fr : file) :
  environ p !! "MAKEFLAGS" = Some env -> advertised env = Some (r0, w0) ->
  fds p !! r0 = Some fr -> 0 <= f_flags fr -> nonblocking fr = false ->
  fail_open (faults k) = Some e ->
  exists k' p',
    get_tokens k p = Val 0 k' p' /\
    trace k' = (trace k ++
      [(pid p, EvFcntl r0 (Ret (f_flags fr)));
       (pid p, EvOpen r0 (Z.lor (Z.lor C.O_RDONLY C.O_NONBLOCK) C.O_CLOEXEC) (Err e))])%list /\
    js k' = js k /\ spawned k' = spawned k /\ fds p' = fds p /\ errno p' = e.
Proof. apply get_tokens_open_fails. Qed.

Lemma sscanf_lone_number (r : Z) (tail : string) :
  0 <= r < 2 ^ 31 -> ends_number tail -> (forall s, tail <> "," +:+ s) ->
  Libc.sscanf_eq_d_comma_d ("=" +:+ decimal r +:+ tail) = (1, Some r, None).
Proof.
  intros Hr He Hc.
  change ("=" +:+ decimal r +:+ tail) with (String "=" (decimal r +:+ tail)).
  unfold Libc.sscanf_eq_d_comma_d.
  change (Libc.scan_lit "=" (String "=" ?s)) with (Some s). cbv iota beta.
  rewrite scan_d_decimal by done.
  destruct tail as [|c s]; [done|]. cbn [Libc.scan_lit].
  destruct (Ascii.eqb_spec c ",") as [->|]; [|done].
  by destruct (Hc s).
Qed.

(** With [rfd] set and [wfd] negative, [launch] closes [rfd] and nothing
    else. *)
Lemma launch_closes_rfd_only argv r k p :
  0 <= r -> rfd p = r -> wfd p < 0 ->
  exists sr tr,
    trace (res_kernel (launch argv k p)) =
      (trace k ++ (pid p, EvUnsetenv "MAKEFLAGS") :: (pid p, EvClose r sr) :: tr)%list /\
    Forall (fun e => forall fd x, snd e <> EvClose fd x) tr /\
    fds (res_proc (launch argv k p)) !! r = None.
Proof.
  intros Hr Hrfd Hw.
  unfold launch. rewrite bind_eq. cbn [unsetenv]. rewrite bind_eq.
  cbn [get_proc rfd set_environ]. rewrite Hrfd.
  assert ((0 <=? r) = true) as -> by lia.
  set (k1 := add_event _ k). set (p1 := set_environ _ _).
  rewrite bind_eq.
  destruct (sys_close_cases r k1 p1)
    as (v & sr & k2 & p2 & -> & Htr2 & Hfds2 & Hpid2 & Henv2 & Hrfd2 & Hwfd2 & _ & Hfa2 & _).
  rewrite bind_eq. cbn [get_proc]. rewrite bind_eq. rewrite Hwfd2.
  change (wfd p1) with (wfd p). assert ((0 <=? wfd p) = false) as -> by lia.
  cbn [mret M_ret]. cbv zeta. rewrite bind_eq. unfold sys_execvp.
  exists sr. destruct (fail_exec (faults k2)) as [e|].
  - cbn [deliver]. rewrite bind_eq. cbn [get_proc]. rewrite bind_eq.
    unfold error. cbn [errno set_errno C.EX_OSERR Z.eqb].
    eexists [_; _; _]. cbn. rewrite Htr2. subst k1. cbn.
    rewrite <- !app_assoc. split; [reflexivity|]. split; [by repeat constructor|done].
  - eexists [_]. cbn. rewrite Htr2. subst k1. cbn.
    rewrite <- !app_assoc. split; [reflexivity|]. split; [by repeat constructor|].
    apply map_lookup_filter_None. left. rewrite Hfds2. apply lookup_delete_eq.
Qed.

(** X3. A [--jobserver-auth=R] with nothing after the first number
    that [sscanf] can go on with: [sscanf] has stored R in [rfd] when it
    gives up, so [parse_env] returns -1 with [rfd = R]; [get_tokens]
    returns 0 without a system call; and, [rfd] being non-negative,
    [main] closes descriptor R after [unsetenv], the only descriptor it
    closes while [wfd] is negative: the command does not inherit it. *)
Theorem X3_lone_descriptor_number_is_kept_and_closed
  (argv : list string) (i o : nat) (env tail : string) (o1 : nat) (r : Z)
  (k : kernel) (p : proc) :
  find_hashes (drop 2 argv) = Some (i, o) ->
  environ p !! "MAKEFLAGS" = Some env ->
  Libc.strstr env "--jobserver-auth=" = Some o1 ->
  Libc.str_drop (o1 + String.length "--jobserver-auth=") env = decimal r +:+ tail ->
  0 <= r < 2 ^ 31 -> ends_number tail -> (forall s, tail <> "," +:+ s) ->
  wfd p < 0 ->
  parse_env k p = Val (-1) k (set_rfd r p) /\
  get_tokens k p = Val 0 k (set_rfd r p) /\
  exists sr tr,
    trace (res_kernel (main argv k p)) =
      (trace k ++ (pid p, EvUnsetenv "MAKEFLAGS") :: (pid p, EvClose r sr) :: tr)%list /\
    Forall (fun e => forall fd x, snd e <> EvClose fd x) tr /\
    fds (res_proc (main argv k p)) !! r = None.
Proof.
  intros Hf He Hs Ht Hr Hn Hc Hw.
  assert (parse_env k p = Val (-1) k (set_rfd r p)) as Hpe.
  { unfold parse_env, getenv. rewrite bind_eq, He.
    unfold first_jobserver_option. rewrite Hs, (option_text _ _ _ _ Hs Ht).
    change (Libc.strchr ("--jobserver-auth=" +:+ ?s) "=") with (Some 16%nat).
    cbv iota beta.
    change (Libc.str_drop 16 ("--jobserver-auth=" +:+ ?s)) with ("=" +:+ s).
    by rewrite sscanf_lone_number. }
  assert (get_tokens k p = Val 0 k (set_rfd r p)) as Hg
    by (unfold get_tokens; by rewrite bind_eq, Hpe).
  split; [exact Hpe|]. split; [exact Hg|].
  destruct (main_cases argv k p)
    as [(msg & k2 & p2 & [Hlen|Hno] & _)|
        (i' & o' & pre & suf & _ & _ & _ &
         [(k1 & p1 & Hg' & _)|(t & k1 & p1 & Hg' & _ & ->)])]; try congruence.
  { destruct argv as [|? [|? [|? ?]]]; simpl in *; try discriminate; lia. }
  rewrite Hg in Hg'. injection Hg' as <- <- <-.
  apply (launch_closes_rfd_only _ r k (set_rfd r p)); [lia|done..].
Qed.

(** ** The search for the marker *)

(** X18. [find_hashes] misses no marker: it returns NULL exactly when no
    argument contains [###]. *)
Theorem X18_find_hashes_misses_no_marker (l : list string) :
  find_hashes l = None <->
  forall a pre suf, a ∈ l -> a <> pre +:+ "###" +:+ suf.
Proof.
  split.
  - intros H a pre suf Ha. apply find_hashes_None in H.
    apply (strstr_None a "###"). by apply (proj1 (Forall_forall _ _) H).
  - intros H. destruct (find_hashes l) as [[i o]|] eqn:E; [|done].
    destruct (find_hashes_Some _ _ _ E) as (a & Ha & Ho & _).
    apply strstr_Some in Ho as (pre & suf & -> & _).
    exfalso. apply (H (pre +:+ "###" +:+ suf) pre suf); [|done].
    by eapply list_elem_of_lookup_2.
Qed.

(** ** The watcher ends *)




(** ** The further theorems at work on the fixtures *)

Lemma X1_witness :
  parse_env (kernel0 13 [] [] [] no_faults)
            (proc0 {["MAKEFLAGS" := "--jobserver-fds=7,8 -j --jobserver-auth=3,4 -k"]})
    = Val 0 (kernel0 13 [] [] [] no_faults)
          (set_wfd 4 (set_rfd 3
             (proc0 {["MAKEFLAGS" := "--jobserver-fds=7,8 -j --jobserver-auth=3,4 -k"]}))).
Proof.
  apply (X1_auth_option_is_preferred
           "--jobserver-fds=7,8 -j --jobserver-auth=3,4 -k" " -k" 23 3 4).
  - vm_compute; reflexivity.
  - vm_compute; reflexivity.
  - vm_compute; reflexivity.
  - lia.
  - lia.
  - vm_compute; reflexivity.
Defined.

Lemma X2_witness :
  parse_env (kernel0 13 [] [] [] no_faults)
            (proc0 {["MAKEFLAGS" := "w -j4 --jobserver-fds=3,4 -j"]})
    = Val 0 (kernel0 13 [] [] [] no_faults)
          (set_wfd 4 (set_rfd 3 (proc0 {["MAKEFLAGS" := "w -j4 --jobserver-fds=3,4 -j"]}))).
Proof.
  apply (X2_fds_option_is_the_fallback
           "w -j4 --jobserver-fds=3,4 -j" " -j" 6 3 4).
  - vm_compute; reflexivity.
  - vm_compute; reflexivity.
  - vm_compute; reflexivity.
  - vm_compute; reflexivity.
  - lia.
  - lia.
  - vm_compute; reflexivity.
Defined.

Lemma X10_witness :
  exists k' p',
    put_tokens 13 (kernel0 0 [] [WrRoom 5; WrFault C.EAGAIN; WrFault 32; WrRoom 100]
                     [] no_faults) (proc34 C.O_RDONLY) = Val tt k' p' /\
    js_avail (js k') = 0 + 5 /\ js_room (js k') = [WrRoom 100].
Proof.
  destruct (X10_put_tokens_gives_up_on_a_hard_error 13 32 [WrRoom 5; WrFault C.EAGAIN]
              [WrRoom 100]
              (kernel0 0 [] [WrRoom 5; WrFault C.EAGAIN; WrFault 32; WrRoom 100]
                 [] no_faults)
              (proc34 C.O_RDONLY) (File KJobW C.O_WRONLY false))
    as (k' & p' & tr & H & _ & _ & _ & Hav & _ & Hroom & _).
  - vm_compute; reflexivity.
  - reflexivity.
  - reflexivity.
  - repeat constructor.
  - discriminate.
  - discriminate.
  - vm_compute. split; reflexivity.
  - exists k', p'. split; [exact H|]. split; [exact Hav | exact Hroom].
Defined.


Lemma X7_witness :
  exists c,
    spawned (res_kernel (get_tokens (kernel0 13 [] [] [] no_faults) (proc0 makeflags)))
      = Some c /\ c_tokens c = 13.
Proof.
  destruct (X7_returned_count_is_held_by_a_watcher
              (kernel0 13 [] [] [] no_faults) (proc0 makeflags) 13
              (res_kernel (get_tokens (kernel0 13 [] [] [] no_faults) (proc0 makeflags)))
              (res_proc (get_tokens (kernel0 13 [] [] [] no_faults) (proc0 makeflags))))
    as (tr & _ & _ & Hpos & _).
  - vm_compute; reflexivity.
  - destruct (Hpos ltac:(lia)) as (_ & _ & c & Hsp & Hc & _).
    exists c. split; [exact Hsp | exact Hc].
Defined.

Lemma X8_witness :
  exists w,
    make_fds C.O_RDONLY !! w = None /\
    fds (res_proc (get_tokens (kernel0 13 [] [] [] no_faults) (proc0 makeflags)))
      = <[w := File KAuxW C.O_WRONLY false]> (make_fds C.O_RDONLY).
Proof.
  destruct (X8_get_tokens_leaves_one_new_descriptor
              (kernel0 13 [] [] [] no_faults) (proc0 makeflags) 13
              (res_kernel (get_tokens (kernel0 13 [] [] [] no_faults) (proc0 makeflags)))
              (res_proc (get_tokens (kernel0 13 [] [] [] no_faults) (proc0 makeflags))))
    as (_ & _ & _ & Hpos).
  - vm_compute; reflexivity.
  - destruct (Hpos ltac:(lia)) as (w & Hw & Hfds).
    exists w. split; [exact Hw | exact Hfds].
Defined.

Lemma X6_witness :
  no_blocked_read
    [(Main, EvFcntl 3 (Ret 0)); (Main, EvOpen 3 526336 (Ret 5));
     (Main, EvRead 5 8 (Err C.EAGAIN)); (Main, EvClose 5 (Ret 0))].
Proof.
  apply (X6_get_tokens_never_sleeps_in_read
           (kernel0 0 [] [] [] no_faults) (proc0 makeflags)
           " -j --jobserver-auth=3,4" 3 4 (File KJobR C.O_RDONLY false)).
  - vm_compute; reflexivity.
  - vm_compute; reflexivity.
  - vm_compute; reflexivity.
  - reflexivity.
  - vm_compute; reflexivity.
Defined.

Lemma X4_witness :
  get_tokens (kernel0 13 [] [] [] no_faults)
             (proc0 {["MAKEFLAGS" := " -j8 --jobserver-auth=-2,-2"]}) =
    Val 0 (add_event (Main, EvFcntl (-2) (Err C.EBADF)) (kernel0 13 [] [] [] no_faults))
          (set_errno C.EBADF
             (set_wfd (-2) (set_rfd (-2)
                (proc0 {["MAKEFLAGS" := " -j8 --jobserver-auth=-2,-2"]})))).
Proof.
  apply (X4_closed_read_descriptor_means_no_token
           (kernel0 13 [] [] [] no_faults)
           (proc0 {["MAKEFLAGS" := " -j8 --jobserver-auth=-2,-2"]})
           " -j8 --jobserver-auth=-2,-2" (-2) (-2)).
  - vm_compute; reflexivity.
  - vm_compute; reflexivity.
  - vm_compute; reflexivity.
Defined.

Lemma X5_witness :
  exists k' p',
    get_tokens (kernel0 13 [] [] [] (Plan (Some C.ENOENT) None None None 1000))
               (proc0 makeflags) = Val 0 k' p' /\
    js k' = JsPipe 13 [] [].
Proof.
  destruct (X5_failed_reopen_means_no_token
              (kernel0 13 [] [] [] (Plan (Some C.ENOENT) None None None 1000))
              (proc0 makeflags) " -j --jobserver-auth=3,4" 3 4 C.ENOENT
              (File KJobR C.O_RDONLY false))
    as (k' & p' & H & _ & Hjs & _).
  - vm_compute; reflexivity.
  - vm_compute; reflexivity.
  - vm_compute; reflexivity.
  - vm_compute; discriminate.
  - reflexivity.
  - reflexivity.
  - exists k', p'. split; [exact H | exact Hjs].
Defined.

Lemma X3_witness :
  get_tokens (kernel0 13 [] [] [] no_faults)
             (proc0 {["MAKEFLAGS" := " -j --jobserver-auth=3 -k"]}) =
    Val 0 (kernel0 13 [] [] [] no_faults)
          (set_rfd 3 (proc0 {["MAKEFLAGS" := " -j --jobserver-auth=3 -k"]})) /\
  fds (res_proc (main argv_ok (kernel0 13 [] [] [] no_faults)
                   (proc0 {["MAKEFLAGS" := " -j --jobserver-auth=3 -k"]}))) !! 3 = None.
Proof.
  destruct (X3_lone_descriptor_number_is_kept_and_closed argv_ok 0 2
              " -j --jobserver-auth=3 -k" " -k" 4 3
              (kernel0 13 [] [] [] no_faults)
              (proc0 {["MAKEFLAGS" := " -j --jobserver-auth=3 -k"]}))
    as (_ & H & sr & tr & _ & _ & Hfd).
  - reflexivity.
  - vm_compute; reflexivity.
  - vm_compute; reflexivity.
  - vm_compute; reflexivity.
  - lia.
  - vm_compute; reflexivity.
  - intros s. discriminate.
  - vm_compute; reflexivity.
  - split; [exact H | exact Hfd].
Defined.

Lemma X11_witness :
  aux_writers (aux (res_kernel
    (after_fork 13 (5, 6) 0 (watcher_kernel [AuxSignal; AuxRelease]) watcher_proc))) = O.
Proof.
  apply (X11_watcher_writes_only_after_release 13 5 6 (watcher_kernel [AuxSignal; AuxRelease])
           watcher_proc (File KAuxW C.O_WRONLY false) (File KAuxR C.O_RDONLY false))
    with (tr := [(Watcher, EvClose 6 (Ret 0)); (Watcher, EvRead 5 1 (Err C.EINTR));
                 (Watcher, EvRead 5 1 (Ret 0)); (Watcher, EvWrite 4 8 (Ret 8));
                 (Watcher, EvWrite 4 5 (Ret 5)); (Watcher, EvExit 0)]).
  - vm_compute; reflexivity.
  - vm_compute; reflexivity.
  - reflexivity.
  - discriminate.
  - intros H. apply elem_of_cons in H as [H|H]; [discriminate|].
    apply elem_of_cons in H as [H|H]; [discriminate|]. by apply elem_of_nil in H.
  - vm_compute; discriminate.
  - vm_compute; reflexivity.
  - apply Exists_cons_tl, Exists_cons_tl, Exists_cons_tl, Exists_cons_hd.
    exists 4, 8, (Ret 8). reflexivity.
Defined.

Lemma X12_witness :
  environ (res_proc (main argv_ok (kernel0 13 [] room2 [] no_faults) (proc0 makeflags)))
    !! "MAKEFLAGS" = None.
Proof.
  destruct (X12_command_never_sees_MAKEFLAGS argv_ok
              (kernel0 13 [] room2 [] no_faults) (proc0 makeflags)
              "mybuild" ["mybuild"; "-j14"; "--flag"]
              (res_kernel (main argv_ok (kernel0 13 [] room2 [] no_faults) (proc0 makeflags)))
              (res_proc (main argv_ok (kernel0 13 [] room2 [] no_faults) (proc0 makeflags))))
    as (_ & H & _).
  - vm_compute; reflexivity.
  - exact H.
Defined.

Lemma X13_witness :
  exists i pre suf t,
    argv_ok !! (2 + i)%nat = Some (pre +:+ "###" +:+ suf) /\
    ["mybuild"; "-j14"; "--flag"] =
      drop 1 (<[(2 + i)%nat := pre +:+ decimal (t + 1) +:+ suf]> argv_ok).
Proof.
  destruct (X13_command_line_is_passed_on_with_the_count argv_ok
              (kernel0 13 [] room2 [] no_faults) (proc0 makeflags)
              "mybuild" ["mybuild"; "-j14"; "--flag"]
              (res_kernel (main argv_ok (kernel0 13 [] room2 [] no_faults) (proc0 makeflags)))
              (res_proc (main argv_ok (kernel0 13 [] room2 [] no_faults) (proc0 makeflags))))
    as (i & o & pre & suf & t & k1 & p1 & _ & Harg & _ & _ & _ & _ & Ha).
  - vm_compute; reflexivity.
  - exact nul_free_fixture.
  - exists i, pre, suf, t. split; [exact Harg | exact Ha].
Defined.

Lemma X14_witness :
  (0 <= 3 -> fds (res_proc (main argv_ok (kernel0 13 [] room2 [] no_faults)
                              (proc0 makeflags))) !! 3 = None) /\
  (0 <= 4 -> fds (res_proc (main argv_ok (kernel0 13 [] room2 [] no_faults)
                              (proc0 makeflags))) !! 4 = None).
Proof.
  destruct (X14_command_inherits_no_advertised_descriptor argv_ok
              (kernel0 13 [] room2 [] no_faults) (proc0 makeflags)
              "mybuild" ["mybuild"; "-j14"; "--flag"]
              (res_kernel (main argv_ok (kernel0 13 [] room2 [] no_faults) (proc0 makeflags)))
              (res_proc (main argv_ok (kernel0 13 [] room2 [] no_faults) (proc0 makeflags))))
    as (Hr & Hw & _).
  - vm_compute; reflexivity.
  - split; [exact Hr | exact Hw].
Defined.

Lemma X16_witness :
  exists c a k1 p1 k2 p2,
    system argv_ok (kernel0 13 [] room2 [AuxDup; AuxRelease; AuxRelease] no_faults)
           (proc0 makeflags)
      = (Halt (Execed c a) k1 p1, Some (Halt (Exited C.EX_OK) k2 p2)) /\
    js_avail (js k1) = 13 - 13 /\ js_avail (js k2) = 13.
Proof.
  destruct (X16_tokens_come_back_when_the_command_is_done argv_ok 0 2
              (kernel0 13 [] room2 [AuxDup; AuxRelease; AuxRelease] no_faults)
              (proc0 makeflags)
              " -j --jobserver-auth=3,4" 3 4
              (File KJobR C.O_RDONLY false) (File KJobW C.O_WRONLY false))
    as (k1 & p1 & k2 & p2 & pre & suf & Harg & Hlen & H & _ & _ & Hav1 & _ & _ & Hav2).
  - vm_compute; reflexivity.
  - exact nul_free_fixture.
  - vm_compute; reflexivity.
  - vm_compute; reflexivity.
  - vm_compute; reflexivity.
  - reflexivity.
  - vm_compute; discriminate.
  - vm_compute; reflexivity.
  - reflexivity.
  - vm_compute; reflexivity.
  - reflexivity.
  - reflexivity.
  - reflexivity.
  - reflexivity.
  - reflexivity.
  - vm_compute; reflexivity.
  - repeat constructor.
  - vm_compute; discriminate.
  - vm_compute; reflexivity.
  - eexists _, _, k1, p1, k2, p2. split; [exact H|]. split; [exact Hav1 | exact Hav2].
Defined.

Lemma X17_witness :
  from_option (fun rw => 13 - 504 <= js_avail (js (res_kernel rw)) <= 13) False
    (snd (system argv_ok
            (kernel0 13 [] [WrRoom 8; WrFault 32] [AuxRelease] no_faults)
            (proc0 makeflags))).
Proof.
  destruct (X17_jobhog_never_adds_tokens argv_ok
              (kernel0 13 [] [WrRoom 8; WrFault 32] [AuxRelease] no_faults)
              (proc0 makeflags) " -j --jobserver-auth=3,4" 3 4
              (File KJobR C.O_RDONLY false))
    as (_ & H).
  - vm_compute; reflexivity.
  - vm_compute; reflexivity.
  - vm_compute; reflexivity.
  - reflexivity.
  - vm_compute; discriminate.
  - reflexivity.
  - vm_compute; discriminate.
  - reflexivity.
  - destruct (snd (system argv_ok
                     (kernel0 13 [] [WrRoom 8; WrFault 32] [AuxRelease] no_faults)
                     (proc0 makeflags))) as [rw|] eqn:E.
    + apply H. reflexivity.
    + vm_compute in E. discriminate E.
Defined.

